(** * Tool-life tracker: storage, normalisers, ledger and approval workflow

    A shallow embedding of the Python sources

    - [app/storage.py]        (JSON helpers, month workbook access),
    - [app/ui_master_data.py] (the store normalisers),
    - [app/action_store.py]   (the action / NCR ledger),
    - [app/ui_toolchanger.py], [app/ui_quality.py], [app/ui_leader.py]
      (record creation, the two approval transitions, the defect dialog),
    - [app/ui_admin.py]       (user management),
    - [app/permissions.py]    (the permission table),

    followed by the properties established for them.

    Conventions.  Python exceptions are values of [exn]; code that can raise
    returns a [result].  Code that touches the disk or the wall clock runs in
    the monad [M] over a [world] (a finite map from paths to file contents, a
    clock and the number of clock readings made so far).  A Python [dict] is
    an association list in insertion order; a [DataFrame] is an ordered list
    of named columns. *)

From Stdlib Require Import ZArith Ascii String List Lia Bool DecimalString Sorted.
From stdpp Require Import base gmap strings list.

Set Warnings "-register-all".

(** ** Python values shared by all modules *)

Module Py.

(** The exceptions the modelled code can raise. *)
Inductive exn :=
| AttributeError   (* method looked up on a value that lacks it *)
| TypeError        (* operation applied to a value of the wrong type *)
| KeyError         (* missing column label *)
| FileNotFound     (* reading a path that holds no file *)
| BadWorkbook.     (* the bytes at the path are not a workbook *)

Inductive result (A : Type) :=
| Ok (a : A)
| Raise (e : exn).
Arguments Ok {A} a.
Arguments Raise {A} e.

Definition rbind {A B} (r : result A) (k : A -> result B) : result B :=
  match r with
  | Ok a => k a
  | Raise e => Raise e
  end.

(** [for x in xs: acc = body(acc, x)], stopping at the first exception. *)
Fixpoint rfold {A B} (body : B -> A -> result B) (acc : B) (xs : list A)
  : result B :=
  match xs with
  | [] => Ok acc
  | x :: rest => rbind (body acc x) (fun acc' => rfold body acc' rest)
  end.

(** [str.isspace] on the code points below 256. *)
Definition isspace (c : ascii) : bool :=
  let n := nat_of_ascii c in
  ((9 <=? n)%nat && (n <=? 13)%nat) || ((28 <=? n)%nat && (n <=? 32)%nat)
  || (n =? 133)%nat || (n =? 160)%nat.

Fixpoint lstrip (s : string) : string :=
  match s with
  | EmptyString => EmptyString
  | String c r => if isspace c then lstrip r else s
  end.

Fixpoint rstrip (s : string) : string :=
  match s with
  | EmptyString => EmptyString
  | String c r =>
      match rstrip r with
      | EmptyString => if isspace c then EmptyString else String c EmptyString
      | r' => String c r'
      end
  end.

(** [s.strip()] *)
Definition strip (s : string) : string := rstrip (lstrip s).

(** [s.split(sep)] for a one-character separator: never the empty list. *)
Fixpoint split (sep : ascii) (s : string) : list string :=
  match s with
  | EmptyString => [EmptyString]
  | String c r =>
      if Ascii.eqb c sep then EmptyString :: split sep r
      else match split sep r with
           | h :: t => String c h :: t
           | [] => [String c EmptyString]
           end
  end.

Definition nonempty (s : string) : bool :=
  match s with
  | EmptyString => false
  | String _ _ => true
  end.

(** Decimal digits, and zero-padded fields as [strftime] prints them. *)
Definition digit (n : nat) : ascii := ascii_of_nat (48 + n mod 10).

Definition pad2 (n : nat) : string :=
  String (digit (n / 10)) (String (digit n) EmptyString).

Definition pad4 (n : nat) : string :=
  String (digit (n / 1000)) (String (digit (n / 100))
    (String (digit (n / 10)) (String (digit n) EmptyString))).

Definition undigit (c : ascii) : option nat :=
  let n := nat_of_ascii c in
  if (48 <=? n)%nat && (n <=? 57)%nat then Some (n - 48) else None.

(** A float: a finite one by the rational [num / den] it denotes, an
    infinity, or the not-a-number that pandas uses for a missing cell. *)
Inductive pyfloat :=
| Finite (num : Z) (den : positive)
| Inf (negative : bool)
| NaN.

(** [a == b] on floats. *)
Definition float_eqb (a b : pyfloat) : bool :=
  match a, b with
  | Finite n d, Finite n' d' => (n * Z.pos d' =? n' * Z.pos d)%Z
  | Inf s, Inf s' => Bool.eqb s s'
  | _, _ => false
  end.

(** [bool(f)] *)
Definition float_truthy (f : pyfloat) : bool :=
  match f with
  | Finite n _ => negb (n =? 0)%Z
  | _ => true
  end.

(** [int(f)]: truncation toward zero; [None] where Python raises. *)
Definition int_of_float (f : pyfloat) : option Z :=
  match f with
  | Finite n d => Some (Z.quot n (Z.pos d))
  | _ => None
  end.

(** The literal [0.0]. *)
Definition float_zero : pyfloat := Finite 0 1.

(** [str(z)] for an integer. *)
Definition str_of_int (z : Z) : string := NilZero.string_of_int (Z.to_int z).

End Py.
Export Py.

(** ** JSON-decoded values *)

Module Json.

Inductive json :=
| JNull
| JBool (b : bool)
| JInt (z : Z)
| JFloat (f : pyfloat)
| JStr (s : string)
| JList (l : list json)
| JDict (d : list (string * json)).

(** [bool(v)] *)
Definition truthy (v : json) : bool :=
  match v with
  | JNull => false
  | JBool b => b
  | JInt z => negb (z =? 0)%Z
  | JFloat f => float_truthy f
  | JStr s => nonempty s
  | JList l => match l with [] => false | _ => true end
  | JDict d => match d with [] => false | _ => true end
  end.

(** [a or b] *)
Definition por (a b : json) : json := if truthy a then a else b.

Definition is_dict (v : json) : bool :=
  match v with JDict _ => true | _ => false end.
Definition is_list (v : json) : bool :=
  match v with JList _ => true | _ => false end.
Definition is_str (v : json) : bool :=
  match v with JStr _ => true | _ => false end.

(** Dictionaries: first binding of a key wins, new keys go last. *)
Fixpoint lookup (k : string) (d : list (string * json)) : option json :=
  match d with
  | [] => None
  | (k', v) :: r => if String.eqb k k' then Some v else lookup k r
  end.

(** [k in d] *)
Definition has_key (k : string) (d : list (string * json)) : bool :=
  match lookup k d with Some _ => true | None => false end.

(** [d.get(k)] *)
Definition get (k : string) (d : list (string * json)) : json :=
  match lookup k d with Some v => v | None => JNull end.

(** [d.get(k, dflt)] *)
Definition get_or (k : string) (dflt : json) (d : list (string * json)) : json :=
  match lookup k d with Some v => v | None => dflt end.

(** [d[k] = v] *)
Fixpoint set (k : string) (v : json) (d : list (string * json))
  : list (string * json) :=
  match d with
  | [] => [(k, v)]
  | (k', v') :: r =>
      if String.eqb k k' then (k', v) :: r else (k', v') :: set k v r
  end.

(** [d.setdefault(k, v)] *)
Definition setdefault (k : string) (v : json) (d : list (string * json))
  : list (string * json) :=
  if has_key k d then d else d ++ [(k, v)].

(** [{**a, **b}]: every key of [b], in order, is set to [b[key]]. *)
Definition merge (a b : list (string * json)) : list (string * json) :=
  fold_left (fun acc kv => set (fst kv) (get (fst kv) b) acc) b a.

(** The number a value compares as, if it is one ([True == 1], [1 == 1.0]). *)
Definition as_number (v : json) : option pyfloat :=
  match v with
  | JBool b => Some (Finite (if b then 1 else 0) 1)
  | JInt z => Some (Finite z 1)
  | JFloat f => Some f
  | _ => None
  end.

(** [a == b] on decoded values. *)
Fixpoint py_eq (a b : json) {struct a} : bool :=
  match as_number a, as_number b with
  | Some x, Some y => float_eqb x y
  | Some _, None | None, Some _ => false
  | None, None =>
      match a, b with
      | JNull, JNull => true
      | JStr s, JStr t => String.eqb s t
      | JList l, JList m =>
          (fix all2 (l : list json) (m : list json) : bool :=
             match l, m with
             | [], [] => true
             | x :: l', y :: m' => py_eq x y && all2 l' m'
             | _, _ => false
             end) l m
      | JDict d, JDict e =>
          (List.length d =? List.length e)%nat
          && (fix sub (d : list (string * json)) : bool :=
                match d with
                | [] => true
                | (k, v) :: d' =>
                    match lookup k e with
                    | Some w => py_eq v w
                    | None => false
                    end && sub d'
                end) d
      | _, _ => false
      end
  end.

(** [v.strip()]: only strings have the method. *)
Definition strip_method (v : json) : result string :=
  match v with
  | JStr s => Ok (strip s)
  | _ => Raise AttributeError
  end.

End Json.
Export Json.

(** ** [app/ui_master_data.py]: the store normalisers *)

Module MasterData.

(** One iteration of the loop of [_normalize_parts_store]: the entries a raw
    item contributes to [cleaned]. *)
Definition clean_part_item (cleaned : list json) (item : json)
  : result (list json) :=
  match item with
  | JStr s =>
      Ok (cleaned ++ [JDict [("part_number", JStr (strip s));
                             ("name", JStr "");
                             ("lines", JList [])]])
  | JDict d =>
      rbind (strip_method
               (por (get "part_number" d)
                  (por (get "pn" d) (por (get "part" d) (JStr "")))))
        (fun pn =>
      rbind (strip_method (por (get "name" d) (JStr "")))
        (fun nm =>
      let ln := por (get "lines" d) (JList []) in
      let ln := match ln with
                | JStr s =>
                    JList (map JStr
                             (List.filter nonempty (map strip (split "," s))))
                | _ => ln
                end in
      let ln := if is_list ln then ln else JList [] in
      Ok (cleaned ++ [JDict [("part_number", JStr pn);
                             ("name", JStr nm);
                             ("lines", ln)]])))
  | _ => Ok cleaned
  end.

(** [_normalize_parts_store] (the second definition in the module, which is
    the one in force after import). *)
Definition _normalize_parts_store (store : json) : result json :=
  let store := if is_list store then JDict [("parts", store)] else store in
  match store with
  | JDict d =>
      let d := if negb (has_key "parts" d) && is_list (get "data" d)
               then [("parts", get "data" d)] else d in
      let parts := get_or "parts" (JList []) d in
      let parts := match parts with JList l => l | _ => [] end in
      rbind (rfold clean_part_item [] parts) (fun cleaned =>
      let cleaned :=
        List.filter (fun p => match p with
                              | JDict e => truthy (get "part_number" e)
                              | _ => false
                              end) cleaned in
      Ok (JDict [("parts", JList cleaned)]))
  | _ => Ok (JDict [("parts", JList [])])
  end.

(** [_normalize_tool_store] *)
Definition _normalize_tool_store (store : json) : json :=
  match store with
  | JDict d =>
      if has_key "tools" d && is_dict (get "tools" d) then store
      else JDict [("tools", store)]
  | _ => JDict [("tools", JDict [])]
  end.

(** [_normalize_cost_store] *)
Definition _normalize_cost_store (store : json) : json :=
  let d := match store with JDict d => d | _ => [] end in
  let d := setdefault "scrap_cost_by_part" (JDict []) d in
  let d := if is_dict (get "scrap_cost_by_part" d) then d
           else set "scrap_cost_by_part" (JDict []) d in
  let d := setdefault "scrap_cost_default" (JFloat float_zero) d in
  JDict d.

End MasterData.


(** ** Wall-clock readings and [strftime] *)

Module Clock.

Record datetime := {
  year : nat; month : nat; day : nat;
  hour : nat; minute : nat; second : nat
}.

Definition is_leap (y : nat) : bool :=
  ((y mod 4 =? 0)%nat && negb (y mod 100 =? 0)%nat) || (y mod 400 =? 0)%nat.

Definition days_in_month (y m : nat) : nat :=
  match m with
  | 2 => if is_leap y then 29 else 28
  | 4 | 6 | 9 | 11 => 30
  | _ => 31
  end.

(** The readings [datetime.now()] can return (four-digit years). *)
Definition valid_datetime (t : datetime) : bool :=
  (1000 <=? year t)%nat && (year t <? 100 * 100)%nat
  && (1 <=? month t)%nat && (month t <=? 12)%nat
  && (1 <=? day t)%nat && (day t <=? days_in_month (year t) (month t))%nat
  && (hour t <? 24)%nat && (minute t <? 60)%nat && (second t <? 60)%nat.

(** [t.strftime("%Y-%m-%d")] *)
Definition strftime_date (t : datetime) : string :=
  pad4 (year t) +:+ "-" +:+ pad2 (month t) +:+ "-" +:+ pad2 (day t).

(** [t.strftime("%H:%M:%S")] *)
Definition strftime_time (t : datetime) : string :=
  pad2 (hour t) +:+ ":" +:+ pad2 (minute t) +:+ ":" +:+ pad2 (second t).

(** [t.strftime("%Y-%m-%d %H:%M:%S")] *)
Definition strftime_iso (t : datetime) : string :=
  strftime_date t +:+ " " +:+ strftime_time t.

(** [t.strftime("%Y%m%d" + sep + "%H%M%S")] for [sep] one of ["_"], ["-"]. *)
Definition strftime_compact (sep : string) (t : datetime) : string :=
  pad4 (year t) +:+ pad2 (month t) +:+ pad2 (day t) +:+ sep
  +:+ pad2 (hour t) +:+ pad2 (minute t) +:+ pad2 (second t).

(** Reading fixed-width decimal fields back. *)
Fixpoint read_digits (n : nat) (s : string) : option (nat * string) :=
  match n with
  | O => Some (0, s)
  | S n' =>
      match s with
      | String c r =>
          match undigit c, read_digits n' r with
          | Some d, Some (v, rest) => Some (d * 10 ^ n' + v, rest)
          | _, _ => None
          end
      | EmptyString => None
      end
  end.

Definition expect (c : ascii) (s : string) : option string :=
  match s with
  | String c' r => if Ascii.eqb c c' then Some r else None
  | EmptyString => None
  end.

(** A parser for the ["%Y-%m-%d %H:%M:%S"] layout: fixed-width fields, the
    separators in place, nothing after the seconds, and a date that exists.
    It accepts only strings that [datetime.strptime] accepts with that
    format. *)
Definition strptime_iso (s : string) : option datetime :=
  match read_digits 4 s with
  | Some (y, s) =>
  match expect "-" s with Some s =>
  match read_digits 2 s with Some (mo, s) =>
  match expect "-" s with Some s =>
  match read_digits 2 s with Some (d, s) =>
  match expect " " s with Some s =>
  match read_digits 2 s with Some (h, s) =>
  match expect ":" s with Some s =>
  match read_digits 2 s with Some (mi, s) =>
  match expect ":" s with Some s =>
  match read_digits 2 s with Some (se, s) =>
    let t := {| year := y; month := mo; day := d;
                hour := h; minute := mi; second := se |} in
    match s with
    | EmptyString => if valid_datetime t then Some t else None
    | _ => None
    end
  | None => None end | None => None end | None => None end
  | None => None end | None => None end | None => None end
  | None => None end | None => None end | None => None end
  | None => None end
  | None => None
  end.

End Clock.
Export Clock.

(** ** POSIX [os.path] *)

Module OsPath.

Fixpoint take (n : nat) (s : string) : string :=
  match n, s with
  | S n', String c r => String c (take n' r)
  | _, _ => EmptyString
  end.

Fixpoint drop (n : nat) (s : string) : string :=
  match n, s with
  | S n', String _ r => drop n' r
  | _, _ => s
  end.

(** [s.rfind(c)], with [None] for [-1]. *)
Fixpoint rfind (c : ascii) (s : string) : option nat :=
  match s with
  | EmptyString => None
  | String a r =>
      match rfind c r with
      | Some i => Some (S i)
      | None => if Ascii.eqb a c then Some 0 else None
      end
  end.

Definition startswith_slash (s : string) : bool :=
  match s with
  | String c _ => Ascii.eqb c "/"
  | EmptyString => false
  end.

Fixpoint endswith_slash (s : string) : bool :=
  match s with
  | EmptyString => false
  | String c EmptyString => Ascii.eqb c "/"
  | String _ r => endswith_slash r
  end.

(** [os.path.join(a, b)] *)
Definition join (a b : string) : string :=
  if startswith_slash b then b
  else if negb (nonempty a) || endswith_slash a then a +:+ b
  else a +:+ "/" +:+ b.

(** [os.path.basename(p)] *)
Definition basename (p : string) : string :=
  match rfind "/" p with
  | Some i => drop (S i) p
  | None => p
  end.

Fixpoint all_dots (s : string) : bool :=
  match s with
  | EmptyString => true
  | String c r => Ascii.eqb c "." && all_dots r
  end.

(** [os.path.splitext(p)]: the extension starts at the last dot of the last
    component, unless only dots precede it there. *)
Definition splitext (p : string) : string * string :=
  let filenameIndex := match rfind "/" p with Some i => S i | None => 0 end in
  match rfind "." p with
  | Some dotIndex =>
      if (filenameIndex <=? dotIndex)%nat
         && negb (all_dots (take (dotIndex - filenameIndex) (drop filenameIndex p)))
      then (take dotIndex p, drop dotIndex p)
      else (p, EmptyString)
  | None => (p, EmptyString)
  end.

End OsPath.

(** ** Tables *)

Module Frame.

Inductive cell :=
| CStr (s : string)
| CInt (z : Z)
| CFloat (f : pyfloat).

(** The missing value. *)
Definition nan : cell := CFloat NaN.

(** A [DataFrame] with a default [RangeIndex]: [nrows] rows, and the columns
    in order, each with its label and its cells. *)
Record DataFrame := { nrows : nat; cols : list (string * list cell) }.

(** [df.columns] *)
Definition columns (df : DataFrame) : list string := map fst (cols df).

(** [c in names] *)
Definition mem (c : string) (names : list string) : bool :=
  existsb (String.eqb c) names.

(** [pd.DataFrame(columns=names)] *)
Definition empty_frame (names : list string) : DataFrame :=
  {| nrows := 0; cols := map (fun c => (c, [])) names |}.

(** The cells of the column labelled [c]. *)
Fixpoint column (c : string) (l : list (string * list cell))
  : option (list cell) :=
  match l with
  | [] => None
  | (c', v) :: r => if String.eqb c c' then Some v else column c r
  end.

(** [df[c]]: a missing label is a [KeyError]. *)
Definition getitem (c : string) (df : DataFrame) : result (list cell) :=
  match column c (cols df) with
  | Some v => Ok v
  | None => Raise KeyError
  end.

(** [df[c] = v] for a scalar [v]: the column is overwritten, or appended when
    the label is new. *)
Definition assign_scalar (c : string) (v : cell) (df : DataFrame) : DataFrame :=
  if mem c (columns df)
  then {| nrows := nrows df;
          cols := map (fun p => if String.eqb (fst p) c
                                then (fst p, repeat v (nrows df)) else p)
                    (cols df) |}
  else {| nrows := nrows df; cols := cols df ++ [(c, repeat v (nrows df))] |}.

(** [df[names]]: the columns carrying each label, label by label. *)
Definition getitem_list (names : list string) (df : DataFrame)
  : result DataFrame :=
  if forallb (fun n => mem n (columns df)) names
  then Ok {| nrows := nrows df;
             cols := flat_map
                       (fun n => List.filter (fun p => String.eqb (fst p) n)
                                   (cols df))
                       names |}
  else Raise KeyError.

(** [df.loc[idx, c] = v]: the rows in [idx] of column [c] take the value [v];
    a new label is added with the missing value on the other rows. *)
Definition put_rows (idx : list nat) (v : cell) (cells : list cell) : list cell :=
  imap (fun i x => if existsb (Nat.eqb i) idx then v else x) cells.

Definition loc_set (idx : list nat) (c : string) (v : cell) (df : DataFrame)
  : DataFrame :=
  if mem c (columns df)
  then {| nrows := nrows df;
          cols := map (fun p => if String.eqb (fst p) c
                                then (fst p, put_rows idx v (snd p)) else p)
                    (cols df) |}
  else {| nrows := nrows df;
          cols := cols df ++ [(c, put_rows idx v (repeat nan (nrows df)))] |}.

(** The positions at which a boolean mask holds: [df.index[mask]]. *)
Fixpoint positions_from (i : nat) (mask : list bool) : list nat :=
  match mask with
  | [] => []
  | b :: r => if b then i :: positions_from (S i) r else positions_from (S i) r
  end.

Definition index_where (mask : list bool) : list nat := positions_from 0 mask.

(** [df[mask]]: the rows at which the mask holds. *)
Fixpoint keep (mask : list bool) (cells : list cell) : list cell :=
  match mask, cells with
  | b :: m, x :: r => if b then x :: keep m r else keep m r
  | _, _ => []
  end.

Definition select_rows (mask : list bool) (df : DataFrame) : DataFrame :=
  {| nrows := List.length (List.filter id (firstn (nrows df) mask));
     cols := map (fun p => (fst p, keep mask (snd p))) (cols df) |}.

(** [pd.concat([df, pd.DataFrame([row])], ignore_index=True)] for one row
    given as a dict: the labels of [df] first, then the new ones; a cell with
    no value on either side is missing. *)
Fixpoint row_get (c : string) (row : list (string * cell)) : option cell :=
  match row with
  | [] => None
  | (c', v) :: r => if String.eqb c c' then Some v else row_get c r
  end.

Definition concat_row (df : DataFrame) (row : list (string * cell)) : DataFrame :=
  {| nrows := S (nrows df);
     cols :=
       map (fun p => (fst p, snd p ++ [match row_get (fst p) row with
                                       | Some v => v
                                       | None => nan
                                       end])) (cols df)
       ++ map (fun kv => (fst kv, repeat nan (nrows df) ++ [snd kv]))
            (List.filter (fun kv => negb (mem (fst kv) (columns df))) row) |}.

(** A frame as [read_excel] builds it: labels all different, columns all of
    the frame's height. *)
Definition well_formed (df : DataFrame) : Prop :=
  List.NoDup (columns df) /\ Forall (fun p => List.length (snd p) = nrows df) (cols df).

End Frame.
Export Frame.

(** ** The environment: [app/config.py] and the Python runtime

    [app/config.py] is not part of the sources at hand; the constants the
    code imports from it are parameters.  So are the three pieces of
    the runtime's number formatting that the code reaches through [str] and
    [float]. *)

Class Env := {
  COLUMNS : list string;
  DATA_DIR : string;
  month_excel_path : datetime -> string;
  TOOL_CONFIG_FILE : string;
  ACTIONS_FILE : string;
  NCRS_FILE : string;
  USERS_FILE : string;
  (* [repr(f)] of a float *)
  float_repr : pyfloat -> string;
  (* [float(s)]; [None] for [ValueError] *)
  float_of_string : string -> option pyfloat;
  (* [str(v)] of a list or a dict *)
  container_repr : json -> string
}.

(** ** Disk, clock, and the monad of effectful code *)

Module World.

(** What a reader finds at a path: a JSON document, a workbook holding a
    table, or bytes that are neither. *)
Inductive file :=
| FJson (j : json)
| FBook (df : DataFrame)
| FRaw (bytes : string).

Record world := {
  files : gmap string file;
  clock : nat -> datetime;   (* the successive readings of the wall clock *)
  ticks : nat                (* how many were taken *)
}.

Definition M (A : Type) : Type := world -> result A * world.

Definition ret {A} (a : A) : M A := fun w => (Ok a, w).

Definition bind {A B} (m : M A) (k : A -> M B) : M B :=
  fun w => match m w with
           | (Ok a, w') => k a w'
           | (Raise e, w') => (Raise e, w')
           end.

Definition raise {A} (e : exn) : M A := fun w => (Raise e, w).

Definition lift {A} (r : result A) : M A := fun w => (r, w).

(** [try: body  except Exception: handler] *)
Definition try_except {A} (body : M A) (handler : M A) : M A :=
  fun w => match body w with
           | (Ok a, w') => (Ok a, w')
           | (Raise _, w') => handler w'
           end.

Definition with_files (f : gmap string file) (w : world) : world :=
  {| files := f; clock := clock w; ticks := ticks w |}.

(** [datetime.now()] *)
Definition now : M datetime :=
  fun w => (Ok (clock w (ticks w)),
            {| files := files w; clock := clock w; ticks := S (ticks w) |}).

(** [os.path.exists(path)] *)
Definition path_exists (path : string) : M bool :=
  fun w => (Ok (bool_decide (is_Some (files w !! path))), w).

(** [pd.read_excel(path)].  A workbook on disk is represented by the table
    [to_excel] was given: what a sheet does to the cells on the way (an
    empty string comes back as a missing value, text that reads as a number
    comes back as a number) belongs to the spreadsheet library and is not
    represented.  Statements about a workbook are therefore statements
    about the table handed to [to_excel]. *)
Definition read_excel (path : string) : M DataFrame :=
  fun w => match files w !! path with
           | Some (FBook df) => (Ok df, w)
           | Some _ => (Raise BadWorkbook, w)
           | None => (Raise FileNotFound, w)
           end.

(** [df.to_excel(path, index=False)], for a path with a workbook extension
    in a directory that exists. *)
Definition to_excel (df : DataFrame) (path : string) : M unit :=
  fun w => (Ok tt, with_files (<[path := FBook df]> (files w)) w).

End World.
Export World.

Declare Scope M_scope.
Delimit Scope M_scope with M.
Notation "x <- m ;; k" := (bind m (fun x => k))
  (at level 100, m at next level, right associativity) : M_scope.
Notation "m ;;; k" := (bind m (fun _ => k))
  (at level 100, right associativity) : M_scope.
#[local] Open Scope M_scope.

(** ** [app/storage.py] *)

Module Storage.
Section WithEnv.
Context `{Env}.

(** [load_json(path, default)] *)
Definition load_json (path : string) (default : json) : M json :=
  fun w => match files w !! path with
           | Some (FJson j) => (Ok j, w)
           | _ => (Ok default, w)
           end.

(** [save_json(path, obj)]: written to [path + ".tmp"], then moved over
    [path].  The disk is a flat map from paths to files, so
    [os.makedirs(os.path.dirname(path), exist_ok=True)] has nothing to do
    here: the paths the application passes are constants of [config.py]
    with a directory part, for which the call does not raise. *)
Definition save_json (path : string) (obj : json) : M unit :=
  fun w =>
    let tmp := path +:+ ".tmp" in
    let written := <[tmp := FJson obj]> (files w) in
    (Ok tt, with_files (<[path := FJson obj]> (delete tmp written)) w).

(** [ensure_df_schema(df)] *)
Definition ensure_df_schema (df : DataFrame) : result DataFrame :=
  let df := fold_left
              (fun df col => if negb (mem col (columns df))
                             then assign_scalar col (CStr "") df else df)
              COLUMNS df in
  let extras := List.filter (fun c => negb (mem c COLUMNS)) (columns df) in
  getitem_list (COLUMNS ++ extras) df.

(** The name of the rescue workbook made for [path] at time [t]. *)
Definition rescue_path (path : string) (t : datetime) : string :=
  let '(base, ext) := OsPath.splitext path in
  base +:+ "_RESCUE_" +:+ strftime_compact "_" t +:+ ext.

(** [ensure_excel_file(path)], for the month paths the application passes
    ([os.makedirs] as in [save_json]). *)
Definition ensure_excel_file (path : string) : M unit :=
  ex <- path_exists path ;;
  if negb ex then to_excel (empty_frame COLUMNS) path
  else
    try_except
      (df <- read_excel path ;;
       df <- lift (ensure_df_schema df) ;;
       to_excel df path)
      (t <- now ;;
       to_excel (empty_frame COLUMNS) (rescue_path path t)).

(** [resolve_month_path(filename)]; [None] and [""] both stand for "no
    file name given". *)
Definition resolve_month_path (filename : option string) : M string :=
  match filename with
  | Some f =>
      if nonempty f then ret (OsPath.join DATA_DIR f)
      else t <- now ;; ret (month_excel_path t)
  | None => t <- now ;; ret (month_excel_path t)
  end.

(** [get_df(filename)] *)
Definition get_df (filename : option string) : M (DataFrame * string) :=
  path <- resolve_month_path filename ;;
  ensure_excel_file path ;;;
  df <- read_excel path ;;
  df <- lift (ensure_df_schema df) ;;
  ret (df, OsPath.basename path).

(** [save_df(df, filename)] *)
Definition save_df (df : DataFrame) (filename : string) : M unit :=
  path <- resolve_month_path (Some filename) ;;
  df <- lift (ensure_df_schema df) ;;
  to_excel df path.

(** [str(val)] of a scalar. *)
Definition str_of_bool (b : bool) : string := if b then "True" else "False".

(** What [float(str(val).strip())] yields for a decoded value: [None] where
    the conversion raises.  The text of a list or a dict opens with a
    bracket, which [float] rejects. *)
Definition float_of_value (val : json) : option pyfloat :=
  match val with
  | JNull => None
  | JBool b => float_of_string (strip (str_of_bool b))
  | JInt z => float_of_string (strip (str_of_int z))
  | JFloat f => float_of_string (strip (float_repr f))
  | JStr s => float_of_string (strip s)
  | JList _ | JDict _ => None
  end.

Definition blank_value (val : json) : bool :=
  match val with
  | JNull => true
  | JFloat NaN => true
  | JStr s => negb (nonempty (strip s))
  | _ => false
  end.

(** [safe_int(val, default)] *)
Definition safe_int (val : json) (default : Z) : Z :=
  if blank_value val then default
  else match float_of_value val with
       | Some f => match int_of_float f with
                   | Some z => z
                   | None => default
                   end
       | None => default
       end.

(** [safe_float(val, default)] *)
Definition safe_float (val : json) (default : pyfloat) : pyfloat :=
  if blank_value val then default
  else match float_of_value val with
       | Some f => f
       | None => default
       end.

(** [next_id(df)] *)
Definition next_id (df : DataFrame) : M string :=
  t <- now ;;
  ret (strftime_compact "-" t +:+ "-" +:+ pad4 (nrows df mod (100 * 100))).

End WithEnv.
End Storage.

(** ** [sorted] on a list of [str]

    Strings compare by code point, position by position; equal strings are
    the same string, so the order of equal elements plays no part. *)

Module Builtins.

Fixpoint insert_sorted (x : string) (l : list string) : list string :=
  match l with
  | [] => [x]
  | y :: r => if String.leb x y then x :: l else y :: insert_sorted x r
  end.

(** [sorted(l)] *)
Definition sorted (l : list string) : list string :=
  fold_right insert_sorted [] l.

End Builtins.

(** ** [app/action_store.py] *)

Module ActionStore.
Section WithEnv.
Context `{Env}.

(** [now_iso()] *)
Definition now_iso : M string :=
  t <- now ;; ret (strftime_iso t).

(** [new_id(prefix)] *)
Definition new_id (prefix : string) : M string :=
  t <- now ;; ret (prefix +:+ "-" +:+ strftime_compact "-" t).

(** The expression [load_json(USERS_FILE, {}) or {}] applied to what was
    loaded; [get_users_map] and the user screens normalise the user map with
    it. *)
Definition users_map_of (raw : json) : json := por raw (JDict []).

(** [get_users_map()] *)
Definition get_users_map : M json :=
  raw <- Storage.load_json USERS_FILE (JDict []) ;; ret (users_map_of raw).

(** [_ensure_actions_shape(store)] and [_ensure_ncrs_shape(store)], which
    differ in the name of the list only. *)
Definition ensure_shape (list_key : string) (store : json)
  : list (string * json) :=
  let d := match store with JDict d => d | _ => [] end in
  let d := setdefault "version" (JInt 1) d in
  let d := setdefault list_key (JList []) d in
  if is_list (get list_key d) then d else set list_key (JList []) d.

Definition _ensure_actions_shape : json -> list (string * json) :=
  ensure_shape "actions".
Definition _ensure_ncrs_shape : json -> list (string * json) :=
  ensure_shape "ncrs".

(** [load_actions_store()] *)
Definition load_actions_store : M (list (string * json)) :=
  j <- Storage.load_json ACTIONS_FILE
         (JDict [("version", JInt 1); ("actions", JList [])]) ;;
  ret (_ensure_actions_shape j).

(** [save_actions_store(store)] *)
Definition save_actions_store (store : list (string * json)) : M unit :=
  Storage.save_json ACTIONS_FILE (JDict (_ensure_actions_shape (JDict store))).

(** [load_ncrs_store()] *)
Definition load_ncrs_store : M (list (string * json)) :=
  j <- Storage.load_json NCRS_FILE
         (JDict [("version", JInt 1); ("ncrs", JList [])]) ;;
  ret (_ensure_ncrs_shape j).

(** [save_ncrs_store(store)] *)
Definition save_ncrs_store (store : list (string * json)) : M unit :=
  Storage.save_json NCRS_FILE (JDict (_ensure_ncrs_shape (JDict store))).

(** The elements of a stored list. *)
Definition items_of (v : json) : list json :=
  match v with JList l => l | _ => [] end.

(** The search loop of the two upserts:
    [for i, a in enumerate(items): if a.get(key) == id: ... break].
    It yields the first matching position, and raises on an element without
    a [get] method met before any match. *)
Fixpoint find_id (key : string) (id : json) (items : list json)
  : result (option nat) :=
  match items with
  | [] => Ok None
  | JDict a :: rest =>
      if py_eq (get key a) id then Ok (Some 0)
      else rbind (find_id key id rest) (fun r => Ok (option_map S r))
  | _ :: _ => Raise AttributeError
  end.

(** The entry a position holds, read as a dict. *)
Definition entry_at (i : nat) (items : list json) : list (string * json) :=
  match items !! i with
  | Some (JDict a) => a
  | _ => []
  end.

(** [upsert_action(action)] *)
Definition upsert_action (action : list (string * json))
  : M (list (string * json)) :=
  store <- load_actions_store ;;
  let actions := items_of (get "actions" store) in
  action <- (if negb (truthy (get "action_id" action))
             then id <- new_id "A" ;; ret (set "action_id" (JStr id) action)
             else ret action) ;;
  let action := setdefault "type" (JStr "Action") action in
  let action := setdefault "severity" (JStr "Medium") action in
  let action := setdefault "status" (JStr "Open") action in
  created <- now_iso ;;
  let action := setdefault "created_at" (JStr created) action in
  let action := setdefault "notes" (JStr "") action in
  let action := setdefault "related" (JDict []) action in
  found <- lift (find_id "action_id" (get "action_id" action) actions) ;;
  match found with
  | Some i =>
      stamp <- now_iso ;;
      let merged := set "updated_at" (JStr stamp)
                      (merge (entry_at i actions) action) in
      let actions := <[i := JDict merged]> actions in
      save_actions_store (set "actions" (JList actions) store) ;;;
      ret action
  | None =>
      stamp <- now_iso ;;
      let action := set "updated_at" (JStr stamp) action in
      let actions := actions ++ [JDict action] in
      save_actions_store (set "actions" (JList actions) store) ;;;
      ret action
  end.

(** [upsert_ncr(ncr)] *)
Definition upsert_ncr (ncr : list (string * json))
  : M (list (string * json)) :=
  store <- load_ncrs_store ;;
  let ncrs := items_of (get "ncrs" store) in
  ncr <- (if negb (truthy (get "ncr_id" ncr))
          then id <- new_id "NCR" ;; ret (set "ncr_id" (JStr id) ncr)
          else ret ncr) ;;
  let ncr := setdefault "status" (JStr "Open") ncr in
  created <- now_iso ;;
  let ncr := setdefault "created_at" (JStr created) ncr in
  found <- lift (find_id "ncr_id" (get "ncr_id" ncr) ncrs) ;;
  match found with
  | Some i =>
      stamp <- now_iso ;;
      let merged := set "updated_at" (JStr stamp)
                      (merge (entry_at i ncrs) ncr) in
      let ncrs := <[i := JDict merged]> ncrs in
      save_ncrs_store (set "ncrs" (JList ncrs) store) ;;;
      ret ncr
  | None =>
      stamp <- now_iso ;;
      let ncr := set "updated_at" (JStr stamp) ncr in
      let ncrs := ncrs ++ [JDict ncr] in
      save_ncrs_store (set "ncrs" (JList ncrs) store) ;;;
      ret ncr
  end.

(** [f"{v}"] *)
Definition format_value (v : json) : string :=
  match v with
  | JNull => "None"
  | JBool b => Storage.str_of_bool b
  | JInt z => str_of_int z
  | JFloat f => float_repr f
  | JStr s => s
  | JList _ | JDict _ => container_repr v
  end.

(** [create_ncr_and_action(title=..., description=..., severity=...,
    owner=..., created_by=..., line=..., part_number=..., due_date=...,
    related_entry_id=...)]; every argument is a [str]. *)
Definition create_ncr_and_action
  (title description severity owner created_by
   line part_number due_date related_entry_id : string)
  : M (list (string * json)) :=
  ncr <- upsert_ncr [("status", JStr "Open");
                     ("part_number", JStr part_number);
                     ("line", JStr line);
                     ("owner", JStr owner);
                     ("description", JStr description);
                     ("created_by", JStr created_by);
                     ("related_entry_id", JStr related_entry_id)] ;;
  action <- upsert_action
              [("type", JStr "NCR");
               ("title", por (JStr title)
                           (JStr ("NCR " +:+ format_value (get "ncr_id" ncr))));
               ("severity", JStr severity);
               ("status", JStr "Open");
               ("owner", JStr owner);
               ("created_by", JStr created_by);
               ("due_date", JStr due_date);
               ("line", JStr line);
               ("part_number", JStr part_number);
               ("related", JDict [("ncr_id", get "ncr_id" ncr);
                                  ("entry_id", JStr related_entry_id)]);
               ("notes", JStr description)] ;;
  ncr <- upsert_ncr (merge ncr [("action_id", get "action_id" action)]) ;;
  ret [("ncr", JDict ncr); ("action", JDict action)].

(** [list_usernames()]; [users.keys()] needs a dict. *)
Definition list_usernames : M (list string) :=
  users <- get_users_map ;;
  keys <- lift (match users with
                | JDict d => Ok (map fst d)
                | _ => Raise AttributeError
                end) ;;
  ret (Builtins.sorted keys).

(** [set_action_status(action_id, status, closed_by)]: the loop stops at the
    first entry that carries the identifier and changes it in place. *)
Definition set_action_status (action_id status : string)
  (closed_by : option string) : M unit :=
  store <- load_actions_store ;;
  let actions := items_of (get "actions" store) in
  found <- lift (find_id "action_id" (JStr action_id) actions) ;;
  match found with
  | Some i =>
      let a := set "status" (JStr status) (entry_at i actions) in
      stamp <- now_iso ;;
      let a := set "updated_at" (JStr stamp) a in
      a <- (if String.eqb status "Closed"
            then
              closed <- now_iso ;;
              let a := set "closed_at" (JStr closed) a in
              ret (match closed_by with
                   | Some who =>
                       if nonempty who then set "closed_by" (JStr who) a else a
                   | None => a
                   end)
            else ret a) ;;
      save_actions_store
        (set "actions" (JList (<[i := JDict a]> actions)) store)
  | None => save_actions_store store
  end.

(** [set_ncr_status(ncr_id, status)] *)
Definition set_ncr_status (ncr_id status : string) : M unit :=
  store <- load_ncrs_store ;;
  let ncrs := items_of (get "ncrs" store) in
  found <- lift (find_id "ncr_id" (JStr ncr_id) ncrs) ;;
  match found with
  | Some i =>
      let n := set "status" (JStr status) (entry_at i ncrs) in
      stamp <- now_iso ;;
      let n := set "updated_at" (JStr stamp) n in
      n <- (if String.eqb status "Closed"
            then t <- now ;; ret (set "close_date" (JStr (strftime_date t)) n)
            else ret n) ;;
      save_ncrs_store (set "ncrs" (JList (<[i := JDict n]> ncrs)) store)
  | None => save_ncrs_store store
  end.

End WithEnv.
End ActionStore.

(** ** [app/permissions.py] *)

Module Permissions.

(** [PERMISSIONS] *)
Definition PERMISSIONS : list (string * list (string * string)) :=
  [("Top (Super User)",
    [("view_data", "edit");
     ("edit_any", "override");
     ("manage_tools", "edit");
     ("manage_users", "none");
     ("export", "edit")]);
   ("Admin",
    [("view_data", "edit");
     ("edit_any", "edit");
     ("manage_tools", "edit");
     ("manage_users", "edit");
     ("export", "edit")])].

(** [d.get(k, dflt)] on the two tables of the module. *)
Fixpoint assoc {A} (k : string) (dflt : A) (d : list (string * A)) : A :=
  match d with
  | [] => dflt
  | (k', v) :: r => if String.eqb k k' then v else assoc k dflt r
  end.

(** The dict [order] of [can]. *)
Definition order : list (string * nat) :=
  [("none", 0); ("view", 1); ("edit", 2); ("override", 3)].

(** [can(role, key, at_least)] *)
Definition can (role key at_least : string) : bool :=
  let have := assoc key "none" (assoc role [] PERMISSIONS) in
  (assoc at_least 1 order <=? assoc have 0 order)%nat.

End Permissions.

(** ** The entry screen and the two approval screens *)

Module Workflow.
Section WithEnv.
Context `{Env}.

(** [str(x)] of a cell, as [Series.astype(str)] applies it. *)
Definition astype_str (c : cell) : string :=
  match c with
  | CStr s => s
  | CInt z => str_of_int z
  | CFloat f => float_repr f
  end.

(** [Series.fillna(v)] on one cell. *)
Definition fillna (v : cell) (c : cell) : cell :=
  match c with
  | CFloat NaN => v
  | _ => c
  end.

(** [str.lower] on the code points below 256. *)
Definition lower_char (c : ascii) : ascii :=
  let n := nat_of_ascii c in
  if ((65 <=? n)%nat && (n <=? 90)%nat)
     || ((192 <=? n)%nat && (n <=? 222)%nat && negb (n =? 215)%nat)
  then ascii_of_nat (n + 32) else c.

Fixpoint lower (s : string) : string :=
  match s with
  | EmptyString => EmptyString
  | String c r => String (lower_char c) (lower r)
  end.

(** The mask [df[flag].fillna("Pending").astype(str).str.lower().eq("pending")]. *)
Definition pending_mask (flag : list cell) : list bool :=
  map (fun c => String.eqb (lower (astype_str (fillna (CStr "Pending") c)))
                  "pending") flag.

(** The mask [df["ID"].astype(str) == str(sel_id)]. *)
Definition id_mask (sel_id : string) (ids : list cell) : list bool :=
  map (fun c => String.eqb (astype_str c) sel_id) ids.

(** What a button press ends in. *)
Inductive outcome :=
| Warned                              (* "Select a row first." *)
| NotFound                            (* "Row not found." *)
| Refreshed (pending : DataFrame).    (* table reloaded with these rows *)

(** [QualityUI.load_pending(filename)]: the rows put in the table. *)
Definition quality_load_pending (filename : option string) : M DataFrame :=
  r <- Storage.get_df filename ;;
  flag <- lift (getitem "Quality_Verified" (fst r)) ;;
  ret (select_rows (pending_mask flag) (fst r)).

(** [QualityUI.verify_selected()], with the selected identifier, the user
    logged in and the file name the screen holds. *)
Definition verify_selected (sel_id user : string) (_filename : option string)
  : M outcome :=
  if negb (nonempty sel_id) then ret Warned
  else
    r <- Storage.get_df _filename ;;
    let df := fst r in
    let filename := snd r in
    ids <- lift (getitem "ID" df) ;;
    let idx := index_where (id_mask sel_id ids) in
    if (List.length idx =? 0)%nat then ret NotFound
    else
      t <- now ;;
      let df := loc_set idx "Quality_Verified" (CStr "Yes") df in
      let df := loc_set idx "Quality_User" (CStr user) df in
      let df := loc_set idx "Quality_Time" (CStr (strftime_iso t)) df in
      Storage.save_df df filename ;;;
      pending <- quality_load_pending (Some filename) ;;
      ret (Refreshed pending).

(** [LeaderUI.load_pending(filename)] *)
Definition leader_load_pending (filename : option string) : M DataFrame :=
  r <- Storage.get_df filename ;;
  flag <- lift (getitem "Leader_Sign" (fst r)) ;;
  ret (select_rows (pending_mask flag) (fst r)).

(** [LeaderUI.sign_selected()] *)
Definition sign_selected (sel_id user : string) (_filename : option string)
  : M outcome :=
  if negb (nonempty sel_id) then ret Warned
  else
    r <- Storage.get_df _filename ;;
    let df := fst r in
    let filename := snd r in
    ids <- lift (getitem "ID" df) ;;
    let idx := index_where (id_mask sel_id ids) in
    if (List.length idx =? 0)%nat then ret NotFound
    else
      t <- now ;;
      let df := loc_set idx "Leader_Sign" (CStr "Yes") df in
      let df := loc_set idx "Leader_User" (CStr user) df in
      let df := loc_set idx "Leader_Time" (CStr (strftime_iso t)) df in
      Storage.save_df df filename ;;;
      pending <- leader_load_pending (Some filename) ;;
      ret (Refreshed pending).

(** The widgets of the entry form, as read by [submit]. *)
Record form := {
  line_cb : string;
  shift_cb : string;
  mach_cb : string;
  part_cb : string;
  tool_cb : string;
  reason_cb : string;
  down_entry : string;
  defect_var : bool;
  qty_entry : string;
  sort_var : bool;
  defect_reason : string
}.

(** What [submit] ends in. *)
Inductive submitted :=
| MissingInfo                 (* "Select Machine, Tool, and Reason" *)
| Declined                    (* out of stock, and the user said no *)
| Saved (cost : pyfloat).     (* "Entry saved." *)

Fixpoint prefix_of (p s : string) : bool :=
  match p, s with
  | EmptyString, _ => true
  | String a p', String b s' => Ascii.eqb a b && prefix_of p' s'
  | _, _ => false
  end.

Fixpoint infix_of (p s : string) : bool :=
  prefix_of p s
  || match s with
     | String _ r => infix_of p r
     | EmptyString => false
     end.

(** [key in cfg] *)
Definition contains (key : string) (cfg : json) : result bool :=
  match cfg with
  | JDict d => Ok (has_key key d)
  | JList l => Ok (existsb (fun x => py_eq x (JStr key)) l)
  | JStr s => Ok (infix_of key s)
  | _ => Raise TypeError
  end.

(** [cfg[key]] for a string key. *)
Definition subscript (key : string) (cfg : json) : result json :=
  match cfg with
  | JDict d => match lookup key d with
               | Some v => Ok v
               | None => Raise KeyError
               end
  | _ => Raise TypeError
  end.

(** [v.get(k, dflt)]: only dicts have the method. *)
Definition get_method (k : string) (dflt : json) (v : json) : result json :=
  match v with
  | JDict d => Ok (get_or k dflt d)
  | _ => Raise AttributeError
  end.

(** The record [submit] builds. *)
Definition new_row (f : form) (user id : string) (t : datetime)
  (downtime : Z) (cost : pyfloat) : list (string * cell) :=
  [("ID", CStr id);
   ("Date", CStr (strftime_date t));
   ("Time", CStr (strftime_time t));
   ("Shift", CStr (shift_cb f));
   ("Line", CStr (line_cb f));
   ("Machine", CStr (mach_cb f));
   ("Part_Number", CStr (part_cb f));
   ("Tool_Num", CStr (tool_cb f));
   ("Reason", CStr (reason_cb f));
   ("Downtime_Mins", CInt downtime);
   ("Cost", CFloat cost);
   ("Tool_Changer", CStr user);
   ("Defects_Present", CStr (if defect_var f then "Yes" else "No"));
   ("Defect_Qty", CInt (Storage.safe_int (JStr (qty_entry f)) 0));
   ("Sort_Done", CStr (if sort_var f then "Yes" else "No"));
   ("Defect_Reason",
    CStr (if defect_var f then strip (defect_reason f) else ""));
   ("Quality_Verified", CStr "Pending");
   ("Quality_User", CStr "");
   ("Quality_Time", CStr "");
   ("Leader_Sign", CStr "Pending");
   ("Leader_User", CStr "");
   ("Leader_Time", CStr "");
   ("Serial_Numbers", CStr "")].

(** The tail of [submit], from [get_df()] on. *)
Definition append_entry (f : form) (user : string) (downtime : Z)
  (cost : pyfloat) : M submitted :=
  r <- Storage.get_df None ;;
  t <- now ;;
  id <- Storage.next_id (fst r) ;;
  let df := concat_row (fst r) (new_row f user id t downtime cost) in
  Storage.save_df df (snd r) ;;;
  ret (Saved cost).

(** [ToolChangerUI.submit()], with the form, the user logged in and the
    answer the stock warning would get.  The widget resets after the save
    touch no file and are left out. *)
Definition submit (f : form) (user : string) (askyesno : bool) : M submitted :=
  if negb (nonempty (mach_cb f)) || negb (nonempty (tool_cb f))
     || negb (nonempty (reason_cb f))
  then ret MissingInfo
  else
    let downtime := Storage.safe_int (JStr (down_entry f)) 0 in
    cfg <- Storage.load_json TOOL_CONFIG_FILE (JDict []) ;;
    let tool_key := "Tool " +:+ tool_cb f in
    known <- lift (contains tool_key cfg) ;;
    if known then
      entry <- lift (subscript tool_key cfg) ;;
      c <- lift (get_method "cost" (JInt 0) entry) ;;
      let cost := Storage.safe_float c float_zero in
      s <- lift (get_method "stock" (JInt 0) entry) ;;
      let stock := Storage.safe_int s 0 in
      if (stock <=? 0)%Z then
        if negb askyesno then ret Declined
        else append_entry f user downtime cost
      else
        let entry' := match entry with
                      | JDict e => JDict (set "stock" (JInt (stock - 1)) e)
                      | _ => entry
                      end in
        let cfg' := match cfg with
                    | JDict d => JDict (set tool_key entry' d)
                    | _ => cfg
                    end in
        Storage.save_json TOOL_CONFIG_FILE cfg' ;;;
        append_entry f user downtime cost
    else append_entry f user downtime float_zero.

(** [QualityUI.edit_defects()], with the selected identifier, the file name
    the screen holds and what the four widgets of the dialog hold when
    [Save] is pressed.  The dialog is filled from the four cells of the
    first matching row (a missing column raises there); the screen does
    nothing else between opening the dialog and saving. *)
Definition edit_defects (sel_id : string) (_filename : option string)
  (dp dq sd dr : string) : M outcome :=
  if negb (nonempty sel_id) then ret Warned
  else
    r <- Storage.get_df _filename ;;
    let df := fst r in
    let filename := snd r in
    ids <- lift (getitem "ID" df) ;;
    match index_where (id_mask sel_id ids) with
    | [] => ret NotFound
    | i :: _ =>
        lift (getitem "Defects_Present" df) ;;;
        lift (getitem "Defect_Qty" df) ;;;
        lift (getitem "Sort_Done" df) ;;;
        lift (getitem "Defect_Reason" df) ;;;
        let df := loc_set [i] "Defects_Present" (CStr dp) df in
        let df := loc_set [i] "Defect_Qty"
                    (CInt (Storage.safe_int (JStr dq) 0)) df in
        let df := loc_set [i] "Sort_Done" (CStr sd) df in
        let df := loc_set [i] "Defect_Reason" (CStr (strip dr)) df in
        Storage.save_df df filename ;;;
        pending <- quality_load_pending (Some filename) ;;
        ret (Refreshed pending)
    end.

End WithEnv.
End Workflow.

(** ** [app/ui_admin.py]: user management *)

Module Admin.
Section WithEnv.
Context `{Env}.

(** [AdminUI.ROLE_OPTIONS] *)
Definition ROLE_OPTIONS : list string :=
  ["Operator"; "Tool Changer"; "Leader"; "Quality"; "Top (Super User)"; "Admin"].

(** [users[username] = record]: only a dict takes a string key. *)
Definition setitem (k : string) (v : json) (users : json) : result json :=
  match users with
  | JDict d => Ok (JDict (set k v d))
  | _ => Raise TypeError
  end.

(** [AdminUI.refresh_users()]: the rows put in the table. *)
Definition refresh_users : M (list (string * json * json)) :=
  raw <- Storage.load_json USERS_FILE (JDict []) ;;
  let users := ActionStore.users_map_of raw in
  match users with
  | JDict d =>
      lift (rfold (fun rows username =>
                     let u := por (get_or username (JDict []) d) (JDict []) in
                     rbind (Workflow.get_method "name" (JStr "") u) (fun name =>
                     rbind (Workflow.get_method "role" (JStr "") u) (fun role =>
                     Ok (rows ++ [(username, name, role)]))))
              [] (Builtins.sorted (map fst d)))
  | _ => raise AttributeError
  end.

(** What [create_user] ends in. *)
Inductive created :=
| UsernameRequired
| PasswordRequired
| NameRequired
| InvalidRole
| AlreadyExists
| Created (rows : list (string * json * json)).

(** [AdminUI.create_user()], with what the four inputs hold. *)
Definition create_user (var_username var_password var_name var_role : string)
  : M created :=
  let username := strip var_username in
  let password := strip var_password in
  let name := strip var_name in
  let role := strip var_role in
  if negb (nonempty username) then ret UsernameRequired
  else if negb (nonempty password) then ret PasswordRequired
  else if negb (nonempty name) then ret NameRequired
  else if negb (mem role ROLE_OPTIONS) then ret InvalidRole
  else
    raw <- Storage.load_json USERS_FILE (JDict []) ;;
    let users := ActionStore.users_map_of raw in
    known <- lift (Workflow.contains username users) ;;
    if known then ret AlreadyExists
    else
      users <- lift (setitem username
                       (JDict [("password", JStr password);
                               ("role", JStr role);
                               ("name", JStr name)]) users) ;;
      Storage.save_json USERS_FILE users ;;;
      rows <- refresh_users ;;
      ret (Created rows).

End WithEnv.
End Admin.

(** ** A sample environment

    Used to run the model on concrete inputs. *)

Module Sample.

(** Modelled from the spec: the constant [COLUMNS] of [app/config.py], which
    is not among the sources.  The interface section of the spec gives the
    canonical order (identity, date/time, shift, line, machine, part number,
    tool number, reason, downtime, cost, submitting user, defect fields,
    quality sub-record, leader sub-record, serials); the labels are those of
    the record built in [ToolChangerUI.submit]. *)
Definition columns : list string :=
  ["ID"; "Date"; "Time"; "Shift"; "Line"; "Machine"; "Part_Number";
   "Tool_Num"; "Reason"; "Downtime_Mins"; "Cost"; "Tool_Changer";
   "Defects_Present"; "Defect_Qty"; "Sort_Done"; "Defect_Reason";
   "Quality_Verified"; "Quality_User"; "Quality_Time";
   "Leader_Sign"; "Leader_User"; "Leader_Time"; "Serial_Numbers"].

(** Modelled from the spec: [month_excel_path] of [app/config.py]; one
    workbook per calendar month, named from the year and the month. *)
Definition month_path (t : datetime) : string :=
  "data/tool_life_data_" +:+ pad4 (year t) +:+ "_" +:+ pad2 (month t) +:+ ".xlsx".

(** A stand-in for [repr] on floats: exact on integral values. *)
Definition repr (f : pyfloat) : string :=
  match f with
  | Finite n 1 => str_of_int n +:+ ".0"
  | Finite n d => str_of_int n +:+ "/" +:+ str_of_int (Z.pos d)
  | Inf false => "inf"
  | Inf true => "-inf"
  | NaN => "nan"
  end.

(** A stand-in for [float]: unsigned decimal integers only. *)
Fixpoint digits_value (acc : Z) (s : string) : option Z :=
  match s with
  | EmptyString => Some acc
  | String c r =>
      match undigit c with
      | Some d => digits_value (10 * acc + Z.of_nat d) r
      | None => None
      end
  end.

Definition parse (s : string) : option pyfloat :=
  match s with
  | EmptyString => None
  | _ => match digits_value 0 s with
         | Some z => Some (Finite z 1)
         | None => None
         end
  end.

#[export] Instance env : Env := {|
  COLUMNS := columns;
  DATA_DIR := "data";
  month_excel_path := month_path;
  TOOL_CONFIG_FILE := "config/tool_config.json";
  ACTIONS_FILE := "data/actions.json";
  NCRS_FILE := "data/ncrs.json";
  USERS_FILE := "config/users.json";
  float_repr := repr;
  float_of_string := parse;
  container_repr := fun _ => "[...]"
|}.

(** A clock stuck at noon on 4 January 2026, and one that advances a second
    per reading from there. *)
Definition noon : datetime :=
  {| year := 2026; month := 1; day := 4; hour := 12; minute := 0; second := 0 |}.

Definition frozen (n : nat) : datetime := noon.

Definition ticking (n : nat) : datetime :=
  {| year := 2026; month := 1; day := 4;
     hour := 12; minute := (n / 60) mod 60; second := n mod 60 |}.

Definition world_of (fs : list (string * file)) (c : nat -> datetime) : world :=
  {| files := list_to_map fs; clock := c; ticks := 0 |}.

End Sample.

(** * Properties *)

(** ** Strings *)

Module PyFacts.

Lemma rstrip_idem s : rstrip (rstrip s) = rstrip s.
Proof.
  induction s as [|c r IH]; [reflexivity|].
  cbn [rstrip]. destruct (rstrip r) as [|c' r'] eqn:E.
  - destruct (isspace c) eqn:Ec; cbn [rstrip]; [reflexivity|].
    now rewrite Ec.
  - cbn [rstrip]. cbn [rstrip] in IH. now rewrite IH.
Qed.

Definition starts_clean (s : string) : Prop :=
  match s with
  | EmptyString => True
  | String c _ => isspace c = false
  end.

Lemma lstrip_starts_clean s : starts_clean (lstrip s).
Proof.
  induction s as [|c r IH]; cbn; [exact I|].
  destruct (isspace c) eqn:Ec; [exact IH|]. cbn. exact Ec.
Qed.

Lemma lstrip_clean s : starts_clean s -> lstrip s = s.
Proof. destruct s as [|c r]; cbn; [reflexivity|]. now intros ->. Qed.

Lemma rstrip_starts_clean s : starts_clean s -> starts_clean (rstrip s).
Proof.
  destruct s as [|c r]; cbn [rstrip starts_clean]; [trivial|].
  intros Hc. destruct (rstrip r); [rewrite Hc|]; exact Hc.
Qed.

Lemma strip_idem s : strip (strip s) = strip s.
Proof.
  unfold strip.
  rewrite (lstrip_clean (rstrip (lstrip s))).
  - apply rstrip_idem.
  - apply rstrip_starts_clean, lstrip_starts_clean.
Qed.

Lemma strip_empty : strip EmptyString = EmptyString.
Proof. reflexivity. Qed.

Lemma eqb_refl' s : String.eqb s s = true.
Proof. apply String.eqb_refl. Qed.

End PyFacts.

(** ** Dictionaries *)

Module JsonFacts.

Lemma lookup_set_eq k v d : lookup k (set k v d) = Some v.
Proof.
  induction d as [|[k' v'] r IH]; cbn.
  - now rewrite String.eqb_refl.
  - destruct (String.eqb k k') eqn:E; cbn; rewrite E; [reflexivity|exact IH].
Qed.

Lemma lookup_set_ne k k' v d :
  String.eqb k' k = false -> lookup k' (set k v d) = lookup k' d.
Proof.
  intros Hne. induction d as [|[k0 v0] r IH]; cbn.
  - now rewrite Hne.
  - destruct (String.eqb k k0) eqn:E; cbn.
    + apply String.eqb_eq in E. subst k0. now rewrite Hne.
    + destruct (String.eqb k' k0); [reflexivity|exact IH].
Qed.

Lemma lookup_app k d e :
  lookup k (d ++ e) = match lookup k d with
                      | Some v => Some v
                      | None => lookup k e
                      end.
Proof.
  induction d as [|[k' v'] r IH]; cbn; [reflexivity|].
  destruct (String.eqb k k'); [reflexivity|exact IH].
Qed.

Lemma lookup_setdefault_eq k v d :
  lookup k (setdefault k v d) = Some (get_or k v d).
Proof.
  unfold setdefault, has_key, get_or.
  destruct (lookup k d) eqn:E; [exact E|].
  rewrite lookup_app, E. cbn. now rewrite String.eqb_refl.
Qed.

Lemma lookup_setdefault_ne k k' v d :
  String.eqb k' k = false -> lookup k' (setdefault k v d) = lookup k' d.
Proof.
  intros Hne. unfold setdefault, has_key.
  destruct (lookup k d); [reflexivity|].
  rewrite lookup_app. destruct (lookup k' d); [reflexivity|].
  cbn. now rewrite Hne.
Qed.

Lemma setdefault_present k v d : has_key k d = true -> setdefault k v d = d.
Proof. unfold setdefault. now intros ->. Qed.

Lemma has_key_setdefault k v d : has_key k (setdefault k v d) = true.
Proof. unfold has_key. now rewrite lookup_setdefault_eq. Qed.

Lemma get_set_eq k v d : get k (set k v d) = v.
Proof. unfold get. now rewrite lookup_set_eq. Qed.

Lemma get_set_ne k k' v d :
  String.eqb k' k = false -> get k' (set k v d) = get k' d.
Proof. intros Hne. unfold get. now rewrite lookup_set_ne. Qed.

Lemma get_setdefault_ne k k' v d :
  String.eqb k' k = false -> get k' (setdefault k v d) = get k' d.
Proof. intros Hne. unfold get. now rewrite lookup_setdefault_ne. Qed.

Lemma get_setdefault_eq k v d : get k (setdefault k v d) = get_or k v d.
Proof. unfold get. now rewrite lookup_setdefault_eq. Qed.

Definition among (k : string) (l : list (string * json)) : bool :=
  existsb (fun kv => String.eqb k (fst kv)) l.

Lemma among_has_key k l : among k l = has_key k l.
Proof.
  unfold has_key. induction l as [|[k' v'] r IH]; cbn; [reflexivity|].
  destruct (String.eqb k k'); [reflexivity|exact IH].
Qed.

Lemma lookup_fold_set k b l : forall a,
  lookup k (fold_left (fun acc kv => set (fst kv) (get (fst kv) b) acc) l a)
  = if among k l then Some (get k b) else lookup k a.
Proof.
  induction l as [|[k' v'] r IH]; intros a; [reflexivity|].
  cbn [fold_left fst]. rewrite IH.
  change (among k ((k', v') :: r)) with (String.eqb k k' || among k r).
  destruct (among k r) eqn:Er.
  - now rewrite orb_true_r.
  - rewrite orb_false_r. destruct (String.eqb k k') eqn:E.
    + apply String.eqb_eq in E. subst k'. apply lookup_set_eq.
    + now apply lookup_set_ne.
Qed.

(** [{**a, **b}] read at a key: the binding of [b] if it has one, that of
    [a] otherwise. *)
Lemma lookup_merge k a b :
  lookup k (merge a b) = if has_key k b then lookup k b else lookup k a.
Proof.
  unfold merge. rewrite lookup_fold_set, among_has_key.
  unfold has_key, get. now destruct (lookup k b).
Qed.

Lemma get_merge k a b :
  get k (merge a b) = if has_key k b then get k b else get k a.
Proof. unfold get. rewrite lookup_merge. now destruct (has_key k b). Qed.

(** A field the new record omits survives the merge untouched. *)
Lemma get_merge_omitted k a b : has_key k b = false -> get k (merge a b) = get k a.
Proof. intros Hk. now rewrite get_merge, Hk. Qed.

Lemma has_key_set k k' v d :
  has_key k' (set k v d) = String.eqb k' k || has_key k' d.
Proof.
  unfold has_key. destruct (String.eqb k' k) eqn:E; cbn.
  - apply String.eqb_eq in E. subst k'. now rewrite lookup_set_eq.
  - now rewrite lookup_set_ne.
Qed.

Lemma has_key_setdefault_any k k' v d :
  has_key k' (setdefault k v d) = String.eqb k' k || has_key k' d.
Proof.
  unfold has_key. destruct (String.eqb k' k) eqn:E; cbn.
  - apply String.eqb_eq in E. subst k'. now rewrite lookup_setdefault_eq.
  - now rewrite lookup_setdefault_ne.
Qed.

Lemma py_eq_str s : py_eq (JStr s) (JStr s) = true.
Proof. cbn. apply String.eqb_refl. Qed.

End JsonFacts.

(** ** The store normalisers *)

Module MasterDataProps.
Import MasterData PyFacts JsonFacts.

(** The entries [_normalize_parts_store] emits. *)
Definition canonical_part (p : json) : Prop :=
  exists pn nm ln,
    p = JDict [("part_number", JStr pn); ("name", JStr nm); ("lines", JList ln)]
    /\ strip pn = pn /\ strip nm = nm.

Definition kept (p : json) : bool :=
  match p with
  | JDict e => truthy (get "part_number" e)
  | _ => false
  end.

Lemma strip_method_por_str v s :
  strip_method (por v (JStr EmptyString)) = Ok s -> strip s = s.
Proof.
  unfold por. destruct (truthy v); [destruct v|]; cbn; try discriminate;
    intros [= <-]; try apply strip_idem; reflexivity.
Qed.

Lemma clean_part_item_canonical acc item out :
  Forall canonical_part acc ->
  clean_part_item acc item = Ok out ->
  Forall canonical_part out.
Proof.
  intros Hacc. destruct item; cbn; try (intros [= <-]; exact Hacc).
  - intros [= <-]. apply Forall_app. split; [exact Hacc|].
    constructor; [|constructor].
    exists (strip s), EmptyString, []. repeat split. apply strip_idem.
  - destruct (strip_method _) as [pn|] eqn:Epn; cbn; [|discriminate].
    destruct (strip_method (por (get "name" d) _)) as [nm|] eqn:Enm; cbn;
      [|discriminate].
    intros [= <-]. apply Forall_app. split; [exact Hacc|].
    constructor; [|constructor].
    assert (Hpn : strip pn = pn).
    { revert Epn. unfold por at 1.
      destruct (truthy (get "part_number" d)).
      - destruct (get "part_number" d); cbn; try discriminate.
        intros [= <-]. apply strip_idem.
      - unfold por at 1. destruct (truthy (get "pn" d)).
        + destruct (get "pn" d); cbn; try discriminate.
          intros [= <-]. apply strip_idem.
        + apply strip_method_por_str. }
    pose proof (strip_method_por_str _ _ Enm) as Hnm.
    set (ln0 := por (get "lines" d) (JList [])).
    destruct ln0 as [| | | | s |l|e] eqn:El; cbn;
      try (exists pn, nm, []; repeat split; assumption).
    + eexists pn, nm, _. repeat split; assumption.
    + exists pn, nm, l. repeat split; assumption.
Qed.

Lemma rfold_clean_canonical parts : forall acc out,
  Forall canonical_part acc ->
  rfold clean_part_item acc parts = Ok out ->
  Forall canonical_part out.
Proof.
  induction parts as [|item rest IH]; intros acc out Hacc; cbn.
  - now intros [= <-].
  - destruct (clean_part_item acc item) as [acc'|] eqn:E; cbn; [|discriminate].
    apply IH. eapply clean_part_item_canonical; eassumption.
Qed.

Lemma clean_canonical_item acc p :
  canonical_part p -> kept p = true -> clean_part_item acc p = Ok (acc ++ [p]).
Proof.
  intros (pn & nm & ln & -> & Hpn & Hnm). cbn.
  unfold por at 1. cbn. destruct pn as [|c pn']; [discriminate|]. intros _.
  cbn [nonempty strip_method rbind]. rewrite Hpn.
  assert (Hn : strip_method (por (JStr nm) (JStr EmptyString)) = Ok nm).
  { destruct nm; [reflexivity|].
    unfold por. cbn [truthy nonempty strip_method]. now rewrite Hnm. }
  change (get "name" _) with (JStr nm). rewrite Hn. cbn [rbind].
  change (get "lines" _) with (JList ln).
  destruct ln; reflexivity.
Qed.

Lemma rfold_clean_canonical_list l : forall acc,
  Forall canonical_part l -> forallb kept l = true ->
  rfold clean_part_item acc l = Ok (acc ++ l).
Proof.
  induction l as [|p r IH]; intros acc Hc Hk; cbn.
  - now rewrite app_nil_r.
  - inversion Hc as [|? ? Hp Hr]; subst.
    apply andb_prop in Hk as [Hkp Hkr].
    rewrite (clean_canonical_item acc p Hp Hkp). cbn.
    rewrite (IH _ Hr Hkr). now rewrite <- app_assoc.
Qed.

Lemma filter_kept_all l : forallb kept (List.filter kept l) = true.
Proof.
  induction l as [|p r IH]; cbn; [reflexivity|].
  destruct (kept p) eqn:E; cbn; [rewrite E|]; exact IH.
Qed.

Lemma filter_id_of_all l : forallb kept l = true -> List.filter kept l = l.
Proof.
  induction l as [|p r IH]; cbn; [reflexivity|].
  intros Hk. apply andb_prop in Hk as [-> Hr]. now rewrite IH.
Qed.

Lemma Forall_filter_kept l :
  Forall canonical_part l -> Forall canonical_part (List.filter kept l).
Proof.
  induction 1 as [|p r Hp Hr IH]; cbn; [constructor|].
  destruct (kept p); [constructor|]; assumption.
Qed.

(** The part of [_normalize_parts_store] that runs on a dict. *)
Definition parts_of_dict (d : list (string * json)) : result json :=
  let d := if negb (has_key "parts" d) && is_list (get "data" d)
           then [("parts", get "data" d)] else d in
  let parts := match get_or "parts" (JList []) d with JList l => l | _ => [] end in
  rbind (rfold clean_part_item [] parts)
    (fun cleaned => Ok (JDict [("parts", JList (List.filter kept cleaned))])).

Lemma parts_store_cases store :
  _normalize_parts_store store =
  match store with
  | JList _ => parts_of_dict [("parts", store)]
  | JDict d => parts_of_dict d
  | _ => Ok (JDict [("parts", JList [])])
  end.
Proof. destruct store; reflexivity. Qed.

Lemma parts_of_dict_shape d out :
  parts_of_dict d = Ok out ->
  exists l, out = JDict [("parts", JList l)]
            /\ Forall canonical_part l /\ forallb kept l = true.
Proof.
  unfold parts_of_dict.
  match goal with |- rbind (rfold _ _ ?p) _ = _ -> _ => set (parts := p) end.
  destruct (rfold clean_part_item [] parts) as [cleaned|] eqn:E; cbn [rbind];
    [|discriminate].
  intros [= <-]. eexists. split; [reflexivity|]. split.
  - apply Forall_filter_kept. eapply rfold_clean_canonical; [|exact E]. constructor.
  - apply filter_kept_all.
Qed.

(** The result of a run that does not raise has the canonical shape. *)
Lemma parts_store_shape store out :
  _normalize_parts_store store = Ok out ->
  exists l, out = JDict [("parts", JList l)]
            /\ Forall canonical_part l /\ forallb kept l = true.
Proof.
  rewrite parts_store_cases.
  destruct store; try apply parts_of_dict_shape;
    intros [= <-]; exists []; repeat split; constructor.
Qed.

(** Canonical stores are fixed points. *)
Lemma parts_store_fixed l :
  Forall canonical_part l -> forallb kept l = true ->
  _normalize_parts_store (JDict [("parts", JList l)]) = Ok (JDict [("parts", JList l)]).
Proof.
  intros Hc Hk. rewrite parts_store_cases.
  change (parts_of_dict [("parts", JList l)])
    with (rbind (rfold clean_part_item [] l)
            (fun cleaned => Ok (JDict [("parts", JList (List.filter kept cleaned))]))).
  rewrite (rfold_clean_canonical_list l [] Hc Hk). cbn [rbind app].
  now rewrite (filter_id_of_all l Hk).
Qed.

Lemma tool_store_idem store :
  _normalize_tool_store (_normalize_tool_store store) = _normalize_tool_store store.
Proof.
  destruct store; try reflexivity. cbn.
  destruct (has_key "tools" d && is_dict (get "tools" d)) eqn:E; cbn.
  - now rewrite E.
  - reflexivity.
Qed.

Lemma cost_store_idem store :
  _normalize_cost_store (_normalize_cost_store store) = _normalize_cost_store store.
Proof.
  unfold _normalize_cost_store.
  set (d0 := match store with JDict d => d | _ => [] end).
  set (d1 := setdefault "scrap_cost_by_part" (JDict []) d0).
  set (d2 := if is_dict (get "scrap_cost_by_part" d1) then d1
             else set "scrap_cost_by_part" (JDict []) d1).
  set (d3 := setdefault "scrap_cost_default" (JFloat float_zero) d2).
  cbn match.
  assert (H2 : is_dict (get "scrap_cost_by_part" d2) = true).
  { unfold d2. destruct (is_dict (get "scrap_cost_by_part" d1)) eqn:E; [exact E|].
    now rewrite get_set_eq. }
  assert (K2 : has_key "scrap_cost_by_part" d2 = true).
  { unfold d2. destruct (is_dict (get "scrap_cost_by_part" d1)).
    - apply has_key_setdefault.
    - unfold has_key. now rewrite lookup_set_eq. }
  assert (K3 : has_key "scrap_cost_by_part" d3 = true).
  { unfold d3, has_key. rewrite lookup_setdefault_ne by reflexivity. exact K2. }
  assert (H3 : is_dict (get "scrap_cost_by_part" d3) = true).
  { unfold d3. rewrite get_setdefault_ne by reflexivity. exact H2. }
  rewrite (setdefault_present _ _ d3 K3), H3.
  rewrite (setdefault_present _ _ d3); [reflexivity|].
  apply has_key_setdefault.
Qed.

Lemma users_map_idem raw :
  ActionStore.users_map_of (ActionStore.users_map_of raw) = ActionStore.users_map_of raw.
Proof.
  unfold ActionStore.users_map_of, por.
  destruct (truthy raw) eqn:E; [now rewrite E|reflexivity].
Qed.

(** [isinstance(v, (int, float))], booleans apart. *)
Definition is_number (v : json) : bool :=
  match v with
  | JInt _ | JFloat _ => true
  | _ => false
  end.

(** The fields of a store. *)
Definition fields (v : json) : list (string * json) :=
  match v with JDict d => d | _ => [] end.

(** C3.  Each of the four normalisers (parts, tools, costs, and the
    [... or {}] applied to the user map) maps its own output to itself:
    a parts normalisation that ends normally yields a store that
    normalises to itself, and the three total normalisers are idempotent
    outright.  On [None], [{}] and [[]] each returns the empty canonical
    shape of its kind, without raising. *)
Theorem normalize_idempotent_and_total_on_empties (raw : json) :
  rbind (_normalize_parts_store raw) _normalize_parts_store
    = _normalize_parts_store raw
  /\ _normalize_tool_store (_normalize_tool_store raw) = _normalize_tool_store raw
  /\ _normalize_cost_store (_normalize_cost_store raw) = _normalize_cost_store raw
  /\ ActionStore.users_map_of (ActionStore.users_map_of raw)
      = ActionStore.users_map_of raw
  /\ Forall (fun empty =>
        _normalize_parts_store empty = Ok (JDict [("parts", JList [])])
        /\ _normalize_tool_store empty = JDict [("tools", JDict [])]
        /\ _normalize_cost_store empty
            = JDict [("scrap_cost_by_part", JDict []);
                     ("scrap_cost_default", JFloat float_zero)]
        /\ ActionStore.users_map_of empty = JDict [])
       [JNull; JDict []; JList []].
Proof.
  split; [|split; [|split; [|split]]].
  - destruct (_normalize_parts_store raw) as [out|e] eqn:E; [|reflexivity].
    cbn [rbind].
    destruct (parts_store_shape _ _ E) as (l & -> & Hc & Hk).
    now apply parts_store_fixed.
  - apply tool_store_idem.
  - apply cost_store_idem.
  - apply users_map_idem.
  - repeat constructor.
Qed.

(** C4, as the code has it.  The result of cost normalisation is a dict in
    which [scrap_cost_by_part] is a dict (the existing one when it was a
    dict, the empty one otherwise, so a wrong-typed value is discarded) and
    in which [scrap_cost_default] is present: [0.0] when the input had no
    such key, and the existing value, whatever its type, when it had. *)
Theorem cost_store_fields (store : json) :
  exists d,
    _normalize_cost_store store = JDict d
    /\ is_dict (get "scrap_cost_by_part" d) = true
    /\ get "scrap_cost_by_part" d
        = (if is_dict (get "scrap_cost_by_part" (fields store))
           then get "scrap_cost_by_part" (fields store) else JDict [])
    /\ has_key "scrap_cost_default" d = true
    /\ get "scrap_cost_default" d
        = get_or "scrap_cost_default" (JFloat float_zero) (fields store).
Proof.
  unfold _normalize_cost_store.
  change (match store with JDict d => d | _ => [] end) with (fields store).
  set (d0 := fields store).
  set (d1 := setdefault "scrap_cost_by_part" (JDict []) d0).
  set (d2 := if is_dict (get "scrap_cost_by_part" d1) then d1
             else set "scrap_cost_by_part" (JDict []) d1).
  eexists. split; [reflexivity|].
  assert (G1 : get "scrap_cost_by_part" d1 = get_or "scrap_cost_by_part" (JDict []) d0)
    by apply get_setdefault_eq.
  assert (G2 : get "scrap_cost_by_part" d2
               = if is_dict (get "scrap_cost_by_part" d0)
                 then get "scrap_cost_by_part" d0 else JDict []).
  { unfold d2. destruct (is_dict (get "scrap_cost_by_part" d1)) eqn:E.
    - rewrite G1 in *. unfold get_or, get in *.
      destruct (lookup "scrap_cost_by_part" d0); [now rewrite E|reflexivity].
    - rewrite get_set_eq. rewrite G1 in E. unfold get_or, get in *.
      destruct (lookup "scrap_cost_by_part" d0); [now rewrite E|discriminate]. }
  assert (L2 : lookup "scrap_cost_default" d2 = lookup "scrap_cost_default" d0).
  { unfold d2. destruct (is_dict (get "scrap_cost_by_part" d1)).
    - unfold d1. now rewrite lookup_setdefault_ne.
    - rewrite lookup_set_ne by reflexivity.
      unfold d1. now rewrite lookup_setdefault_ne. }
  rewrite get_setdefault_ne by reflexivity.
  rewrite has_key_setdefault, get_setdefault_eq.
  repeat split.
  - rewrite G2. destruct (is_dict (get "scrap_cost_by_part" d0)) eqn:E;
      [exact E|reflexivity].
  - exact G2.
  - unfold get_or. now rewrite L2.
Qed.

(** C4 fails as stated: a [scrap_cost_default] that is not a number stays
    in place. *)
Lemma cost_default_not_replaced :
  let out := _normalize_cost_store (JDict [("scrap_cost_default", JStr "abc")]) in
  out = JDict [("scrap_cost_default", JStr "abc"); ("scrap_cost_by_part", JDict [])]
  /\ is_number (get "scrap_cost_default" (fields out)) = false.
Proof. split; reflexivity. Qed.

(** C9.  The two-element legacy input of the specification normalises to
    exactly the two stated entries.  In general a bare string becomes an
    entry with its stripped text as part number, an empty name and no lines
    (dropped when nothing is left of it), and an entry given with a part
    number and a comma-separated lines string gets the stripped part number
    and the list of the stripped, non-empty pieces. *)
Theorem parts_store_example :
  _normalize_parts_store
    (JList [JStr "PN1";
            JDict [("part_number", JStr " PN2 "); ("lines", JStr "A, B")]])
  = Ok (JDict [("parts",
         JList [JDict [("part_number", JStr "PN1"); ("name", JStr "");
                       ("lines", JList [])];
                JDict [("part_number", JStr "PN2"); ("name", JStr "");
                       ("lines", JList [JStr "A"; JStr "B"])]])])
  /\ (forall s,
        _normalize_parts_store (JList [JStr s])
        = Ok (JDict [("parts",
               JList (if nonempty (strip s)
                      then [JDict [("part_number", JStr (strip s));
                                   ("name", JStr ""); ("lines", JList [])]]
                      else []))]))
  /\ (forall pn ln,
        _normalize_parts_store
          (JList [JDict [("part_number", JStr pn); ("lines", JStr ln)]])
        = Ok (JDict [("parts",
               JList (if nonempty (strip pn)
                      then [JDict [("part_number", JStr (strip pn));
                                   ("name", JStr "");
                                   ("lines",
                                    JList (map JStr
                                             (List.filter nonempty
                                                (map strip (split "," ln)))))]]
                      else []))])).
Proof.
  split; [reflexivity|]. split.
  - intros s. rewrite parts_store_cases.
    change (parts_of_dict [("parts", JList [JStr s])])
      with (Ok (A:=json) (JDict [("parts",
              JList (List.filter kept
                       [JDict [("part_number", JStr (strip s));
                               ("name", JStr ""); ("lines", JList [])]]))])).
    cbn [List.filter kept]. change (get "part_number" _) with (JStr (strip s)).
    cbn [truthy]. now destruct (nonempty (strip s)).
  - intros pn ln. rewrite parts_store_cases.
    unfold parts_of_dict.
    change (has_key "parts" _) with true. cbn [negb andb].
    change (get_or "parts" _ _)
      with (JList [JDict [("part_number", JStr pn); ("lines", JStr ln)]]).
    cbn [rfold clean_part_item].
    change (get "part_number" _) with (JStr pn).
    change (get "pn" _) with JNull. change (get "part" _) with JNull.
    change (get "name" _) with JNull.
    change (get "lines" _) with (JStr ln).
    assert (Hpn : strip_method (por (JStr pn) (por JNull (por JNull (JStr ""))))
                  = Ok (strip pn)).
    { destruct pn; reflexivity. }
    rewrite Hpn. cbn [rbind].
    change (strip_method (por JNull (JStr ""))) with (Ok (A:=string) "").
    cbn [rbind].
    assert (Hln : (let l0 := por (JStr ln) (JList []) in
                   let l1 := match l0 with
                             | JStr s => JList (map JStr (List.filter nonempty
                                                  (map strip (split "," s))))
                             | _ => l0
                             end in
                   if is_list l1 then l1 else JList [])
                  = JList (map JStr (List.filter nonempty (map strip (split "," ln))))).
    { destruct ln; reflexivity. }
    cbv zeta in Hln. rewrite Hln. cbn [app rbind List.filter kept].
    change (get "part_number" _) with (JStr (strip pn)).
    cbn [truthy]. now destruct (nonempty (strip pn)).
Qed.

End MasterDataProps.

(** ** The action / NCR ledger *)

Module ActionProps.
Import ActionStore JsonFacts.

(** What [load_json] hands to the loader of the list [k] kept at [p]. *)
Definition on_disk (p k : string) (w : world) : json :=
  match files w !! p with
  | Some (FJson j) => j
  | _ => JDict [("version", JInt 1); (k, JList [])]
  end.

(** The list [k] of the ledger kept at [p], as its loader sees it. *)
Definition stored (p k : string) (w : world) : list json :=
  items_of (get k (ensure_shape k (on_disk p k w))).

Definition all_dicts (l : list json) : Prop := forallb is_dict l = true.

Lemma lookup_setdefault_some k k' v d x :
  lookup k d = Some x -> lookup k (setdefault k' v d) = Some x.
Proof.
  intros Hx. unfold setdefault. destruct (has_key k' d); [exact Hx|].
  now rewrite lookup_app, Hx.
Qed.

Lemma get_ensure_shape k j :
  String.eqb k "version" = false ->
  get k (ensure_shape k j)
  = match lookup k (match j with JDict d => d | _ => [] end) with
    | Some (JList l) => JList l
    | _ => JList []
    end.
Proof.
  intros Hk. unfold ensure_shape.
  set (d := match j with JDict d => d | _ => [] end).
  set (d1 := setdefault "version" (JInt 1) d).
  assert (L1 : lookup k d1 = lookup k d) by (apply lookup_setdefault_ne, Hk).
  assert (G2 : get k (setdefault k (JList []) d1) = get_or k (JList []) d).
  { rewrite get_setdefault_eq. unfold get_or. now rewrite L1. }
  rewrite G2. unfold get_or.
  destruct (lookup k d) as [v|] eqn:E.
  - destruct (is_list v) eqn:Ev.
    + rewrite G2. unfold get_or. rewrite E. destruct v; try discriminate. reflexivity.
    + rewrite get_set_eq. destruct v; try reflexivity. discriminate.
  - cbn [is_list]. rewrite G2. unfold get_or. now rewrite E.
Qed.

Lemma stored_spec p k w :
  String.eqb k "version" = false ->
  stored p k w
  = match files w !! p with
    | Some (FJson (JDict d)) =>
        match lookup k d with Some (JList l) => l | _ => [] end
    | _ => []
    end.
Proof.
  intros Hk. unfold stored. rewrite (get_ensure_shape k _ Hk). unfold on_disk.
  destruct (files w !! p) as [[j|df|b]|]; cbn [lookup];
    try (rewrite Hk, String.eqb_refl; reflexivity).
  destruct j; try reflexivity.
  destruct (lookup k d) as [[]|]; reflexivity.
Qed.

Lemma lookup_ensure_shape_other k lk j :
  String.eqb k "version" = false -> String.eqb k lk = false ->
  lookup k (ensure_shape lk j)
  = lookup k (match j with JDict d => d | _ => [] end).
Proof.
  intros Hk E. unfold ensure_shape.
  set (d := match j with JDict d => d | _ => [] end).
  set (d2 := setdefault lk (JList []) (setdefault "version" (JInt 1) d)).
  assert (L2 : lookup k d2 = lookup k d).
  { unfold d2. rewrite lookup_setdefault_ne by exact E.
    now rewrite lookup_setdefault_ne. }
  destruct (is_list (get lk d2)); [exact L2|].
  now rewrite lookup_set_ne.
Qed.

Lemma find_id_total key id items :
  all_dicts items -> exists r, find_id key id items = Ok r.
Proof.
  unfold all_dicts. induction items as [|a rest IH]; cbn; [eauto|].
  destruct a; cbn; try discriminate. intros Hr.
  destruct (py_eq (get key d) id); [eauto|].
  destruct (IH Hr) as [r ->]. cbn. eauto.
Qed.

Lemma find_id_some key id items i :
  find_id key id items = Ok (Some i) ->
  exists a, items !! i = Some (JDict a) /\ py_eq (get key a) id = true.
Proof.
  revert i. induction items as [|a rest IH]; intros i; cbn; [discriminate|].
  destruct a; try discriminate.
  destruct (py_eq (get key d) id) eqn:E.
  - intros [= <-]. eauto.
  - destruct (find_id key id rest) as [[j|]|]; cbn; try discriminate.
    intros [= <-]. cbn. now apply IH.
Qed.

Lemma all_dicts_insert items i a :
  all_dicts items -> all_dicts (<[i := JDict a]> items).
Proof.
  unfold all_dicts. revert i.
  induction items as [|x r IH]; intros i; cbn; [trivial|].
  intros Hx. apply andb_prop in Hx as [Hx Hr].
  destruct i; cbn; [exact Hr|]. rewrite Hx. cbn. now apply IH.
Qed.

Lemma all_dicts_snoc items a : all_dicts items -> all_dicts (items ++ [JDict a]).
Proof. unfold all_dicts. intros Hi. rewrite forallb_app, Hi. reflexivity. Qed.

Section Generic.
Context `{Env}.
Variables path list_key id_key prefix : string.
Variable defaults : string -> list (string * json) -> list (string * json).

(** The common shape of [upsert_action] and [upsert_ncr]. *)
Definition upsert (rec : list (string * json)) : M (list (string * json)) :=
  store <- (j <- Storage.load_json path
                   (JDict [("version", JInt 1); (list_key, JList [])]) ;;
            ret (ensure_shape list_key j)) ;;
  let items := items_of (get list_key store) in
  rec <- (if negb (truthy (get id_key rec))
          then id <- new_id prefix ;; ret (set id_key (JStr id) rec)
          else ret rec) ;;
  created <- now_iso ;;
  let rec := defaults created rec in
  found <- lift (find_id id_key (get id_key rec) items) ;;
  match found with
  | Some i =>
      stamp <- now_iso ;;
      let merged := set "updated_at" (JStr stamp) (merge (entry_at i items) rec) in
      let items := <[i := JDict merged]> items in
      Storage.save_json path
        (JDict (ensure_shape list_key (JDict (set list_key (JList items) store)))) ;;;
      ret rec
  | None =>
      stamp <- now_iso ;;
      let rec := set "updated_at" (JStr stamp) rec in
      let items := items ++ [JDict rec] in
      Storage.save_json path
        (JDict (ensure_shape list_key (JDict (set list_key (JList items) store)))) ;;;
      ret rec
  end.

(** The clock reading at which the record gets its creation time. *)
Definition t_created (rec : list (string * json)) (w : world) : nat :=
  if truthy (get id_key rec) then ticks w else S (ticks w).

(** The record once it has its identifier and its defaults. *)
Definition prepared (rec : list (string * json)) (w : world)
  : list (string * json) :=
  defaults (strftime_iso (clock w (t_created rec w)))
    (if truthy (get id_key rec) then rec
     else set id_key
            (JStr (prefix +:+ "-" +:+ strftime_compact "-" (clock w (ticks w))))
            rec).

(** The update stamp. *)
Definition stamp (rec : list (string * json)) (w : world) : json :=
  JStr (strftime_iso (clock w (S (t_created rec w)))).

(** The world once [items] has been written back. *)
Definition saved (items : list json) (rec : list (string * json)) (w : world)
  : world :=
  let obj := JDict (ensure_shape list_key
                      (JDict (set list_key (JList items)
                                (ensure_shape list_key (on_disk path list_key w))))) in
  {| files := <[path := FJson obj]>
                (delete (path +:+ ".tmp")
                   (<[path +:+ ".tmp" := FJson obj]> (files w)));
     clock := clock w;
     ticks := S (S (t_created rec w)) |}.

Lemma upsert_run rec w :
  upsert rec w
  = match find_id id_key (get id_key (prepared rec w)) (stored path list_key w) with
    | Ok (Some i) =>
        (Ok (prepared rec w),
         saved (<[i := JDict (set "updated_at" (stamp rec w)
                                (merge (entry_at i (stored path list_key w))
                                   (prepared rec w)))]>
                  (stored path list_key w)) rec w)
    | Ok None =>
        (Ok (set "updated_at" (stamp rec w) (prepared rec w)),
         saved (stored path list_key w
                ++ [JDict (set "updated_at" (stamp rec w) (prepared rec w))]) rec w)
    | Raise e =>
        (Raise e,
         {| files := files w; clock := clock w; ticks := S (t_created rec w) |})
    end.
Proof.
  unfold upsert, prepared, stamp, saved, stored, on_disk, t_created.
  unfold bind at 1. unfold bind at 1. unfold Storage.load_json, ret at 1.
  destruct w as [fs ck tk]. cbn [files clock ticks].
  set (j := match fs !! path with Some (FJson j) => j | _ => _ end).
  assert (Hj : (match fs !! path with
                | Some (FJson j0) => (Ok j0, {| files := fs; clock := ck; ticks := tk |})
                | _ => (Ok (JDict [("version", JInt 1); (list_key, JList [])]),
                        {| files := fs; clock := ck; ticks := tk |})
                end) = (Ok j, {| files := fs; clock := ck; ticks := tk |})).
  { unfold j. destruct (fs !! path) as [[]|]; reflexivity. }
  rewrite Hj. clear Hj.
  destruct (truthy (get id_key rec)); cbn [negb];
    unfold bind, ret, lift, now_iso, new_id, now, bind, ret, Storage.save_json,
      with_files; cbn [files clock ticks];
    match goal with
    | |- context [find_id ?k ?i ?l] => destruct (find_id k i l) as [[i0|]|e]
    end; reflexivity.
Qed.

(** Reading any list of any ledger after the write-back. *)
Lemma stored_saved p k items rec w :
  String.eqb k "version" = false ->
  stored p k (saved items rec w)
  = if decide (p = path)
    then (if String.eqb k list_key then items else stored p k w)
    else if decide (p = path +:+ ".tmp") then [] else stored p k w.
Proof.
  intros Hk. rewrite !(stored_spec _ _ _ Hk). unfold saved. cbn [files].
  destruct (decide (p = path)) as [->|Hp].
  - rewrite lookup_insert_eq.
    set (d := set list_key (JList items) _).
    assert (Hd : lookup k (ensure_shape list_key (JDict d))
                 = if String.eqb k list_key then Some (JList items)
                   else lookup k (ensure_shape list_key (on_disk path list_key w))).
    { destruct (String.eqb k list_key) eqn:E.
      - apply String.eqb_eq in E. subst k.
        assert (G := get_ensure_shape list_key (JDict d) Hk).
        cbn match in G. unfold d in G at 2. rewrite lookup_set_eq in G.
        unfold ensure_shape in *. cbn match in *.
        set (d2 := setdefault list_key (JList []) (setdefault "version" (JInt 1) d)) in *.
        assert (L2 : lookup list_key d2 = Some (JList items)).
        { unfold d2. apply lookup_setdefault_some, lookup_setdefault_some.
          unfold d. apply lookup_set_eq. }
        unfold get. rewrite L2. cbn [is_list]. exact L2.
      - rewrite (lookup_ensure_shape_other _ _ _ Hk E). cbn match.
        unfold d. rewrite lookup_set_ne by exact E.
        reflexivity. }
    rewrite Hd. destruct (String.eqb k list_key) eqn:E; [reflexivity|].
    rewrite (lookup_ensure_shape_other _ _ _ Hk E). unfold on_disk.
    destruct (files w !! path) as [[j|df|b]|] eqn:Ef;
      try (cbn [lookup]; rewrite Hk, E; reflexivity).
    destruct j; reflexivity.
  - rewrite lookup_insert_ne by congruence.
    destruct (decide (p = path +:+ ".tmp")) as [->|Hp'].
    + now rewrite lookup_delete_eq.
    + rewrite lookup_delete_ne by congruence.
      now rewrite lookup_insert_ne by congruence.
Qed.

Lemma all_dicts_saved p k items rec w :
  String.eqb k "version" = false ->
  all_dicts items -> all_dicts (stored p k w) ->
  all_dicts (stored p k (saved items rec w)).
Proof.
  intros Hk Hi Hs. rewrite (stored_saved _ _ _ _ _ Hk).
  destruct (decide (p = path)); [destruct (String.eqb k list_key)|
    destruct (decide (p = path +:+ ".tmp"))]; try assumption. reflexivity.
Qed.

(** On a ledger whose entries are all objects the upsert ends normally; it
    returns the prepared record, with the update stamp when it was
    appended, and leaves every ledger with objects only. *)
Lemma upsert_total rec w :
  all_dicts (stored path list_key w) ->
  exists out w',
    upsert rec w = (Ok out, w')
    /\ (out = prepared rec w \/ out = set "updated_at" (stamp rec w) (prepared rec w))
    /\ clock w' = clock w
    /\ forall p k, String.eqb k "version" = false ->
         all_dicts (stored p k w) -> all_dicts (stored p k w').
Proof.
  intros Hs. rewrite upsert_run.
  destruct (find_id_total id_key (get id_key (prepared rec w)) _ Hs) as [[i|] ->].
  - eexists _, _. split; [reflexivity|]. split; [now left|]. split; [reflexivity|].
    intros p k Hk Hp. apply all_dicts_saved; try assumption.
    now apply all_dicts_insert.
  - eexists _, _. split; [reflexivity|]. split; [now right|]. split; [reflexivity|].
    intros p k Hk Hp. apply all_dicts_saved; try assumption.
    now apply all_dicts_snoc.
Qed.

End Generic.

Section WithEnv.
Context `{Env}.

(** The defaults the two upserts fill in. *)
Definition action_defaults (created : string) (a : list (string * json)) :=
  setdefault "related" (JDict [])
    (setdefault "notes" (JStr "")
       (setdefault "created_at" (JStr created)
          (setdefault "status" (JStr "Open")
             (setdefault "severity" (JStr "Medium")
                (setdefault "type" (JStr "Action") a))))).

Definition ncr_defaults (created : string) (a : list (string * json)) :=
  setdefault "created_at" (JStr created) (setdefault "status" (JStr "Open") a).

Lemma upsert_action_generic action :
  upsert_action action
  = upsert ACTIONS_FILE "actions" "action_id" "A" action_defaults action.
Proof. reflexivity. Qed.

Lemma upsert_ncr_generic ncr :
  upsert_ncr ncr = upsert NCRS_FILE "ncrs" "ncr_id" "NCR" ncr_defaults ncr.
Proof. reflexivity. Qed.

(** The keys [upsert_action] fills in when the record lacks them. *)
Definition action_default (k : string) (created : string) : option json :=
  if String.eqb k "type" then Some (JStr "Action")
  else if String.eqb k "severity" then Some (JStr "Medium")
  else if String.eqb k "status" then Some (JStr "Open")
  else if String.eqb k "created_at" then Some (JStr created)
  else if String.eqb k "notes" then Some (JStr "")
  else if String.eqb k "related" then Some (JDict [])
  else None.

Lemma lookup_setdefault k k' v d :
  lookup k (setdefault k' v d)
  = match lookup k d with
    | Some x => Some x
    | None => if String.eqb k k' then Some v else None
    end.
Proof.
  destruct (String.eqb k k') eqn:E.
  - apply String.eqb_eq in E. subst k'. rewrite lookup_setdefault_eq.
    unfold get_or. now destruct (lookup k d).
  - rewrite lookup_setdefault_ne by exact E. now destruct (lookup k d).
Qed.

Lemma lookup_action_defaults k created a :
  lookup k (action_defaults created a)
  = match lookup k a with
    | Some v => Some v
    | None => action_default k created
    end.
Proof.
  unfold action_defaults, action_default. rewrite !lookup_setdefault.
  destruct (lookup k a); [reflexivity|].
  destruct (String.eqb k "type"); [reflexivity|].
  destruct (String.eqb k "severity"); [reflexivity|].
  destruct (String.eqb k "status"); [reflexivity|].
  destruct (String.eqb k "created_at"); [reflexivity|].
  destruct (String.eqb k "notes"); reflexivity.
Qed.

Lemma get_action_defaults k created a :
  get k (action_defaults created a)
  = match lookup k a with
    | Some v => v
    | None => match action_default k created with
              | Some v => v
              | None => JNull
              end
    end.
Proof.
  unfold get. rewrite lookup_action_defaults. now destruct (lookup k a).
Qed.

(** C5, as the code has it.  On ledgers whose entries are all objects,
    [create_ncr_and_action] ends normally and returns an NCR and an
    action, both with status [Open]; the action carries the severity that
    was passed, the empty one included; the two are
    cross-linked, [action.related.ncr_id] being the (non-empty) id of the
    NCR and [ncr.action_id] the (non-empty) id of the action.  The
    [Medium] severity is the default [upsert_action] gives a record that
    has no severity at all. *)
Theorem create_ncr_and_action_links
  (title description severity owner created_by
   line part_number due_date related_entry_id : string) (w : world)
  (Hncrs : all_dicts (stored NCRS_FILE "ncrs" w))
  (Hactions : all_dicts (stored ACTIONS_FILE "actions" w)) :
  (exists ncr action w',
     create_ncr_and_action title description severity owner created_by
       line part_number due_date related_entry_id w
     = (Ok [("ncr", JDict ncr); ("action", JDict action)], w')
     /\ get "status" ncr = JStr "Open"
     /\ get "status" action = JStr "Open"
     /\ get "severity" action = JStr severity
     /\ truthy (get "ncr_id" ncr) = true
     /\ truthy (get "action_id" action) = true
     /\ get "ncr_id" (match get "related" action with JDict r => r | _ => [] end)
         = get "ncr_id" ncr
     /\ get "action_id" ncr = get "action_id" action)
  /\ (forall record w0,
        has_key "severity" record = false ->
        all_dicts (stored ACTIONS_FILE "actions" w0) ->
        exists out w1,
          upsert_action record w0 = (Ok out, w1)
          /\ get "severity" out = JStr "Medium").
Proof.
  split.
  - unfold create_ncr_and_action.
    match goal with |- context [upsert_ncr ?r] => set (r0 := r) end.
    destruct (upsert_total NCRS_FILE "ncrs" "ncr_id" "NCR" ncr_defaults
                r0 w Hncrs) as (ncr1 & w1 & R1 & O1 & _ & P1).
    rewrite <- upsert_ncr_generic in R1.
    unfold bind at 1. rewrite R1.
    match goal with |- context [upsert_action ?r] => set (a0 := r) end.
    destruct (upsert_total ACTIONS_FILE "actions" "action_id" "A" action_defaults
                a0 w1 (P1 ACTIONS_FILE "actions" eq_refl Hactions))
      as (act & w2 & R2 & O2 & _ & P2).
    rewrite <- upsert_action_generic in R2.
    unfold bind at 1. rewrite R2.
    match goal with |- context [upsert_ncr ?r] => set (r1 := r) end.
    destruct (upsert_total NCRS_FILE "ncrs" "ncr_id" "NCR" ncr_defaults
                r1 w2 (P2 NCRS_FILE "ncrs" eq_refl (P1 NCRS_FILE "ncrs" eq_refl Hncrs)))
      as (ncr2 & w3 & R3 & O3 & _ & _).
    rewrite <- upsert_ncr_generic in R3.
    unfold bind at 1. rewrite R3. unfold ret.
    exists ncr2, act, w3. split; [reflexivity|].
    destruct O1 as [E1|E1], O2 as [E2|E2], O3 as [E3|E3];
      rewrite E3; unfold r1; rewrite E2; unfold a0; rewrite E1; unfold r0;
      repeat split; reflexivity.
  - intros record w0 Hsev Hall.
    destruct (upsert_total ACTIONS_FILE "actions" "action_id" "A" action_defaults
                record w0 Hall) as (out & w1 & R & O & _ & _).
    rewrite <- upsert_action_generic in R.
    exists out, w1. split; [exact R|].
    assert (Hp : get "severity"
                   (prepared "action_id" "A" action_defaults record w0)
                 = JStr "Medium").
    { unfold prepared. rewrite get_action_defaults.
      unfold has_key in Hsev.
      destruct (truthy (get "action_id" record)).
      - destruct (lookup "severity" record); [discriminate|reflexivity].
      - rewrite lookup_set_ne by reflexivity.
        destruct (lookup "severity" record); [discriminate|reflexivity]. }
    destruct O as [->| ->]; [exact Hp|].
    rewrite get_set_ne by reflexivity. exact Hp.
Qed.

Lemma get_set k k' v d :
  get k (set k' v d) = if String.eqb k k' then v else get k d.
Proof.
  destruct (String.eqb k k') eqn:E.
  - apply String.eqb_eq in E. subst k'. apply get_set_eq.
  - now apply get_set_ne.
Qed.

(** C6, as the code has it.  [upsert_action] first completes the record:
    an identifier is generated when it has none, and [type], [severity],
    [status], [created_at], [notes] and [related] get their defaults when it
    lacks them ([new] below).  When a stored entry carries the identifier
    of [new], the first such entry is replaced in place, the list keeping
    its length and its other entries, by the merge of [new] over the old
    entry plus the update stamp: a field of the old entry survives exactly
    when [new] has no such key.  When no stored entry carries it, [new]
    with the update stamp is appended and the list grows by one.  When the
    search meets an entry that is not an object, the call raises and the
    list is as before. *)
Theorem upsert_action_replaces_or_appends
  (action : list (string * json)) (w : world) :
  let before := stored ACTIONS_FILE "actions" w in
  let new := prepared "action_id" "A" action_defaults action w in
  let updated_at := stamp "action_id" action w in
  (forall k,
     get k new
     = if String.eqb k "action_id" && negb (truthy (get "action_id" action))
       then JStr ("A" +:+ "-" +:+ strftime_compact "-" (clock w (ticks w)))
       else match lookup k action with
            | Some v => v
            | None =>
                match action_default k
                        (strftime_iso (clock w (t_created "action_id" action w)))
                with
                | Some v => v
                | None => JNull
                end
            end)
  /\ match find_id "action_id" (get "action_id" new) before with
     | Ok (Some i) =>
         exists old merged w',
           upsert_action action w = (Ok new, w')
           /\ before !! i = Some (JDict old)
           /\ stored ACTIONS_FILE "actions" w' = <[i := JDict merged]> before
           /\ List.length (stored ACTIONS_FILE "actions" w') = List.length before
           /\ forall k,
                get k merged
                = if String.eqb k "updated_at" then updated_at
                  else if has_key k new then get k new else get k old
     | Ok None =>
         exists w',
           upsert_action action w = (Ok (set "updated_at" updated_at new), w')
           /\ stored ACTIONS_FILE "actions" w'
               = before ++ [JDict (set "updated_at" updated_at new)]
           /\ List.length (stored ACTIONS_FILE "actions" w')
               = S (List.length before)
     | Raise e =>
         exists w',
           upsert_action action w = (Raise e, w')
           /\ stored ACTIONS_FILE "actions" w' = before
     end.
Proof.
  intros before new updated_at. split.
  - intros k. unfold new, prepared. rewrite get_action_defaults.
    destruct (truthy (get "action_id" action)) eqn:T; cbn [negb].
    + now rewrite andb_false_r.
    + rewrite andb_true_r. destruct (String.eqb k "action_id") eqn:E.
      * apply String.eqb_eq in E. subst k. now rewrite lookup_set_eq.
      * now rewrite lookup_set_ne.
  - rewrite upsert_action_generic, upsert_run.
    fold before new updated_at.
    destruct (find_id "action_id" (get "action_id" new) before)
      as [[i|]|e] eqn:F.
    + destruct (find_id_some _ _ _ _ F) as (old & Hold & _).
      eexists old, _, _. split; [reflexivity|]. split; [exact Hold|].
      rewrite (stored_saved ACTIONS_FILE "actions" "action_id" ACTIONS_FILE "actions"
                 _ _ _ eq_refl).
      destruct (decide (ACTIONS_FILE = ACTIONS_FILE)) as [_|Hne]; [|congruence].
      cbn [String.eqb Ascii.eqb Bool.eqb].
      split; [reflexivity|]. split; [apply length_insert|].
      intros k. rewrite get_set. destruct (String.eqb k "updated_at"); [reflexivity|].
      rewrite get_merge. unfold entry_at. fold before. now rewrite Hold.
    + eexists. split; [reflexivity|].
      rewrite (stored_saved ACTIONS_FILE "actions" "action_id" ACTIONS_FILE "actions"
                 _ _ _ eq_refl).
      destruct (decide (ACTIONS_FILE = ACTIONS_FILE)) as [_|Hne]; [|congruence].
      cbn [String.eqb Ascii.eqb Bool.eqb].
      split; [reflexivity|]. rewrite length_app. cbn. lia.
    + eexists. split; reflexivity.
Qed.

End WithEnv.

(** A ledger with one closed, high-severity action, and one whose only
    action carries the identifier the clock would generate next. *)
Definition closed_ledger : world :=
  Sample.world_of
    [("data/actions.json",
      FJson (JDict [("version", JInt 1);
                    ("actions",
                     JList [JDict [("action_id", JStr "A-1");
                                   ("title", JStr "Bad weld");
                                   ("severity", JStr "High");
                                   ("status", JStr "Closed")]])]))]
    Sample.frozen.

Definition same_second_ledger : world :=
  Sample.world_of
    [("data/actions.json",
      FJson (JDict [("version", JInt 1);
                    ("actions",
                     JList [JDict [("action_id", JStr "A-20260104-120000");
                                   ("title", JStr "First")]])]))]
    Sample.frozen.

(** C6 fails as stated.  Re-submitting action [A-1] with a new title only
    does not leave the omitted [status] and [severity] untouched: the stored
    entry goes from [Closed] / [High] to [Open] / [Medium].  And a record
    submitted without an identifier is not always appended: when the
    generated identifier is already stored, it overwrites that entry and the
    list keeps its length. *)
Lemma upsert_action_resets_omitted_fields :
  (let after :=
     stored "data/actions.json" "actions"
       (snd (@upsert_action Sample.env
               [("action_id", JStr "A-1"); ("title", JStr "Weld seam")]
               closed_ledger)) in
   map (fun a => get "status" (MasterDataProps.fields a))
     (stored "data/actions.json" "actions" closed_ledger) = [JStr "Closed"]
   /\ map (fun a => get "status" (MasterDataProps.fields a)) after = [JStr "Open"]
   /\ map (fun a => get "severity" (MasterDataProps.fields a)) after
       = [JStr "Medium"])
  /\ (let after :=
        stored "data/actions.json" "actions"
          (snd (@upsert_action Sample.env [("title", JStr "Second")]
                  same_second_ledger)) in
      List.length (stored "data/actions.json" "actions" same_second_ledger) = 1
      /\ List.length after = 1
      /\ map (fun a => get "title" (MasterDataProps.fields a)) after
          = [JStr "Second"]).
Proof. vm_compute. repeat split. Qed.

(** C5 fails as stated: a severity left empty is not replaced by [Medium].
    [create_ncr_and_action] always submits a [severity] key, so the default
    of [upsert_action] never applies, and the action returned for the empty
    severity carries the empty severity. *)
Lemma create_ncr_and_action_keeps_empty_severity :
  match fst (@create_ncr_and_action Sample.env
               "Bad weld" "Porosity on seam 3" "" "alice" "bob"
               "U725" "PN1" "" "" (Sample.world_of [] Sample.ticking)) with
  | Ok out =>
      get "severity" (MasterDataProps.fields (get "action" out)) = JStr ""
      /\ get "status" (MasterDataProps.fields (get "action" out)) = JStr "Open"
  | Raise _ => False
  end.
Proof. vm_compute. split; reflexivity. Qed.

(** The linked pair on an empty disk. *)
Lemma create_ncr_and_action_links_witness :
  exists ncr action w',
    @create_ncr_and_action Sample.env
      "Bad weld" "Porosity on seam 3" "High" "alice" "bob"
      "U725" "PN1" "" "" (Sample.world_of [] Sample.ticking)
    = (Ok [("ncr", JDict ncr); ("action", JDict action)], w')
    /\ get "action_id" ncr = get "action_id" action.
Proof.
  destruct (@create_ncr_and_action_links Sample.env
              "Bad weld" "Porosity on seam 3" "High" "alice" "bob"
              "U725" "PN1" "" "" (Sample.world_of [] Sample.ticking)
              eq_refl eq_refl)
    as [(ncr & action & w' & Hrun & _ & _ & _ & _ & _ & _ & Hlink) _].
  exists ncr, action, w'. split; assumption.
Defined.

End ActionProps.

(** ** Tables and the column schema *)

Module FrameFacts.

Lemma mem_In c names : mem c names = true <-> In c names.
Proof.
  unfold mem. rewrite existsb_exists. split.
  - intros (x & Hx & E). apply String.eqb_eq in E. now subst.
  - intros Hc. exists c. split; [exact Hc|apply String.eqb_refl].
Qed.

Lemma mem_false c names : mem c names = false <-> ~ In c names.
Proof.
  rewrite <- mem_In. destruct (mem c names); split; congruence.
Qed.

Lemma column_app c l1 l2 :
  column c (l1 ++ l2) = match column c l1 with
                        | Some v => Some v
                        | None => column c l2
                        end.
Proof.
  induction l1 as [|[c' v'] r IH]; cbn; [reflexivity|].
  destruct (String.eqb c c'); [reflexivity|exact IH].
Qed.

Lemma column_none c l : column c l = None <-> mem c (map fst l) = false.
Proof.
  induction l as [|[c' v'] r IH]; cbn; [tauto|].
  destruct (String.eqb c c'); cbn; [split; discriminate|exact IH].
Qed.

Lemma column_some_mem c l v : column c l = Some v -> mem c (map fst l) = true.
Proof.
  intros Hc. destruct (mem c (map fst l)) eqn:E; [reflexivity|].
  apply column_none in E. congruence.
Qed.

Lemma column_filter c n l :
  column c (List.filter (fun p : string * list cell => String.eqb (fst p) n) l)
  = if String.eqb c n then column c l else None.
Proof.
  induction l as [|[c' v'] r IH]; cbn.
  - now destruct (String.eqb c n).
  - destruct (String.eqb c' n) eqn:E'; cbn.
    + apply String.eqb_eq in E'. subst c'.
      destruct (String.eqb c n); [reflexivity|exact IH].
    + rewrite IH. destruct (String.eqb c n) eqn:E; [|reflexivity].
      apply String.eqb_eq in E. subst c.
      rewrite String.eqb_sym, E'. reflexivity.
Qed.

Lemma column_flat_map c names l :
  column c (flat_map
              (fun n => List.filter
                          (fun p : string * list cell => String.eqb (fst p) n) l)
              names)
  = if mem c names then column c l else None.
Proof.
  induction names as [|n r IH]; cbn; [reflexivity|].
  rewrite column_app, column_filter, IH.
  destruct (String.eqb c n); cbn; [|reflexivity].
  destruct (column c l); [reflexivity|]. now destruct (mem c r).
Qed.

(** With labels all different, picking the columns by their labels in order
    gives the columns back. *)
Lemma filter_unique n v (l : list (string * list cell)) :
  List.NoDup (map fst l) -> In (n, v) l ->
  List.filter (fun p => String.eqb (fst p) n) l = [(n, v)].
Proof.
  induction l as [|[c' v'] r IH]; cbn; [tauto|].
  intros Hnd Hin. apply List.NoDup_cons_iff in Hnd as [Hc' Hr].
  destruct Hin as [[= -> ->]|Hin].
  - rewrite String.eqb_refl. f_equal.
    clear IH Hr. induction r as [|[c0 v0] r' IH']; cbn; [reflexivity|].
    destruct (String.eqb c0 n) eqn:E.
    + apply String.eqb_eq in E. subst c0. exfalso. apply Hc'. now left.
    + apply IH'. intros Hn. apply Hc'. now right.
  - destruct (String.eqb c' n) eqn:E.
    + apply String.eqb_eq in E. subst c'. exfalso. apply Hc'.
      apply (in_map fst) in Hin. exact Hin.
    + now apply IH.
Qed.

Lemma flat_map_pick (L l : list (string * list cell)) :
  List.NoDup (map fst L) -> (forall p, In p l -> In p L) ->
  flat_map (fun n => List.filter (fun p => String.eqb (fst p) n) L) (map fst l) = l.
Proof.
  intros Hnd. induction l as [|[n v] r IH]; cbn; [reflexivity|].
  intros Hin. rewrite (filter_unique n v L Hnd) by (apply Hin; now left).
  cbn. f_equal. apply IH. intros p Hp. apply Hin. now right.
Qed.

Lemma columns_flat_map names (l : list (string * list cell)) :
  List.NoDup (map fst l) -> (forall n, In n names -> In n (map fst l)) ->
  map fst (flat_map (fun n => List.filter (fun p => String.eqb (fst p) n) l) names)
  = names.
Proof.
  intros Hnd. induction names as [|n r IH]; cbn; [reflexivity|].
  intros Hin. rewrite map_app.
  assert (Hn : In n (map fst l)) by (apply Hin; now left).
  apply in_map_iff in Hn as ([n' v] & E & Hp). cbn in E. subst n'.
  rewrite (filter_unique n v l Hnd Hp). cbn. f_equal.
  apply IH. intros m Hm. apply Hin. now right.
Qed.

(** A check that labels are all different. *)
Fixpoint distinct (names : list string) : bool :=
  match names with
  | [] => true
  | n :: r => negb (mem n r) && distinct r
  end.

Lemma distinct_NoDup names : distinct names = true -> List.NoDup names.
Proof.
  induction names as [|n r IH]; cbn; [constructor|].
  intros Hd. apply andb_prop in Hd as [Hn Hr].
  constructor; [|now apply IH].
  apply mem_false. now destruct (mem n r).
Qed.

Lemma column_empty_frame c names :
  column c (cols (empty_frame names)) = if mem c names then Some [] else None.
Proof.
  unfold empty_frame. cbn [cols].
  induction names as [|x r IH]; cbn; [reflexivity|].
  destruct (String.eqb c x); [reflexivity|exact IH].
Qed.

Section WithEnv.
Context `{Env}.

(** One step of [for col in COLUMNS: if col not in df.columns: df[col] = ""]. *)
Definition add_missing (df : DataFrame) (col : string) : DataFrame :=
  if negb (mem col (columns df)) then assign_scalar col (CStr "") df else df.

(** The labels that are not in the schema. *)
Definition extras (names : list string) : list string :=
  List.filter (fun c => negb (mem c COLUMNS)) names.

(** The frame [ensure_df_schema] returns. *)
Definition conform (df : DataFrame) : DataFrame :=
  let df1 := fold_left add_missing COLUMNS df in
  {| nrows := nrows df1;
     cols := flat_map (fun n => List.filter (fun p => String.eqb (fst p) n)
                                  (cols df1))
               (COLUMNS ++ extras (columns df1)) |}.

Lemma add_missing_nrows df c : nrows (add_missing df c) = nrows df.
Proof.
  unfold add_missing, assign_scalar.
  destruct (mem c (columns df)); reflexivity.
Qed.

Lemma add_missing_cols df c :
  cols (add_missing df c)
  = if mem c (columns df) then cols df
    else cols df ++ [(c, repeat (CStr "") (nrows df))].
Proof.
  unfold add_missing. destruct (mem c (columns df)) eqn:E; cbn [negb]; [reflexivity|].
  unfold assign_scalar. now rewrite E.
Qed.

Lemma fold_add_nrows names : forall df,
  nrows (fold_left add_missing names df) = nrows df.
Proof.
  induction names as [|c r IH]; intros df; cbn; [reflexivity|].
  now rewrite IH, add_missing_nrows.
Qed.

Lemma mem_app c l1 l2 : mem c (l1 ++ l2) = mem c l1 || mem c l2.
Proof. unfold mem. apply existsb_app. Qed.

Lemma mem_add_missing x df c :
  mem x (columns (add_missing df c)) = mem x (columns df) || String.eqb x c.
Proof.
  unfold columns. rewrite add_missing_cols. fold (columns df).
  destruct (mem c (columns df)) eqn:E.
  - destruct (String.eqb x c) eqn:Ex; [|now rewrite orb_false_r].
    apply String.eqb_eq in Ex. subst x. fold (columns df). now rewrite E.
  - rewrite map_app, mem_app. cbn. now rewrite orb_false_r.
Qed.

Lemma mem_fold_add x names : forall df,
  mem x (columns (fold_left add_missing names df))
  = mem x (columns df) || mem x names.
Proof.
  induction names as [|c r IH]; intros df; cbn; [now rewrite orb_false_r|].
  rewrite IH, mem_add_missing. now rewrite orb_assoc.
Qed.

Lemma column_add_missing x df c :
  column x (cols (add_missing df c))
  = match column x (cols df) with
    | Some v => Some v
    | None => if String.eqb x c then Some (repeat (CStr "") (nrows df)) else None
    end.
Proof.
  rewrite add_missing_cols. destruct (mem c (columns df)) eqn:E.
  - destruct (column x (cols df)) eqn:Ex; [reflexivity|].
    destruct (String.eqb x c) eqn:Exc; [|reflexivity].
    apply String.eqb_eq in Exc. subst x.
    apply column_none in Ex. unfold columns in E. congruence.
  - rewrite column_app. cbn. now destruct (column x (cols df)).
Qed.

Lemma column_fold_add x names : forall df,
  column x (cols (fold_left add_missing names df))
  = match column x (cols df) with
    | Some v => Some v
    | None => if mem x names then Some (repeat (CStr "") (nrows df)) else None
    end.
Proof.
  induction names as [|c r IH]; intros df; cbn.
  - now destruct (column x (cols df)).
  - rewrite IH, column_add_missing, add_missing_nrows.
    destruct (column x (cols df)); [reflexivity|].
    destruct (String.eqb x c); cbn; reflexivity.
Qed.

(** [ensure_df_schema] never raises. *)
Lemma ensure_df_schema_total df : Storage.ensure_df_schema df = Ok (conform df).
Proof.
  unfold Storage.ensure_df_schema, conform, getitem_list.
  change (fold_left _ COLUMNS df) with (fold_left add_missing COLUMNS df).
  set (df1 := fold_left add_missing COLUMNS df).
  change (List.filter _ (columns df1)) with (extras (columns df1)).
  assert (Hall : forallb (fun n => mem n (columns df1))
                   (COLUMNS ++ extras (columns df1)) = true).
  { apply forallb_forall. intros n Hn. apply in_app_or in Hn as [Hn|Hn].
    - unfold df1. rewrite mem_fold_add. apply mem_In in Hn. rewrite Hn.
      apply orb_true_r.
    - apply filter_In in Hn as [Hn _]. now apply mem_In. }
  now rewrite Hall.
Qed.

Lemma conform_nrows df : nrows (conform df) = nrows df.
Proof. unfold conform. cbn. apply fold_add_nrows. Qed.

(** Column by column: what was there stays, a missing schema column is
    blank, and nothing else appears. *)
Lemma conform_column c df :
  column c (cols (conform df))
  = match column c (cols df) with
    | Some v => Some v
    | None => if mem c COLUMNS
              then Some (repeat (CStr "") (nrows df)) else None
    end.
Proof.
  unfold conform. cbn [cols]. rewrite column_flat_map, column_fold_add.
  rewrite mem_app.
  destruct (column c (cols df)) as [v|] eqn:E.
  - destruct (mem c COLUMNS) eqn:Ec; [reflexivity|]. cbn.
    assert (Hx : mem c (extras (columns (fold_left add_missing COLUMNS df))) = true).
    { apply mem_In, filter_In. split.
      - apply mem_In. rewrite mem_fold_add.
        apply column_some_mem in E. unfold columns. now rewrite E.
      - now rewrite Ec. }
    now rewrite Hx.
  - destruct (mem c COLUMNS); cbn; [reflexivity|].
    now destruct (mem c (extras _)).
Qed.

Lemma columns_add_missing df c :
  columns (add_missing df c)
  = if mem c (columns df) then columns df else columns df ++ [c].
Proof.
  unfold columns. rewrite add_missing_cols. fold (columns df).
  destruct (mem c (columns df)); [reflexivity|]. now rewrite map_app.
Qed.

Lemma fold_add_shape names : forall df,
  exists added,
    columns (fold_left add_missing names df) = columns df ++ added
    /\ (forall x, In x added -> In x names)
    /\ (List.NoDup (columns df) -> List.NoDup (columns df ++ added)).
Proof.
  induction names as [|c r IH]; intros df; cbn.
  - exists []. rewrite app_nil_r. repeat split; tauto.
  - destruct (IH (add_missing df c)) as (added & Hc & Hin & Hnd).
    rewrite columns_add_missing in Hc, Hnd.
    destruct (mem c (columns df)) eqn:E.
    + exists added. repeat split; [exact Hc| |exact Hnd].
      intros x Hx. right. now apply Hin.
    + exists (c :: added). rewrite <- app_assoc in Hc, Hnd. cbn in Hc, Hnd.
      repeat split; [exact Hc| |].
      * intros x [<-|Hx]; [now left|right; now apply Hin].
      * intros Hd. apply Hnd. apply List.NoDup_app.
        -- exact Hd.
        -- constructor; [intros []|constructor].
        -- intros x Hx [<-|[]]. apply mem_false in E. contradiction.
Qed.

Lemma extras_app l1 l2 : extras (l1 ++ l2) = extras l1 ++ extras l2.
Proof. unfold extras. apply List.filter_app. Qed.

Lemma extras_of_schema l : (forall x, In x l -> In x COLUMNS) -> extras l = [].
Proof.
  unfold extras. induction l as [|x r IH]; cbn; [reflexivity|].
  intros Hin. assert (Hx : mem x COLUMNS = true) by (apply mem_In, Hin; now left).
  rewrite Hx. cbn. apply IH. intros y Hy. apply Hin. now right.
Qed.

(** The labels after conformance: the schema in its order, then the labels
    of the input that are not in it. *)
Lemma conform_columns df :
  List.NoDup (columns df) -> columns (conform df) = COLUMNS ++ extras (columns df).
Proof.
  intros Hnd. unfold conform, columns at 1. cbn [cols].
  destruct (fold_add_shape COLUMNS df) as (added & Hc & Hin & Hnd').
  set (df1 := fold_left add_missing COLUMNS df) in *.
  assert (Hx : extras (columns df1) = extras (columns df)).
  { rewrite Hc, extras_app, (extras_of_schema added Hin). apply app_nil_r. }
  rewrite columns_flat_map.
  - now rewrite Hx.
  - fold (columns df1). rewrite Hc. now apply Hnd'.
  - fold (columns df1). intros n Hn. apply in_app_or in Hn as [Hn|Hn].
    + apply mem_In. unfold df1. rewrite mem_fold_add.
      apply mem_In in Hn. rewrite Hn. apply orb_true_r.
    + apply filter_In in Hn. tauto.
Qed.

Lemma extras_nodup l : List.NoDup l -> List.NoDup (extras l).
Proof. unfold extras. apply List.NoDup_filter. Qed.

Lemma conform_nodup df :
  List.NoDup COLUMNS -> List.NoDup (columns df) -> List.NoDup (columns (conform df)).
Proof.
  intros HC Hnd. rewrite (conform_columns df Hnd). apply List.NoDup_app;
    [exact HC|now apply extras_nodup|].
  intros x Hx Hx'. apply filter_In in Hx' as [_ Hx'].
  apply mem_In in Hx. rewrite Hx in Hx'. discriminate.
Qed.

Lemma fold_add_present names : forall df,
  (forall c, In c names -> In c (columns df)) ->
  fold_left add_missing names df = df.
Proof.
  induction names as [|c r IH]; intros df Hin; cbn; [reflexivity|].
  assert (Hc : mem c (columns df) = true) by (apply mem_In, Hin; now left).
  unfold add_missing at 2. rewrite Hc. cbn. apply IH.
  intros x Hx. apply Hin. now right.
Qed.

(** A frame already in shape is left as it is. *)
Lemma conform_fixed df :
  List.NoDup (columns df) -> columns df = COLUMNS ++ extras (columns df) ->
  conform df = df.
Proof.
  intros Hnd Hshape. unfold conform.
  rewrite fold_add_present.
  - rewrite <- Hshape. unfold columns. rewrite (flat_map_pick (cols df) (cols df));
      [now destruct df|exact Hnd|tauto].
  - intros c Hc. rewrite Hshape. apply in_or_app. now left.
Qed.

Lemma conform_idem df :
  List.NoDup COLUMNS -> List.NoDup (columns df) -> conform (conform df) = conform df.
Proof.
  intros HC Hnd. apply conform_fixed; [now apply conform_nodup|].
  rewrite (conform_columns df Hnd) at 1. f_equal.
  rewrite (conform_columns df Hnd), extras_app.
  rewrite (extras_of_schema COLUMNS) by tauto. cbn.
  unfold extras. symmetry. apply List.forallb_filter_id.
  apply forallb_forall. intros x Hx. apply filter_In in Hx. tauto.
Qed.

End WithEnv.
End FrameFacts.

(** ** The month workbooks *)

Module StorageProps.
Import Storage FrameFacts.

Lemma length_append a b :
  String.length (a +:+ b) = String.length a + String.length b.
Proof.
  induction a as [|c r IH]; [reflexivity|].
  change (S (String.length (r +:+ b)) = S (String.length r + String.length b)).
  now rewrite IH.
Qed.

Lemma append_cons c r b : String c r +:+ b = String c (r +:+ b).
Proof. reflexivity. Qed.

Lemma append_nil_r s : s +:+ EmptyString = s.
Proof.
  induction s as [|c r IH]; [reflexivity|]. rewrite append_cons. now rewrite IH.
Qed.

Lemma take_drop n s : OsPath.take n s +:+ OsPath.drop n s = s.
Proof.
  revert s. induction n as [|n IH]; intros [|c r]; try reflexivity.
  cbn [OsPath.take OsPath.drop]. rewrite append_cons. now rewrite IH.
Qed.

Lemma splitext_join p :
  fst (OsPath.splitext p) +:+ snd (OsPath.splitext p) = p.
Proof.
  unfold OsPath.splitext.
  destruct (OsPath.rfind "." p) as [d|]; cbn.
  - match goal with |- context [if ?c then _ else _] => destruct c end; cbn.
    + apply take_drop.
    + apply append_nil_r.
  - apply append_nil_r.
Qed.

Section WithEnv.
Context `{Env}.

(** The rescue workbook never has the name of the workbook it stands in
    for. *)
Lemma rescue_path_fresh path t : rescue_path path t <> path.
Proof.
  unfold rescue_path. pose proof (splitext_join path) as Hj.
  destruct (OsPath.splitext path) as [base ext]. cbn in Hj.
  intros Heq. apply (f_equal String.length) in Heq.
  rewrite <- Hj in Heq. rewrite !length_append in Heq. cbn in Heq. lia.
Qed.

(** The path [resolve_month_path] settles on, and the world it leaves. *)
Definition named (filename : option string) : bool :=
  match filename with
  | Some f => nonempty f
  | None => false
  end.

Definition resolved (filename : option string) (w : world) : string :=
  match filename with
  | Some f => if nonempty f then OsPath.join DATA_DIR f
              else month_excel_path (clock w (ticks w))
  | None => month_excel_path (clock w (ticks w))
  end.

Definition after_resolve (filename : option string) (w : world) : world :=
  if named filename then w
  else {| files := files w; clock := clock w; ticks := S (ticks w) |}.

Lemma resolve_run filename w :
  resolve_month_path filename w
  = (Ok (resolved filename w), after_resolve filename w).
Proof.
  unfold resolve_month_path, resolved, after_resolve, named.
  destruct filename as [f|]; [destruct (nonempty f)|]; reflexivity.
Qed.

Lemma files_after_resolve filename w : files (after_resolve filename w) = files w.
Proof. unfold after_resolve. now destruct (named filename). Qed.

Lemma clock_after_resolve filename w : clock (after_resolve filename w) = clock w.
Proof. unfold after_resolve. now destruct (named filename). Qed.

Definition is_book (f : file) : bool :=
  match f with FBook _ => true | _ => false end.

Lemma ensure_excel_file_absent path w :
  files w !! path = None ->
  ensure_excel_file path w
  = (Ok tt, with_files (<[path := FBook (empty_frame COLUMNS)]> (files w)) w).
Proof.
  intros Hf. unfold ensure_excel_file, bind, path_exists.
  rewrite Hf. rewrite bool_decide_eq_false_2 by (intros [x Hx]; discriminate).
  reflexivity.
Qed.

Lemma ensure_excel_file_book path w df0 :
  files w !! path = Some (FBook df0) ->
  ensure_excel_file path w
  = (Ok tt, with_files (<[path := FBook (conform df0)]> (files w)) w).
Proof.
  intros Hf. unfold ensure_excel_file, bind at 1, path_exists.
  rewrite Hf. rewrite bool_decide_eq_true_2 by eauto. cbn [negb].
  unfold try_except, bind, read_excel, lift. rewrite Hf.
  rewrite ensure_df_schema_total. reflexivity.
Qed.

Lemma ensure_excel_file_unreadable path w f :
  files w !! path = Some f -> is_book f = false ->
  ensure_excel_file path w
  = (Ok tt,
     {| files := <[rescue_path path (clock w (ticks w))
                   := FBook (empty_frame COLUMNS)]> (files w);
        clock := clock w; ticks := S (ticks w) |}).
Proof.
  intros Hf Hb. unfold ensure_excel_file, bind at 1, path_exists.
  rewrite Hf. rewrite bool_decide_eq_true_2 by eauto. cbn [negb].
  unfold try_except, bind, read_excel, lift. rewrite Hf.
  destruct f; try discriminate; reflexivity.
Qed.

(** The three courses [get_df] can take. *)
Lemma get_df_absent filename w :
  files w !! resolved filename w = None ->
  get_df filename w
  = (Ok (conform (empty_frame COLUMNS), OsPath.basename (resolved filename w)),
     with_files (<[resolved filename w := FBook (empty_frame COLUMNS)]> (files w))
       (after_resolve filename w)).
Proof.
  intros Hf. unfold get_df, bind at 1. rewrite resolve_run.
  unfold bind at 1. rewrite ensure_excel_file_absent
    by now rewrite files_after_resolve.
  unfold bind, read_excel, lift, ret. cbn [files with_files].
  rewrite lookup_insert_eq, ensure_df_schema_total, files_after_resolve.
  reflexivity.
Qed.

Lemma get_df_book filename w df0 :
  files w !! resolved filename w = Some (FBook df0) ->
  get_df filename w
  = (Ok (conform (conform df0), OsPath.basename (resolved filename w)),
     with_files (<[resolved filename w := FBook (conform df0)]> (files w))
       (after_resolve filename w)).
Proof.
  intros Hf. unfold get_df, bind at 1. rewrite resolve_run.
  unfold bind at 1. rewrite (ensure_excel_file_book _ _ df0)
    by now rewrite files_after_resolve.
  unfold bind, read_excel, lift, ret. cbn [files with_files].
  rewrite lookup_insert_eq, ensure_df_schema_total, files_after_resolve.
  reflexivity.
Qed.

Lemma get_df_unreadable filename w f :
  files w !! resolved filename w = Some f -> is_book f = false ->
  let w0 := after_resolve filename w in
  get_df filename w
  = (Raise BadWorkbook,
     {| files := <[rescue_path (resolved filename w) (clock w (ticks w0))
                   := FBook (empty_frame COLUMNS)]> (files w);
        clock := clock w; ticks := S (ticks w0) |}).
Proof.
  intros Hf Hb w0. unfold get_df, bind at 1. rewrite resolve_run.
  unfold bind at 1. rewrite (ensure_excel_file_unreadable _ _ f)
    by (rewrite ?files_after_resolve; assumption).
  unfold bind, read_excel. cbn [files].
  rewrite files_after_resolve, clock_after_resolve.
  rewrite lookup_insert_ne by apply rescue_path_fresh.
  rewrite Hf. destruct f; try discriminate; reflexivity.
Qed.

Lemma save_df_run df filename w :
  save_df df filename w
  = (Ok tt,
     with_files (<[resolved (Some filename) w := FBook (conform df)]> (files w))
       (after_resolve (Some filename) w)).
Proof.
  unfold save_df, bind at 1. rewrite resolve_run.
  unfold bind, lift, to_excel. rewrite ensure_df_schema_total.
  now rewrite files_after_resolve.
Qed.

(** C1, as the code behaves.  When the month file exists but is not a
    readable workbook, [get_df] creates the rescue workbook (empty, with the
    full schema, under a name different from the original's), leaves the
    original and every other file as they were, and then raises: the second
    [read_excel] is given the original path again, so the caller receives no
    table. *)
Theorem get_df_unreadable_raises (filename : option string) (w : world) (f : file)
  (Hfile : files w !! resolved filename w = Some f)
  (Hbad : is_book f = false) :
  let path := resolved filename w in
  let rescue := rescue_path path (clock w (ticks (after_resolve filename w))) in
  exists w',
    get_df filename w = (Raise BadWorkbook, w')
    /\ rescue <> path
    /\ files w' = <[rescue := FBook (empty_frame COLUMNS)]> (files w)
    /\ files w' !! rescue = Some (FBook (empty_frame COLUMNS))
    /\ files w' !! path = Some f.
Proof.
  intros path rescue. rewrite (get_df_unreadable _ _ f Hfile Hbad).
  eexists. split; [reflexivity|].
  cbn [files]. fold path rescue.
  split; [apply rescue_path_fresh|]. split; [reflexivity|].
  split; [apply lookup_insert_eq|].
  rewrite lookup_insert_ne by apply rescue_path_fresh. exact Hfile.
Qed.


End WithEnv.

(** A January workbook that is not one, and one with a stray column and no
    approval columns. *)
Definition january : string := "tool_life_data_2026_01.xlsx".

Definition unreadable_disk : world :=
  Sample.world_of [("data/tool_life_data_2026_01.xlsx", FRaw "PK??")]
    Sample.frozen.

Definition legacy_table : DataFrame :=
  {| nrows := 2;
     cols := [("Operator note", [CStr "burr"; CStr ""]);
              ("ID", [CStr "20260104-070000-0000"; CStr "20260104-081500-0001"]);
              ("Line", [CStr "U725"; CStr "JL"])] |}.

Definition legacy_disk : world :=
  Sample.world_of [("data/tool_life_data_2026_01.xlsx", FBook legacy_table)]
    Sample.frozen.

Lemma get_df_unreadable_raises_witness :
  exists w',
    @get_df Sample.env (Some january) unreadable_disk = (Raise BadWorkbook, w')
    /\ files w' !! "data/tool_life_data_2026_01_RESCUE_20260104_120000.xlsx"
        = Some (FBook (empty_frame Sample.columns))
    /\ files w' !! "data/tool_life_data_2026_01.xlsx" = Some (FRaw "PK??").
Proof.
  destruct (@get_df_unreadable_raises Sample.env (Some january) unreadable_disk
              (FRaw "PK??") eq_refl eq_refl)
    as (w' & Hrun & _ & _ & Hrescue & Hsame).
  exists w'. split; [exact Hrun|]. split; [exact Hrescue|exact Hsame].
Defined.


End StorageProps.

(** ** Time stamps *)

Module ClockFacts.

Lemma undigit_digit n : undigit (digit n) = Some (n mod 10).
Proof.
  unfold undigit, digit.
  assert (Hlt : n mod 10 < 10) by (apply Nat.mod_upper_bound; lia).
  rewrite nat_ascii_embedding by lia.
  destruct (Nat.leb_spec 48 (48 + n mod 10)); [|lia].
  destruct (Nat.leb_spec (48 + n mod 10) 57); [|lia].
  cbn [andb]. f_equal. lia.
Qed.

Lemma read_pad2 n s :
  n < 100 -> read_digits 2 (pad2 n +:+ s) = Some (n, s).
Proof.
  intros Hn.
  change (pad2 n +:+ s) with (String (digit (n / 10)) (String (digit n) s)).
  cbn [read_digits]. rewrite !undigit_digit.
  assert (Hd : (n / 10) mod 10 = n / 10).
  { apply Nat.mod_small. apply Nat.Div0.div_lt_upper_bound. lia. }
  rewrite Hd. f_equal. f_equal.
  pose proof (Nat.div_mod_eq n 10). cbn [Nat.pow]. lia.
Qed.

Lemma read_pad4 n s :
  n < 100 * 100 -> read_digits 4 (pad4 n +:+ s) = Some (n, s).
Proof.
  intros Hn.
  change (pad4 n +:+ s)
    with (String (digit (n / 1000)) (String (digit (n / 100))
            (String (digit (n / 10)) (String (digit n) s)))).
  cbn [read_digits]. rewrite !undigit_digit.
  f_equal. f_equal.
  pose proof (Nat.div_mod_eq n 10) as H1.
  pose proof (Nat.div_mod_eq (n / 10) 10) as H2.
  pose proof (Nat.div_mod_eq (n / 100) 10) as H3.
  pose proof (Nat.div_mod_eq (n / 1000) 10) as H4.
  assert (E2 : n / 10 / 10 = n / 100) by (rewrite Nat.Div0.div_div; reflexivity).
  assert (E3 : n / 100 / 10 = n / 1000) by (rewrite Nat.Div0.div_div; reflexivity).
  assert (E4 : n / 1000 / 10 = 0).
  { rewrite Nat.Div0.div_div. apply Nat.div_small.
    change (1000 * 10) with (100 * 100). exact Hn. }
  rewrite E2 in H2. rewrite E3 in H3. rewrite E4 in H4.
  change (10 ^ 3) with 1000. change (10 ^ 2) with 100.
  change (10 ^ 1) with 10. change (10 ^ 0) with 1.
  lia.
Qed.

Lemma days_in_month_bound y m : days_in_month y m <= 31.
Proof.
  unfold days_in_month.
  do 12 (destruct m as [|m]; [try destruct (is_leap y); lia|]). lia.
Qed.

(** What [strftime] prints with the layout ["%Y-%m-%d %H:%M:%S"] parses
    back to the reading it was printed from. *)
Lemma strptime_strftime t :
  valid_datetime t = true -> strptime_iso (strftime_iso t) = Some t.
Proof.
  intros Hv. pose proof Hv as Hv'. unfold valid_datetime in Hv'.
  repeat (apply andb_prop in Hv' as [Hv' ?]).
  repeat match goal with
  | X : (_ <=? _)%nat = true |- _ => apply Nat.leb_le in X
  | X : (_ <? _)%nat = true |- _ => apply Nat.ltb_lt in X
  end.
  pose proof (days_in_month_bound (year t) (month t)).
  change (strftime_iso t)
    with (pad4 (year t) +:+ String "-" (pad2 (month t) +:+ String "-"
           (pad2 (day t) +:+ String " " (pad2 (hour t) +:+ String ":"
             (pad2 (minute t) +:+ String ":" (pad2 (second t) +:+ EmptyString)))))).
  unfold strptime_iso.
  rewrite read_pad4 by lia. cbn [expect Ascii.eqb Bool.eqb].
  rewrite read_pad2 by lia. cbn [expect Ascii.eqb Bool.eqb].
  rewrite read_pad2 by lia. cbn [expect Ascii.eqb Bool.eqb].
  rewrite read_pad2 by lia. cbn [expect Ascii.eqb Bool.eqb].
  rewrite read_pad2 by lia. cbn [expect Ascii.eqb Bool.eqb].
  rewrite read_pad2 by lia.
  destruct t as [y mo d h mi se]. cbn [year month day hour minute second] in *.
  now rewrite Hv.
Qed.

End ClockFacts.

(** ** Record creation and the approval transitions *)

Module WorkflowProps.
Import Workflow Storage FrameFacts StorageProps.


(** Every column has the height of the frame. *)
Definition rect (df : DataFrame) : Prop :=
  forall c v, column c (cols df) = Some v -> List.length v = nrows df.

Lemma column_In c l v : column c l = Some v -> In (c, v) l.
Proof.
  induction l as [|[c' v'] r IH]; cbn; [discriminate|].
  destruct (String.eqb c c') eqn:E.
  - apply String.eqb_eq in E. subst c'. intros [= ->]. now left.
  - intros Hc. right. now apply IH.
Qed.

Lemma well_formed_rect df : well_formed df -> rect df.
Proof.
  intros [_ Hall] c v Hc. apply column_In in Hc.
  rewrite Forall_forall in Hall. apply (Hall (c, v)).
  now apply list_elem_of_In.
Qed.

Lemma column_map_named c c' (g : list cell -> list cell) l :
  column c (map (fun p : string * list cell =>
                   if String.eqb (fst p) c' then (fst p, g (snd p)) else p) l)
  = if String.eqb c c' then option_map g (column c l) else column c l.
Proof.
  induction l as [|[c0 v0] r IH]; cbn.
  - now destruct (String.eqb c c').
  - destruct (String.eqb c0 c') eqn:E0; cbn.
    + apply String.eqb_eq in E0. subst c0.
      destruct (String.eqb c c') eqn:E; [reflexivity|]. rewrite IH. reflexivity.
    + destruct (String.eqb c c0) eqn:E1.
      * apply String.eqb_eq in E1. subst c0. now rewrite E0.
      * exact IH.
Qed.

(** Reading a column after [df.loc[idx, c'] = v]. *)
Lemma column_loc_set c idx c' v df :
  column c (cols (loc_set idx c' v df))
  = if String.eqb c c'
    then Some (put_rows idx v (match column c' (cols df) with
                               | Some cells => cells
                               | None => repeat nan (nrows df)
                               end))
    else column c (cols df).
Proof.
  unfold loc_set. destruct (mem c' (columns df)) eqn:Em; cbn [cols].
  - rewrite column_map_named. destruct (String.eqb c c') eqn:E; [|reflexivity].
    apply String.eqb_eq in E. subst c'.
    destruct (column c (cols df)) eqn:Ec; [reflexivity|].
    apply column_none in Ec. unfold columns in Em. congruence.
  - assert (Hn : column c' (cols df) = None) by now apply column_none.
    rewrite column_app, Hn. cbn.
    destruct (String.eqb c c') eqn:E.
    + apply String.eqb_eq in E. subst c'. now rewrite Hn.
    + now destruct (column c (cols df)).
Qed.

Lemma nrows_loc_set idx c v df : nrows (loc_set idx c v df) = nrows df.
Proof. unfold loc_set. now destruct (mem c (columns df)). Qed.

Lemma length_put_rows idx v cells :
  List.length (put_rows idx v cells) = List.length cells.
Proof. unfold put_rows. apply length_imap. Qed.

Lemma lookup_put_rows idx v cells (i : nat) :
  put_rows idx v cells !! i
  = (fun x => if existsb (Nat.eqb i) idx then v else x) <$> cells !! i.
Proof. unfold put_rows. apply list_lookup_imap. Qed.

Lemma rect_loc_set idx c v df : rect df -> rect (loc_set idx c v df).
Proof.
  intros Hr x cells. rewrite column_loc_set, nrows_loc_set.
  destruct (String.eqb x c).
  - intros [= <-]. rewrite length_put_rows.
    destruct (column c (cols df)) eqn:E; [now apply (Hr c)|apply repeat_length].
  - apply Hr.
Qed.

Lemma existsb_positions_from i mask : forall s,
  existsb (Nat.eqb i) (positions_from s mask)
  = (s <=? i)%nat && match mask !! (i - s) with
                     | Some b => b
                     | None => false
                     end.
Proof.
  induction mask as [|b r IH]; intros s; cbn.
  - now rewrite andb_false_r.
  - assert (Hr : existsb (Nat.eqb i) (positions_from (S s) r)
                 = (S s <=? i)%nat && match r !! (i - S s) with
                                      | Some b => b
                                      | None => false
                                      end) by apply IH.
    destruct (Nat.leb_spec s i) as [Hle|Hgt].
    + destruct (Nat.eq_dec i s) as [->|Hne].
      * rewrite Nat.sub_diag. cbn.
        destruct b; cbn; [now rewrite Nat.eqb_refl|].
        rewrite Hr. destruct (Nat.leb_spec (S s) s); [lia|reflexivity].
      * replace (i - s) with (S (i - S s)) by lia. cbn.
        assert (Hs : (S s <=? i)%nat = true) by (apply Nat.leb_le; lia).
        rewrite Hs in Hr. cbn in Hr.
        destruct b; cbn; [|exact Hr].
        rewrite Hr. destruct (Nat.eqb_spec i s); [lia|reflexivity].
    + assert (Hs : (S s <=? i)%nat = false) by (apply Nat.leb_gt; lia).
      rewrite Hs in Hr. cbn in Hr.
      destruct b; cbn; [|exact Hr].
      rewrite Hr. destruct (Nat.eqb_spec i s); [lia|reflexivity].
Qed.

(** Row [i] is among [df.index[mask]] exactly when the mask holds there. *)
Lemma existsb_index_where i mask :
  existsb (Nat.eqb i) (index_where mask)
  = match mask !! i with Some b => b | None => false end.
Proof.
  unfold index_where. rewrite existsb_positions_from. cbn.
  now rewrite Nat.sub_0_r.
Qed.

Section WithEnv.
Context `{Env}.

Lemma rect_conform df : rect df -> rect (conform df).
Proof.
  intros Hr c v. rewrite conform_column, conform_nrows.
  destruct (column c (cols df)) eqn:E.
  - intros [= <-]. now apply (Hr c).
  - destruct (mem c COLUMNS); [|discriminate].
    intros [= <-]. apply repeat_length.
Qed.

(** A column that is there stays as it is under [ensure_df_schema]. *)
Lemma conform_column_some c df v :
  column c (cols df) = Some v -> column c (cols (conform df)) = Some v.
Proof. intros Hc. now rewrite conform_column, Hc. Qed.

(** Under [ensure_df_schema], a table that went through it before keeps
    every column as it is. *)
Lemma conform_column_again c df :
  column c (cols (conform (conform df))) = column c (cols (conform df)).
Proof.
  rewrite (conform_column c (conform df)).
  destruct (column c (cols (conform df))) eqn:E; [reflexivity|].
  rewrite conform_column in E.
  destruct (column c (cols df)); [discriminate|].
  destruct (mem c COLUMNS); [discriminate|reflexivity].
Qed.

(** The shape the two approval screens share. *)
Definition load_pending (flag : string) (filename : option string) : M DataFrame :=
  r <- get_df filename ;;
  cells <- lift (getitem flag (fst r)) ;;
  ret (select_rows (pending_mask cells) (fst r)).

Definition stamp_selected (flag ucol tcol : string)
  (sel_id user : string) (_filename : option string) : M outcome :=
  if negb (nonempty sel_id) then ret Warned
  else
    r <- get_df _filename ;;
    let df := fst r in
    let filename := snd r in
    ids <- lift (getitem "ID" df) ;;
    let idx := index_where (id_mask sel_id ids) in
    if (List.length idx =? 0)%nat then ret NotFound
    else
      t <- now ;;
      let df := loc_set idx flag (CStr "Yes") df in
      let df := loc_set idx ucol (CStr user) df in
      let df := loc_set idx tcol (CStr (strftime_iso t)) df in
      save_df df filename ;;;
      pending <- load_pending flag (Some filename) ;;
      ret (Refreshed pending).

Lemma verify_selected_shape :
  verify_selected
  = stamp_selected "Quality_Verified" "Quality_User" "Quality_Time".
Proof. reflexivity. Qed.

Lemma sign_selected_shape :
  sign_selected = stamp_selected "Leader_Sign" "Leader_User" "Leader_Time".
Proof. reflexivity. Qed.

(** The table a transition writes: the loaded one with the three cells of
    every selected row set. *)
Definition stamped (flag ucol tcol : string) (idx : list nat) (user : string)
  (t : datetime) (loaded : DataFrame) : DataFrame :=
  loc_set idx tcol (CStr (strftime_iso t))
    (loc_set idx ucol (CStr user)
       (loc_set idx flag (CStr "Yes") loaded)).

Lemma column_stamped_flag flag ucol tcol idx user t loaded :
  exists cells, column flag (cols (stamped flag ucol tcol idx user t loaded))
                = Some cells.
Proof.
  unfold stamped. rewrite !column_loc_set.
  destruct (String.eqb flag tcol); [eauto|].
  destruct (String.eqb flag ucol); [eauto|].
  rewrite String.eqb_refl. eauto.
Qed.

(** The course of a transition when the month file is a workbook in which
    the selected identifier occurs. *)
Lemma stamp_selected_run flag ucol tcol sel_id user fn w df0 ids :
  files w !! resolved fn w = Some (FBook df0) ->
  nonempty sel_id = true ->
  column "ID" (cols df0) = Some ids ->
  In true (id_mask sel_id ids) ->
  nonempty (OsPath.basename (resolved fn w)) = true ->
  exists pending w',
    stamp_selected flag ucol tcol sel_id user fn w = (Ok (Refreshed pending), w')
    /\ files w' !! OsPath.join DATA_DIR (OsPath.basename (resolved fn w))
       = Some (FBook
                 (conform (conform
                    (stamped flag ucol tcol (index_where (id_mask sel_id ids))
                       user (clock w (ticks (after_resolve fn w)))
                       (conform (conform df0)))))).
Proof.
  intros Hf Hsel Hid Hin Hbase.
  unfold stamp_selected. rewrite Hsel. cbn [negb].
  unfold bind at 1. rewrite (get_df_book fn w df0 Hf). cbn [fst snd].
  assert (Hids : getitem "ID" (conform (conform df0)) = Ok ids).
  { unfold getitem. now rewrite (conform_column_some _ _ ids (conform_column_some _ _ ids Hid)). }
  unfold bind at 1, lift at 1. rewrite Hids.
  set (idx := index_where (id_mask sel_id ids)).
  assert (Hidx : (List.length idx =? 0)%nat = false).
  { apply Nat.eqb_neq. intros Hz. apply length_zero_iff_nil in Hz.
    apply list_elem_of_In, list_elem_of_lookup in Hin as [i Hi].
    assert (He := existsb_index_where i (id_mask sel_id ids)).
    fold idx in He. rewrite Hz in He. cbn in He.
    rewrite Hi in He. discriminate. }
  rewrite Hidx.
  unfold bind at 1, now at 1. cbn [files clock ticks with_files].
  rewrite clock_after_resolve.
  fold (stamped flag ucol tcol idx user
          (clock w (ticks (after_resolve fn w))) (conform (conform df0))).
  set (st := stamped _ _ _ _ _ _ _).
  unfold bind at 1. rewrite save_df_run.
  set (b := OsPath.basename (resolved fn w)) in *.
  unfold resolved at 1. rewrite Hbase.
  unfold bind at 1, load_pending, bind at 1.
  set (w3 := with_files _ _).
  assert (Hr3 : resolved (Some b) w3 = OsPath.join DATA_DIR b)
    by (unfold resolved; now rewrite Hbase).
  assert (Hw3 : files w3 !! resolved (Some b) w3 = Some (FBook (conform st))).
  { rewrite Hr3. unfold w3. cbn [files with_files]. apply lookup_insert_eq. }
  rewrite (get_df_book (Some b) w3 (conform st) Hw3). cbn [fst snd].
  destruct (column_stamped_flag flag ucol tcol idx user
              (clock w (ticks (after_resolve fn w))) (conform (conform df0)))
    as [cells Hcells]. fold st in Hcells.
  assert (Hg : getitem flag (conform (conform (conform st))) = Ok cells).
  { unfold getitem.
    now rewrite (conform_column_some _ _ cells
                   (conform_column_some _ _ cells
                      (conform_column_some _ _ cells Hcells))). }
  unfold bind, lift, ret. rewrite Hg.
  eexists _, _. split; [reflexivity|].
  cbn [files with_files]. rewrite Hr3. apply lookup_insert_eq.
Qed.

(** The two approval stages. *)
Inductive stage := Quality | Leader.

Definition flag_of (st : stage) : string :=
  match st with Quality => "Quality_Verified" | Leader => "Leader_Sign" end.
Definition user_col_of (st : stage) : string :=
  match st with Quality => "Quality_User" | Leader => "Leader_User" end.
Definition time_col_of (st : stage) : string :=
  match st with Quality => "Quality_Time" | Leader => "Leader_Time" end.

(** The approval sub-record of a stage. *)
Definition columns_of (st : stage) : list string :=
  [flag_of st; user_col_of st; time_col_of st].

Definition other (st : stage) : stage :=
  match st with Quality => Leader | Leader => Quality end.

(** The button of a stage. *)
Definition transition (st : stage)
  : string -> string -> option string -> M outcome :=
  match st with Quality => verify_selected | Leader => sign_selected end.

Lemma transition_shape st :
  transition st = stamp_selected (flag_of st) (user_col_of st) (time_col_of st).
Proof. destruct st; reflexivity. Qed.

Lemma loc_set_cell idx c v df (i : nat) :
  rect df -> i < nrows df -> existsb (Nat.eqb i) idx = true ->
  exists cells,
    column c (cols (loc_set idx c v df)) = Some cells /\ cells !! i = Some v.
Proof.
  intros Hr Hi Hx. rewrite column_loc_set, String.eqb_refl.
  eexists. split; [reflexivity|].
  rewrite lookup_put_rows, Hx.
  set (cells0 := match column c (cols df) with
                 | Some cells => cells
                 | None => repeat nan (nrows df)
                 end).
  assert (Hl : List.length cells0 = nrows df).
  { unfold cells0. destruct (column c (cols df)) eqn:E;
      [now apply (Hr c)|apply repeat_length]. }
  destruct (lookup_lt_is_Some_2 cells0 i) as [x Hxs]; [now rewrite Hl|].
  now rewrite Hxs.
Qed.

Lemma column_loc_set_other c idx c' v df :
  String.eqb c c' = false ->
  column c (cols (loc_set idx c' v df)) = column c (cols df).
Proof. intros E. now rewrite column_loc_set, E. Qed.

(** What a transition leaves in the table it writes, [conform (conform S)]
    for [S] the stamped table: the three cells of every selected row, and
    every other column as loaded. *)
Lemma saved_table st idx user t df :
  rect df ->
  let loaded := conform df in
  let saved := conform (conform (stamped (flag_of st) (user_col_of st)
                                   (time_col_of st) idx user t loaded)) in
  nrows saved = nrows df
  /\ (exists flags users times,
        column (flag_of st) (cols saved) = Some flags
        /\ column (user_col_of st) (cols saved) = Some users
        /\ column (time_col_of st) (cols saved) = Some times
        /\ forall i : nat,
             i < nrows df -> existsb (Nat.eqb i) idx = true ->
             flags !! i = Some (CStr "Yes")
             /\ users !! i = Some (CStr user)
             /\ times !! i = Some (CStr (strftime_iso t)))
  /\ (forall c, mem c (columns_of st) = false ->
        column c (cols saved) = column c (cols loaded)).
Proof.
  intros Hr loaded saved.
  assert (HrL : rect loaded) by now apply rect_conform.
  assert (HnL : nrows loaded = nrows df) by apply conform_nrows.
  split; [|split].
  - unfold saved. rewrite !conform_nrows. unfold stamped.
    now rewrite !nrows_loc_set.
  - set (d1 := loc_set idx (flag_of st) (CStr "Yes") loaded).
    set (d2 := loc_set idx (user_col_of st) (CStr user) d1).
    assert (Hr1 : rect d1) by now apply rect_loc_set.
    assert (Hr2 : rect d2) by now apply rect_loc_set.
    assert (Hn1 : nrows d1 = nrows df) by (unfold d1; now rewrite nrows_loc_set).
    assert (Hn2 : nrows d2 = nrows df) by (unfold d2; now rewrite nrows_loc_set).
    assert (Hflag : forall i : nat, i < nrows df -> existsb (Nat.eqb i) idx = true ->
              exists cells, column (flag_of st) (cols saved) = Some cells
                            /\ cells !! i = Some (CStr "Yes")).
    { intros i Hi Hx.
      destruct (loc_set_cell idx (flag_of st) (CStr "Yes") loaded i HrL) as (cells & Hc & Hv);
        [now rewrite HnL|exact Hx|].
      exists cells. split; [|exact Hv].
      unfold saved. apply conform_column_some, conform_column_some.
      unfold stamped. fold d1. fold d2.
      rewrite column_loc_set_other by (destruct st; reflexivity).
      unfold d2. rewrite column_loc_set_other by (destruct st; reflexivity).
      exact Hc. }
    assert (Huser : forall i : nat, i < nrows df -> existsb (Nat.eqb i) idx = true ->
              exists cells, column (user_col_of st) (cols saved) = Some cells
                            /\ cells !! i = Some (CStr user)).
    { intros i Hi Hx.
      destruct (loc_set_cell idx (user_col_of st) (CStr user) d1 i Hr1) as (cells & Hc & Hv);
        [now rewrite Hn1|exact Hx|].
      exists cells. split; [|exact Hv].
      unfold saved. apply conform_column_some, conform_column_some.
      unfold stamped. fold d1. fold d2.
      rewrite column_loc_set_other by (destruct st; reflexivity).
      exact Hc. }
    assert (Htime : forall i : nat, i < nrows df -> existsb (Nat.eqb i) idx = true ->
              exists cells, column (time_col_of st) (cols saved) = Some cells
                            /\ cells !! i = Some (CStr (strftime_iso t))).
    { intros i Hi Hx.
      destruct (loc_set_cell idx (time_col_of st) (CStr (strftime_iso t)) d2 i Hr2)
        as (cells & Hc & Hv); [now rewrite Hn2|exact Hx|].
      exists cells. split; [|exact Hv].
      unfold saved. apply conform_column_some, conform_column_some.
      unfold stamped. fold d1. fold d2. exact Hc. }
    destruct (column_stamped_flag (flag_of st) (user_col_of st) (time_col_of st)
                idx user t loaded) as [flags Hf0].
    assert (Hf : column (flag_of st) (cols saved) = Some flags)
      by (unfold saved; now apply conform_column_some, conform_column_some).
    assert (Hu : exists users, column (user_col_of st) (cols saved) = Some users).
    { unfold saved. unfold stamped. fold d1. fold d2.
      eexists. apply conform_column_some, conform_column_some.
      rewrite column_loc_set_other by (destruct st; reflexivity).
      unfold d2. rewrite column_loc_set, String.eqb_refl. reflexivity. }
    destruct Hu as [users Hu].
    assert (Ht : exists times, column (time_col_of st) (cols saved) = Some times).
    { unfold saved. unfold stamped.
      eexists. apply conform_column_some, conform_column_some.
      rewrite column_loc_set, String.eqb_refl. reflexivity. }
    destruct Ht as [times Ht].
    exists flags, users, times.
    split; [exact Hf|]. split; [exact Hu|]. split; [exact Ht|].
    intros i Hi Hx. split; [|split].
    + destruct (Hflag i Hi Hx) as (cells & Hc & Hv). congruence.
    + destruct (Huser i Hi Hx) as (cells & Hc & Hv). congruence.
    + destruct (Htime i Hi Hx) as (cells & Hc & Hv). congruence.
  - intros c Hc. unfold saved. rewrite conform_column_again.
    assert (Hs : column c (cols (stamped (flag_of st) (user_col_of st)
                                   (time_col_of st) idx user t loaded))
                 = column c (cols loaded)).
    { unfold stamped. unfold columns_of, mem in Hc. cbn [existsb] in Hc.
      apply orb_false_elim in Hc as [E1 Hc].
      apply orb_false_elim in Hc as [E2 Hc].
      apply orb_false_elim in Hc as [E3 _].
      now rewrite !column_loc_set_other. }
    rewrite conform_column, Hs.
    destruct (column c (cols loaded)) eqn:E; [reflexivity|].
    unfold loaded in E. rewrite conform_column in E.
    destruct (column c (cols df)); [discriminate|].
    destruct (mem c COLUMNS); [discriminate|reflexivity].
Qed.

Lemma selected_row sel_id ids (i : nat) cell :
  ids !! i = Some cell -> astype_str cell = sel_id ->
  existsb (Nat.eqb i) (index_where (id_mask sel_id ids)) = true
  /\ In true (id_mask sel_id ids).
Proof.
  intros Hrow Hmatch.
  assert (Hm : id_mask sel_id ids !! i = Some true).
  { unfold id_mask. rewrite list_lookup_fmap, Hrow. cbn.
    now rewrite Hmatch, String.eqb_refl. }
  split.
  - now rewrite existsb_index_where, Hm.
  - apply list_elem_of_In, list_elem_of_lookup. eauto.
Qed.

(** C10.  When the month file is a workbook in which the selected
    identifier occurs, the quality-verify and leader-sign transitions end
    with the table written back, and in that table every row whose [ID],
    read as a string, is the selected identifier has the flag [Yes], the
    acting user and the time stamp: all matching rows, however many. *)
Theorem transition_updates_every_matching_row
  (st : stage) (sel_id user : string) (fn : option string) (w : world)
  (df0 : DataFrame) (ids : list cell)
  (Hbook : files w !! resolved fn w = Some (FBook df0))
  (Hwf : well_formed df0)
  (Hname : nonempty (OsPath.basename (resolved fn w)) = true)
  (Hsel : nonempty sel_id = true)
  (Hids : column "ID" (cols df0) = Some ids)
  (Hfound : exists (i : nat) cell,
              ids !! i = Some cell /\ astype_str cell = sel_id) :
  exists pending w' saved flags users times,
    transition st sel_id user fn w = (Ok (Refreshed pending), w')
    /\ files w' !! OsPath.join DATA_DIR (OsPath.basename (resolved fn w))
        = Some (FBook saved)
    /\ nrows saved = nrows df0
    /\ column (flag_of st) (cols saved) = Some flags
    /\ column (user_col_of st) (cols saved) = Some users
    /\ column (time_col_of st) (cols saved) = Some times
    /\ forall (i : nat) cell,
         ids !! i = Some cell -> astype_str cell = sel_id ->
         flags !! i = Some (CStr "Yes")
         /\ users !! i = Some (CStr user)
         /\ times !! i
             = Some (CStr (strftime_iso (clock w (ticks (after_resolve fn w))))).
Proof.
  destruct Hfound as (i0 & cell0 & Hrow0 & Hmatch0).
  destruct (selected_row _ _ _ _ Hrow0 Hmatch0) as [_ Hin].
  rewrite transition_shape.
  destruct (stamp_selected_run (flag_of st) (user_col_of st) (time_col_of st)
              sel_id user fn w df0 ids Hbook Hsel Hids Hin Hname)
    as (pending & w' & Hrun & Hfile).
  pose proof (well_formed_rect df0 Hwf) as Hr.
  destruct (saved_table st (index_where (id_mask sel_id ids)) user
              (clock w (ticks (after_resolve fn w))) (conform df0)
              (rect_conform df0 Hr))
    as (Hn & (flags & users & times & Hf & Hu & Ht & Hcells) & _).
  rewrite conform_nrows in Hcells.
  eexists pending, w', _, flags, users, times.
  split; [exact Hrun|]. split; [exact Hfile|].
  split; [rewrite Hn; apply conform_nrows|].
  split; [exact Hf|]. split; [exact Hu|]. split; [exact Ht|].
  intros i cell Hrow Hmatch.
  destruct (selected_row _ _ _ _ Hrow Hmatch) as [Hx _].
  apply Hcells; [|exact Hx].
  rewrite <- (Hr "ID" ids Hids). now apply (lookup_lt_Some ids i cell).
Qed.

(** C8, as the code has it.  For a record whose identifier is found in the
    freshly loaded table, a transition writes [Yes] in the flag, the acting
    user in the paired user column, whatever that user is (the screens do
    not look at it, so an empty name is stamped as it is) and, in the
    paired time column, a stamp that parses back to the clock reading;
    every column outside the stage's own three, and so the other approval
    sub-record, is in the written table as it was in the loaded one. *)
Theorem transition_stamps_and_frames
  (st : stage) (sel_id user : string) (fn : option string) (w : world)
  (df0 : DataFrame) (ids : list cell) (i : nat) (cell : cell)
  (Hbook : files w !! resolved fn w = Some (FBook df0))
  (Hwf : well_formed df0)
  (Hname : nonempty (OsPath.basename (resolved fn w)) = true)
  (Hsel : nonempty sel_id = true)
  (Hids : column "ID" (cols df0) = Some ids)
  (Hrow : ids !! i = Some cell)
  (Hmatch : astype_str cell = sel_id)
  (Hclock : valid_datetime (clock w (ticks (after_resolve fn w))) = true) :
  exists loaded w1 pending w' saved flags users times stamp_text,
    get_df fn w = (Ok (loaded, OsPath.basename (resolved fn w)), w1)
    /\ transition st sel_id user fn w = (Ok (Refreshed pending), w')
    /\ files w' !! OsPath.join DATA_DIR (OsPath.basename (resolved fn w))
        = Some (FBook saved)
    /\ column (flag_of st) (cols saved) = Some flags
    /\ column (user_col_of st) (cols saved) = Some users
    /\ column (time_col_of st) (cols saved) = Some times
    /\ flags !! i = Some (CStr "Yes")
    /\ users !! i = Some (CStr user)
    /\ times !! i = Some (CStr stamp_text)
    /\ strptime_iso stamp_text = Some (clock w (ticks (after_resolve fn w)))
    /\ (forall c, mem c (columns_of st) = false ->
          column c (cols saved) = column c (cols loaded))
    /\ map (fun c => column c (cols saved)) (columns_of (other st))
        = map (fun c => column c (cols loaded)) (columns_of (other st)).
Proof.
  destruct (selected_row _ _ _ _ Hrow Hmatch) as [Hx Hin].
  rewrite transition_shape.
  destruct (stamp_selected_run (flag_of st) (user_col_of st) (time_col_of st)
              sel_id user fn w df0 ids Hbook Hsel Hids Hin Hname)
    as (pending & w' & Hrun & Hfile).
  pose proof (well_formed_rect df0 Hwf) as Hr.
  destruct (saved_table st (index_where (id_mask sel_id ids)) user
              (clock w (ticks (after_resolve fn w))) (conform df0)
              (rect_conform df0 Hr))
    as (_ & (flags & users & times & Hf & Hu & Ht & Hcells) & Hframe).
  rewrite conform_nrows in Hcells.
  assert (Hi : i < nrows df0).
  { rewrite <- (Hr "ID" ids Hids). now apply (lookup_lt_Some ids i cell). }
  destruct (Hcells i Hi Hx) as (Hc1 & Hc2 & Hc3).
  eexists (conform (conform df0)), _, pending, w', _, flags, users, times, _.
  split; [apply (get_df_book fn w df0 Hbook)|].
  split; [exact Hrun|]. split; [exact Hfile|].
  split; [exact Hf|]. split; [exact Hu|]. split; [exact Ht|].
  split; [exact Hc1|]. split; [exact Hc2|].
  split; [exact Hc3|].
  split; [now apply ClockFacts.strptime_strftime|].
  split; [exact Hframe|].
  cbn [map columns_of].
  rewrite !Hframe by (destruct st; reflexivity). reflexivity.
Qed.

End WithEnv.

(** A January workbook in which two rows carry the same identifier. *)
Definition twin_table : DataFrame :=
  {| nrows := 3;
     cols := [("ID", [CStr "20260104-070000-0000"; CInt 7;
                      CStr "20260104-070000-0000"]);
              ("Quality_Verified", [CStr "Pending"; CStr "Pending"; CStr "Pending"]);
              ("Leader_Sign", [CStr "Yes"; CStr "Pending"; CStr "Pending"]);
              ("Leader_User", [CStr "lead"; CStr ""; CStr ""]);
              ("Leader_Time", [CStr "2026-01-04 08:00:00"; CStr ""; CStr ""])] |}.

Definition twin_disk : world :=
  Sample.world_of [("data/tool_life_data_2026_01.xlsx", FBook twin_table)]
    Sample.frozen.

Lemma twin_table_well_formed : well_formed twin_table.
Proof.
  split; [exact (distinct_NoDup (columns twin_table) eq_refl)|].
  repeat constructor.
Defined.

Lemma transition_updates_every_matching_row_witness :
  exists pending w' saved,
    @verify_selected Sample.env "20260104-070000-0000" "quinn" (Some january)
      twin_disk = (Ok (Refreshed pending), w')
    /\ files w' !! "data/tool_life_data_2026_01.xlsx" = Some (FBook saved)
    /\ exists flags, column "Quality_Verified" (cols saved) = Some flags
                     /\ flags !! 0 = Some (CStr "Yes")
                     /\ flags !! 2 = Some (CStr "Yes").
Proof.
  destruct (@transition_updates_every_matching_row Sample.env Quality
              "20260104-070000-0000" "quinn" (Some january) twin_disk
              twin_table
              [CStr "20260104-070000-0000"; CInt 7; CStr "20260104-070000-0000"]
              eq_refl twin_table_well_formed eq_refl eq_refl eq_refl
              (ex_intro _ 0 (ex_intro _ (CStr "20260104-070000-0000")
                                 (conj eq_refl eq_refl))))
    as (pending & w' & saved & flags & users & times
        & Hrun & Hfile & _ & Hf & _ & _ & Hcells).
  exists pending, w', saved. split; [exact Hrun|]. split; [exact Hfile|].
  exists flags. split; [exact Hf|]. split.
  - exact (proj1 (Hcells 0 (CStr "20260104-070000-0000") eq_refl eq_refl)).
  - exact (proj1 (Hcells 2 (CStr "20260104-070000-0000") eq_refl eq_refl)).
Defined.

Lemma transition_stamps_and_frames_witness :
  exists pending w' saved,
    @sign_selected Sample.env "7" "lee" (Some january) twin_disk
    = (Ok (Refreshed pending), w')
    /\ files w' !! "data/tool_life_data_2026_01.xlsx" = Some (FBook saved)
    /\ column "Quality_Verified" (cols saved)
        = Some [CStr "Pending"; CStr "Pending"; CStr "Pending"].
Proof.
  destruct (@transition_stamps_and_frames Sample.env Leader "7" "lee"
              (Some january) twin_disk twin_table
              [CStr "20260104-070000-0000"; CInt 7; CStr "20260104-070000-0000"]
              1 (CInt 7)
              eq_refl twin_table_well_formed eq_refl eq_refl eq_refl
              eq_refl eq_refl eq_refl)
    as (loaded & w1 & pending & w' & saved & flags & users & times & text
        & Hload & Hrun & Hfile & _ & _ & _ & _ & _ & _ & _ & Hframe & _).
  exists pending, w', saved. split; [exact Hrun|]. split; [exact Hfile|].
  rewrite (Hframe "Quality_Verified" eq_refl).
  rewrite (@get_df_book Sample.env (Some january) twin_disk twin_table eq_refl)
    in Hload.
  injection Hload as <- _. reflexivity.
Defined.

(** C8 fails as stated: the actor stamped need not be non-empty.  With an
    empty user name, verifying record [7] of the January workbook ends
    normally, turns the flag of that row from [Pending] to [Yes], and the
    user stamped beside it is the empty string. *)
Lemma transition_stamps_empty_actor :
  let run := @verify_selected Sample.env "7" "" (Some january) twin_disk in
  column "Quality_Verified" (cols twin_table)
    = Some [CStr "Pending"; CStr "Pending"; CStr "Pending"]
  /\ match fst run with Ok (Refreshed _) => True | _ => False end
  /\ match files (snd run) !! "data/tool_life_data_2026_01.xlsx" with
     | Some (FBook saved) =>
         column "Quality_Verified" (cols saved)
           = Some [CStr "Pending"; CStr "Yes"; CStr "Pending"]
         /\ option_map (fun users => users !! 1)
              (column "Quality_User" (cols saved))
            = Some (Some (CStr ""))
     | _ => False
     end.
Proof. vm_compute. repeat split. Qed.

End WorkflowProps.

(** ** Record creation *)

Module EntryProps.
Import Workflow Storage FrameFacts StorageProps WorkflowProps.

Lemma column_map_append c (val : string -> cell) l :
  column c (map (fun p : string * list cell => (fst p, snd p ++ [val (fst p)])) l)
  = option_map (fun old => old ++ [val c]) (column c l).
Proof.
  induction l as [|[c' v'] r IH]; cbn; [reflexivity|].
  destruct (String.eqb c c') eqn:E; [|exact IH].
  apply String.eqb_eq in E. now subst c'.
Qed.

Lemma column_new_labels c have n (row : list (string * cell)) :
  mem c have = false ->
  column c (map (fun kv : string * cell => (fst kv, repeat nan n ++ [snd kv]))
              (List.filter (fun kv => negb (mem (fst kv) have)) row))
  = option_map (fun v => repeat nan n ++ [v]) (row_get c row).
Proof.
  intros Hc. induction row as [|[k v] r IH]; cbn; [reflexivity|].
  destruct (String.eqb c k) eqn:E.
  - apply String.eqb_eq in E. subst k. rewrite Hc. cbn.
    now rewrite String.eqb_refl.
  - destruct (mem k have); cbn; [exact IH|]. now rewrite E.
Qed.

(** Reading a column after one record was appended. *)
Lemma column_concat_row c df row :
  column c (cols (concat_row df row))
  = match column c (cols df) with
    | Some old => Some (old ++ [match row_get c row with
                                | Some v => v
                                | None => nan
                                end])
    | None => option_map (fun v => repeat nan (nrows df) ++ [v]) (row_get c row)
    end.
Proof.
  unfold concat_row. cbn [cols]. rewrite column_app.
  rewrite (column_map_append c
             (fun k => match row_get k row with Some v => v | None => nan end)).
  destruct (column c (cols df)) eqn:E; [reflexivity|]. cbn [option_map].
  apply column_new_labels. now apply column_none.
Qed.

(** The appended record is the last row: each of its fields is the last
    cell of the column of that label. *)
Lemma appended_cell c v df row :
  rect df -> row_get c row = Some v ->
  exists cells,
    column c (cols (concat_row df row)) = Some cells
    /\ List.length cells = S (nrows df)
    /\ cells !! nrows df = Some v.
Proof.
  intros Hr Hv. rewrite column_concat_row, Hv.
  destruct (column c (cols df)) as [old|] eqn:E; cbn.
  - pose proof (Hr c old E) as Hl. eexists. split; [reflexivity|]. split.
    + rewrite length_app. cbn. lia.
    + now apply list_lookup_middle.
  - eexists. split; [reflexivity|]. split.
    + rewrite length_app, repeat_length. cbn. lia.
    + apply list_lookup_middle. now rewrite repeat_length.
Qed.

Section WithEnv.
Context `{Env}.

(** Workbooks are rectangular with labels all different, as [read_excel]
    builds them. *)
Definition disk_ok (w : world) : Prop :=
  forall p df, files w !! p = Some (FBook df) -> well_formed df.

Lemma get_df_cases fn w :
  match files w !! resolved fn w with
  | Some (FBook df0) =>
      get_df fn w
      = (Ok (conform (conform df0), OsPath.basename (resolved fn w)),
         with_files (<[resolved fn w := FBook (conform df0)]> (files w))
           (after_resolve fn w))
  | None =>
      get_df fn w
      = (Ok (conform (empty_frame COLUMNS), OsPath.basename (resolved fn w)),
         with_files (<[resolved fn w := FBook (empty_frame COLUMNS)]> (files w))
           (after_resolve fn w))
  | Some _ => exists w', get_df fn w = (Raise BadWorkbook, w')
  end.
Proof.
  destruct (files w !! resolved fn w) as [f|] eqn:E.
  - destruct f as [j|df0|b].
    + eexists. now apply (get_df_unreadable fn w (FJson j)).
    + now apply get_df_book.
    + eexists. now apply (get_df_unreadable fn w (FRaw b)).
  - now apply get_df_absent.
Qed.

Lemma rect_empty_frame names : rect (empty_frame names).
Proof.
  intros c v. rewrite column_empty_frame.
  destruct (mem c names); [|discriminate]. now intros [= <-].
Qed.

(** When [get_df()] hands over a table, the entry is appended to it and the
    result written back. *)
Lemma append_entry_run f user downtime cost w loaded b w1 :
  get_df None w = (Ok (loaded, b), w1) ->
  exists id t path w',
    append_entry f user downtime cost w = (Ok (Saved cost), w')
    /\ files w' !! path
       = Some (FBook (conform (concat_row loaded
                                 (new_row f user id t downtime cost)))).
Proof.
  intros Hget. unfold append_entry, bind at 1. rewrite Hget. cbn [fst snd].
  unfold bind at 1, now at 1. unfold bind at 1, next_id, bind at 1, now at 1.
  unfold ret at 1. unfold bind at 1. rewrite save_df_run.
  unfold ret. eexists _, _, _, _. split; [reflexivity|].
  cbn [files with_files]. apply lookup_insert_eq.
Qed.

Lemma append_entry_raises f user downtime cost w e w1 :
  get_df None w = (Raise e, w1) ->
  append_entry f user downtime cost w = (Raise e, w1).
Proof. intros Hget. unfold append_entry, bind at 1. now rewrite Hget. Qed.

(** A record that [append_entry] saves sits in the last row of the table
    written back, field by field. *)
Lemma append_entry_saved f user downtime cost w out w' :
  disk_ok w ->
  append_entry f user downtime cost w = (Ok out, w') ->
  exists id t path table n,
    out = Saved cost
    /\ files w' !! path = Some (FBook table)
    /\ nrows table = S n
    /\ forall c v,
         row_get c (new_row f user id t downtime cost) = Some v ->
         exists cells,
           column c (cols table) = Some cells
           /\ List.length cells = S n
           /\ cells !! n = Some v.
Proof.
  intros Hdisk Hrun.
  assert (Hload : exists loaded b w1,
             get_df None w = (Ok (loaded, b), w1) /\ rect loaded).
  { pose proof (get_df_cases None w) as Hc.
    destruct (files w !! resolved None w) as [[j|df0|bs]|] eqn:E.
    - destruct Hc as [w1 Hc].
      rewrite (append_entry_raises _ _ _ _ _ _ _ Hc) in Hrun. discriminate.
    - eexists _, _, _. split; [exact Hc|].
      apply rect_conform, rect_conform, well_formed_rect, (Hdisk _ _ E).
    - destruct Hc as [w1 Hc].
      rewrite (append_entry_raises _ _ _ _ _ _ _ Hc) in Hrun. discriminate.
    - eexists _, _, _. split; [exact Hc|].
      apply rect_conform, rect_empty_frame. }
  destruct Hload as (loaded & b & w1 & Hget & Hr).
  destruct (append_entry_run f user downtime cost w loaded b w1 Hget)
    as (id & t & path & w2 & Hrun2 & Hfile).
  rewrite Hrun2 in Hrun. injection Hrun as <- <-.
  exists id, t, path,
    (conform (concat_row loaded (new_row f user id t downtime cost))),
    (nrows loaded).
  split; [reflexivity|]. split; [exact Hfile|]. split.
  - now rewrite conform_nrows.
  - intros c v Hv.
    destruct (appended_cell c v loaded _ Hr Hv) as (cells & Hc & Hl & Hn).
    exists cells. split; [|split; assumption].
    now apply conform_column_some.
Qed.

Lemma disk_ok_save_json path obj w :
  disk_ok w -> disk_ok (snd (save_json path obj w)).
Proof.
  intros Hd p df. unfold save_json. cbn [snd files with_files].
  destruct (decide (p = path)) as [->|Hp].
  - rewrite lookup_insert_eq. discriminate.
  - rewrite lookup_insert_ne by congruence.
    destruct (decide (p = path +:+ ".tmp")) as [->|Hp'].
    + rewrite lookup_delete_eq. discriminate.
    + rewrite lookup_delete_ne by congruence.
      rewrite lookup_insert_ne by congruence. apply Hd.
Qed.

(** [submit] reports a saved entry only through [append_entry], run on the
    disk as it was or as the stock update left it. *)
Lemma submit_saved_inv f user ask w cost w' :
  disk_ok w ->
  submit f user ask w = (Ok (Saved cost), w') ->
  exists w0 downtime cost0,
    disk_ok w0
    /\ append_entry f user downtime cost0 w0 = (Ok (Saved cost), w').
Proof.
  intros Hd. unfold submit.
  destruct (negb (nonempty (mach_cb f)) || negb (nonempty (tool_cb f))
            || negb (nonempty (reason_cb f))); [discriminate|].
  unfold bind at 1, load_json.
  set (cfg := match files w !! TOOL_CONFIG_FILE with
              | Some (FJson j) => j
              | _ => JDict []
              end).
  assert (Hcfg : (match files w !! TOOL_CONFIG_FILE with
                  | Some (FJson j) => (Ok j, w)
                  | _ => (Ok (JDict []), w)
                  end) = (Ok cfg, w)).
  { unfold cfg. destruct (files w !! TOOL_CONFIG_FILE) as [[]|]; reflexivity. }
  rewrite Hcfg. clear Hcfg.
  unfold bind at 1, lift at 1.
  destruct (contains ("Tool " +:+ tool_cb f) cfg) as [[|]|e]; [| |discriminate].
  - unfold bind at 1, lift at 1.
    destruct (subscript ("Tool " +:+ tool_cb f) cfg) as [entry|e]; [|discriminate].
    unfold bind at 1, lift at 1.
    destruct (get_method "cost" (JInt 0) entry) as [c|e]; [|discriminate].
    unfold bind at 1, lift at 1.
    destruct (get_method "stock" (JInt 0) entry) as [s|e]; [|discriminate].
    destruct (safe_int s 0 <=? 0)%Z.
    + destruct ask; cbn [negb]; [|discriminate].
      intros Hrun. eexists w, _, _. split; [exact Hd|exact Hrun].
    + unfold bind at 1.
      match goal with
      | |- context [save_json ?p ?o w] =>
          pose proof (disk_ok_save_json p o w Hd) as Hd';
          destruct (save_json p o w) as [r w0] eqn:Es
      end.
      assert (Hr : r = Ok tt) by (unfold save_json in Es; now injection Es).
      subst r. cbn [snd] in Hd'.
      intros Hrun. eexists w0, _, _. split; [exact Hd'|exact Hrun].
  - intros Hrun. eexists w, _, _. split; [exact Hd|exact Hrun].
Qed.

(** The six approval fields of a record at creation. *)
Definition approvals_at_creation : list (string * cell) :=
  [("Quality_Verified", CStr "Pending");
   ("Quality_User", CStr "");
   ("Quality_Time", CStr "");
   ("Leader_Sign", CStr "Pending");
   ("Leader_User", CStr "");
   ("Leader_Time", CStr "")].

(** C7.  Whenever [submit] saves an entry, the month table written back
    has the new record as its last row, and in that row both approval flags
    are [Pending] and the four actor and time fields are the empty
    string. *)
Theorem submit_initialises_approvals
  (f : form) (user : string) (askyesno : bool) (w : world)
  (cost : pyfloat) (w' : world)
  (Hdisk : disk_ok w)
  (Hrun : submit f user askyesno w = (Ok (Saved cost), w')) :
  exists path table n,
    files w' !! path = Some (FBook table)
    /\ nrows table = S n
    /\ Forall (fun kv =>
                exists cells,
                  column (fst kv) (cols table) = Some cells
                  /\ List.length cells = S n
                  /\ cells !! n = Some (snd kv))
         approvals_at_creation.
Proof.
  destruct (submit_saved_inv f user askyesno w cost w' Hdisk Hrun)
    as (w0 & downtime & cost0 & Hd0 & Happ).
  destruct (append_entry_saved f user downtime cost0 w0 _ w' Hd0 Happ)
    as (id & t & path & table & n & _ & Hfile & Hn & Hcells).
  exists path, table, n. split; [exact Hfile|]. split; [exact Hn|].
  unfold approvals_at_creation.
  repeat (apply List.Forall_cons; [apply Hcells; reflexivity|]).
  apply List.Forall_nil.
Qed.

(** With a complete form, no tool configuration on disk and a month file
    that is absent or a workbook, [submit] does save the entry. *)
Lemma submit_saves f user askyesno w :
  nonempty (mach_cb f) = true -> nonempty (tool_cb f) = true ->
  nonempty (reason_cb f) = true ->
  files w !! TOOL_CONFIG_FILE = None ->
  match files w !! resolved None w with
  | Some (FBook _) | None => True
  | Some _ => False
  end ->
  exists w', submit f user askyesno w = (Ok (Saved float_zero), w').
Proof.
  intros Hm Ht Hr Hcfg Hfile. unfold submit. rewrite Hm, Ht, Hr. cbn [negb orb].
  unfold bind at 1, load_json. rewrite Hcfg.
  unfold bind at 1, lift at 1. cbn [contains has_key lookup].
  pose proof (get_df_cases None w) as Hc.
  destruct (files w !! resolved None w) as [[j|df0|bs]|]; try contradiction.
  - destruct (append_entry_run f user
                (safe_int (JStr (down_entry f)) 0) float_zero w _ _ _ Hc)
      as (id & t & path & w' & Hrun & _).
    exists w'. exact Hrun.
  - destruct (append_entry_run f user
                (safe_int (JStr (down_entry f)) 0) float_zero w _ _ _ Hc)
      as (id & t & path & w' & Hrun & _).
    exists w'. exact Hrun.
Qed.

End WithEnv.

(** A first entry on an empty disk. *)
Definition first_form : form :=
  {| line_cb := "U725"; shift_cb := "1st"; mach_cb := "Machine 3";
     part_cb := "PN1"; tool_cb := "12"; reason_cb := "Worn";
     down_entry := "5"; defect_var := false; qty_entry := "0";
     sort_var := false; defect_reason := "" |}.

Definition empty_disk : world := Sample.world_of [] Sample.ticking.

Lemma submit_initialises_approvals_witness :
  exists path table n,
    files (snd (@submit Sample.env first_form "tess" true empty_disk)) !! path
    = Some (FBook table)
    /\ nrows table = S n
    /\ Forall (fun kv =>
                exists cells,
                  column (fst kv) (cols table) = Some cells
                  /\ List.length cells = S n
                  /\ cells !! n = Some (snd kv))
         approvals_at_creation.
Proof.
  assert (Hfst : fst (@submit Sample.env first_form "tess" true empty_disk)
                 = Ok (Saved float_zero)) by (vm_compute; reflexivity).
  assert (Hrun : @submit Sample.env first_form "tess" true empty_disk
                 = (Ok (Saved float_zero),
                    snd (@submit Sample.env first_form "tess" true empty_disk))).
  { rewrite <- Hfst. apply surjective_pairing. }
  assert (Hdisk : disk_ok empty_disk).
  { intros p df Hp.
    change (files empty_disk) with (∅ : gmap string file) in Hp.
    rewrite lookup_empty in Hp. discriminate. }
  exact (@submit_initialises_approvals Sample.env first_form "tess" true
           empty_disk float_zero _ Hdisk Hrun).
Defined.

End EntryProps.

(** ** More on the JSON helpers and the month workbooks *)

Module StorageExtra.
Import Storage FrameFacts StorageProps.

Section WithEnv.
Context `{Env}.

(** X3.  [ensure_df_schema] never raises, keeps the number of rows, and, on a
    table whose labels are all different, is idempotent: a table that went
    through it is returned as it is. *)
Theorem ensure_df_schema_idempotent (df : DataFrame)
  (Hschema : List.NoDup COLUMNS) (Hlabels : List.NoDup (columns df)) :
  exists df',
    ensure_df_schema df = Ok df'
    /\ nrows df' = nrows df
    /\ ensure_df_schema df' = Ok df'.
Proof.
  exists (conform df). split; [apply ensure_df_schema_total|].
  split; [apply conform_nrows|].
  rewrite ensure_df_schema_total. f_equal. now apply conform_idem.
Qed.

(** The text of an identifier read back: the second and the row count. *)
Definition decode_id (s : string) : option (datetime * nat) :=
  match read_digits 4 s with Some (y, s) =>
  match read_digits 2 s with Some (mo, s) =>
  match read_digits 2 s with Some (d, s) =>
  match expect "-" s with Some s =>
  match read_digits 2 s with Some (h, s) =>
  match read_digits 2 s with Some (mi, s) =>
  match read_digits 2 s with Some (se, s) =>
  match expect "-" s with Some s =>
  match read_digits 4 s with Some (n, EmptyString) =>
    Some ({| year := y; month := mo; day := d;
             hour := h; minute := mi; second := se |}, n)
  | _ => None end
  | None => None end | None => None end | None => None end
  | None => None end | None => None end | None => None end
  | None => None end | None => None end.

Lemma decode_next_id df w :
  valid_datetime (clock w (ticks w)) = true ->
  exists id,
    fst (next_id df w) = Ok id
    /\ String.length id = 20
    /\ decode_id id = Some (clock w (ticks w), nrows df mod (100 * 100)).
Proof.
  intros Hv. set (t := clock w (ticks w)) in *.
  set (k := nrows df mod (100 * 100)).
  assert (Hk : k < 100 * 100) by (apply Nat.mod_upper_bound; lia).
  exists (pad4 (year t) +:+ (pad2 (month t) +:+ (pad2 (day t) +:+ String "-"
           (pad2 (hour t) +:+ (pad2 (minute t) +:+ (pad2 (second t) +:+ String "-"
             (pad4 k +:+ EmptyString))))))).
  split; [reflexivity|]. split; [reflexivity|].
  pose proof Hv as Hv'. unfold valid_datetime in Hv'.
  repeat (apply andb_prop in Hv' as [Hv' ?]).
  repeat match goal with
  | X : (_ <=? _)%nat = true |- _ => apply Nat.leb_le in X
  | X : (_ <? _)%nat = true |- _ => apply Nat.ltb_lt in X
  end.
  pose proof (ClockFacts.days_in_month_bound (year t) (month t)).
  unfold decode_id.
  rewrite ClockFacts.read_pad4 by lia.
  rewrite ClockFacts.read_pad2 by lia.
  rewrite ClockFacts.read_pad2 by lia. cbn [expect Ascii.eqb Bool.eqb].
  rewrite ClockFacts.read_pad2 by lia.
  rewrite ClockFacts.read_pad2 by lia.
  rewrite ClockFacts.read_pad2 by lia. cbn [expect Ascii.eqb Bool.eqb].
  rewrite ClockFacts.read_pad4 by lia.
  now destruct t.
Qed.

(** X6.  Two identifiers made by [next_id] are the same exactly when they were
    made in the same second for tables with the same number of rows modulo
    10000: one second apart, or one row apart, they differ. *)
Theorem next_id_same_iff (df1 df2 : DataFrame) (w1 w2 : world)
  (Hv1 : valid_datetime (clock w1 (ticks w1)) = true)
  (Hv2 : valid_datetime (clock w2 (ticks w2)) = true) :
  fst (next_id df1 w1) = fst (next_id df2 w2)
  <-> clock w1 (ticks w1) = clock w2 (ticks w2)
      /\ nrows df1 mod (100 * 100) = nrows df2 mod (100 * 100).
Proof.
  split.
  - intros Heq.
    destruct (decode_next_id df1 w1 Hv1) as (id1 & H1 & _ & D1).
    destruct (decode_next_id df2 w2 Hv2) as (id2 & H2 & _ & D2).
    rewrite H1, H2 in Heq. injection Heq as ->.
    rewrite D1 in D2.
    assert (E : (clock w1 (ticks w1), nrows df1 mod (100 * 100))
                = (clock w2 (ticks w2), nrows df2 mod (100 * 100)))
      by congruence.
    split; [exact (f_equal fst E) | exact (f_equal snd E)].
  - intros [Ht Hn].
    change (fst (next_id df1 w1))
      with (Ok (strftime_compact "-" (clock w1 (ticks w1)) +:+ "-"
                +:+ pad4 (nrows df1 mod (100 * 100)))).
    change (fst (next_id df2 w2))
      with (Ok (strftime_compact "-" (clock w2 (ticks w2)) +:+ "-"
                +:+ pad4 (nrows df2 mod (100 * 100)))).
    now rewrite Ht, Hn.
Qed.

End WithEnv.

Lemma ensure_df_schema_idempotent_witness :
  exists df',
    @ensure_df_schema Sample.env legacy_table = Ok df'
    /\ @ensure_df_schema Sample.env df' = Ok df'.
Proof.
  destruct (@ensure_df_schema_idempotent Sample.env legacy_table
              (distinct_NoDup Sample.columns eq_refl)
              (distinct_NoDup (columns legacy_table) eq_refl))
    as (df' & H1 & _ & H2).
  exists df'. split; assumption.
Defined.

Lemma next_id_same_iff_witness :
  fst (next_id legacy_table legacy_disk)
  = fst (next_id legacy_table unreadable_disk).
Proof.
  apply (next_id_same_iff legacy_table legacy_table
           legacy_disk unreadable_disk eq_refl eq_refl).
  split; reflexivity.
Defined.

End StorageExtra.

(** ** More on the ledgers of [app/action_store.py] *)

Module LedgerExtra.
Import ActionStore JsonFacts ActionProps.

(** The dict a shaper starts from: its argument, or [{}] when that is not a
    dict. *)
Definition dict_of (j : json) : list (string * json) :=
  match j with JDict d => d | _ => [] end.

(** What [_ensure_actions_shape] and [_ensure_ncrs_shape] promise about the
    ledger [d] made from [j], for the list named [k]. *)
Definition shaped (k : string) (j : json) (d : list (string * json)) : Prop :=
  get k d = match lookup k (dict_of j) with
            | Some (JList l) => JList l
            | _ => JList []
            end
  /\ get "version" d = get_or "version" (JInt 1) (dict_of j)
  /\ (forall k', String.eqb k' k = false -> String.eqb k' "version" = false ->
        lookup k' d = lookup k' (dict_of j))
  /\ ensure_shape k (JDict d) = d.

Lemma ensure_shape_shaped k j :
  String.eqb k "version" = false -> shaped k j (ensure_shape k j).
Proof.
  intros Hk.
  assert (Hv : String.eqb "version" k = false) by (now rewrite String.eqb_sym).
  assert (Lv : lookup "version" (ensure_shape k j)
               = Some (get_or "version" (JInt 1) (dict_of j))).
  { unfold ensure_shape. fold (dict_of j).
    set (d1 := setdefault "version" (JInt 1) (dict_of j)).
    assert (L1 : lookup "version" (setdefault k (JList []) d1)
                 = Some (get_or "version" (JInt 1) (dict_of j))).
    { rewrite lookup_setdefault_ne by exact Hv. apply lookup_setdefault_eq. }
    destruct (is_list (get k (setdefault k (JList []) d1))); [exact L1|].
    now rewrite lookup_set_ne. }
  assert (G : get k (ensure_shape k j)
              = match lookup k (dict_of j) with
                | Some (JList l) => JList l
                | _ => JList []
                end) by (apply get_ensure_shape, Hk).
  split; [exact G|]. split; [unfold get; now rewrite Lv|].
  split; [intros k' E1 E2; now apply lookup_ensure_shape_other|].
  set (d := ensure_shape k j) in *.
  assert (Hkv : has_key "version" d = true) by (unfold has_key; now rewrite Lv).
  assert (Hkk : has_key k d = true).
  { unfold has_key. unfold get in G. destruct (lookup k d); [reflexivity|].
    destruct (lookup k (dict_of j)) as [[]|]; discriminate. }
  assert (Hl : is_list (get k d) = true).
  { rewrite G. destruct (lookup k (dict_of j)) as [[]|]; reflexivity. }
  unfold ensure_shape. cbn match.
  rewrite (setdefault_present _ _ _ Hkv), (setdefault_present _ _ _ Hkk).
  now rewrite Hl.
Qed.

(** X7.  The shapers give a ledger whose list is a list (the stored one when it
    was a list, the empty one otherwise) and whose version is set (the
    stored one, whatever it is, or 1); every other key is kept; and a shaped
    ledger is shaped again into itself. *)
Theorem ensure_shape_guarantees (j : json) :
  shaped "actions" j (_ensure_actions_shape j)
  /\ shaped "ncrs" j (_ensure_ncrs_shape j).
Proof. split; now apply ensure_shape_shaped. Qed.

Lemma ensure_shape_idem k j :
  String.eqb k "version" = false ->
  ensure_shape k (JDict (ensure_shape k j)) = ensure_shape k j.
Proof. intros Hk. now destruct (ensure_shape_shaped k j Hk) as (_ & _ & _ & ?). Qed.

(** X8.  The search loop shared by the two upserts and the two status setters
    stops at the first entry that carries the identifier: all the entries
    before it are objects that do not.  It finds nothing exactly when every
    entry is an object that does not carry it. *)
Theorem find_id_first_match (key : string) (id : json) (items : list json) :
  (forall i : nat,
     find_id key id items = Ok (Some i)
     <-> (exists a, items !! i = Some (JDict a) /\ py_eq (get key a) id = true)
         /\ forall j : nat, j < i ->
              exists b, items !! j = Some (JDict b)
                        /\ py_eq (get key b) id = false)
  /\ (find_id key id items = Ok None
      <-> forall (j : nat) x, items !! j = Some x ->
            exists b, x = JDict b /\ py_eq (get key b) id = false).
Proof.
  induction items as [|x rest [IHs IHn]].
  - split.
    + intros i. split; [discriminate|]. intros [(a & Ha & _) _]. discriminate.
    + split; [intros _ j x Hj; discriminate|reflexivity].
  - split.
    + intros i. destruct x as [|b0|z0|f0|s0|l|d];
        try (split; [discriminate|];
             intros [(a & Ha & _) Hb]; destruct i as [|i];
             [discriminate|];
             destruct (Hb 0 ltac:(lia)) as (b & Hb0 & _); discriminate).
      cbn [find_id]. destruct (py_eq (get key d) id) eqn:E.
      * split.
        -- intros [= <-]. split; [exists d; now split|]. intros j Hj. lia.
        -- intros [_ Hb]. destruct i as [|i]; [reflexivity|].
           destruct (Hb 0 ltac:(lia)) as (b & [= <-] & Hb0). congruence.
      * split.
        -- destruct (find_id key id rest) as [[i0|]|e] eqn:F; cbn; try discriminate.
           intros [= <-]. destruct (proj1 (IHs i0) eq_refl) as [Ha Hb].
           split; [exact Ha|]. intros [|j] Hj; [exists d; now split|].
           apply Hb. lia.
        -- intros [Ha Hb]. destruct i as [|i].
           ++ destruct Ha as (a & [= <-] & Ha). congruence.
           ++ assert (F : find_id key id rest = Ok (Some i)).
              { apply IHs. split; [exact Ha|]. intros j Hj.
                apply (Hb (S j)). lia. }
              rewrite F. reflexivity.
    + destruct x as [|b0|z0|f0|s0|l|d];
        try (split; [discriminate|];
             intros Hall; destruct (Hall 0 _ eq_refl) as (b & Hb & _);
             discriminate).
      cbn [find_id]. destruct (py_eq (get key d) id) eqn:E.
      * split; [discriminate|]. intros Hall.
        destruct (Hall 0 _ eq_refl) as (b & [= <-] & Hb). congruence.
      * split.
        -- destruct (find_id key id rest) as [[i0|]|e] eqn:F; cbn; try discriminate.
           intros _ [|j] y Hy.
           ++ injection Hy as <-. exists d. now split.
           ++ now apply (proj1 IHn eq_refl j).
        -- intros Hall.
           assert (F : find_id key id rest = Ok None).
           { apply IHn. intros j y Hy. now apply (Hall (S j)). }
           rewrite F. reflexivity.
Qed.

Lemma stored_files p k w1 w2 :
  files w1 = files w2 -> stored p k w1 = stored p k w2.
Proof. unfold stored, on_disk. now intros ->. Qed.

Lemma items_of_get k d :
  match lookup k d with Some (JList l) => l | _ => [] end = items_of (get k d).
Proof. unfold get. now destruct (lookup k d) as [[]|]. Qed.

Section WithEnv.
Context `{Env}.

Lemma load_after_save path obj dflt w :
  Storage.load_json path dflt (snd (Storage.save_json path obj w))
  = (Ok obj, snd (Storage.save_json path obj w)).
Proof.
  unfold Storage.load_json, Storage.save_json. cbn [snd files with_files].
  now rewrite lookup_insert_eq.
Qed.

(** X9.  What a ledger loader returns right after the matching save is the
    shaped form of what was saved, and nothing else changes on the way. *)
Theorem save_store_then_load (store : list (string * json)) (w : world) :
  (let w1 := snd (save_actions_store store w) in
   fst (save_actions_store store w) = Ok tt
   /\ load_actions_store w1 = (Ok (_ensure_actions_shape (JDict store)), w1))
  /\ (let w1 := snd (save_ncrs_store store w) in
      fst (save_ncrs_store store w) = Ok tt
      /\ load_ncrs_store w1 = (Ok (_ensure_ncrs_shape (JDict store)), w1)).
Proof.
  split; cbn zeta; (split; [reflexivity|]).
  - unfold load_actions_store, save_actions_store, bind.
    rewrite load_after_save. unfold ret, _ensure_actions_shape.
    now rewrite ensure_shape_idem.
  - unfold load_ncrs_store, save_ncrs_store, bind.
    rewrite load_after_save. unfold ret, _ensure_ncrs_shape.
    now rewrite ensure_shape_idem.
Qed.

(** The disk once [obj] has been written to [path], at clock count [tk]. *)
Definition rewritten (path : string) (obj : json) (tk : nat) (w : world)
  : world :=
  {| files := <[path := FJson obj]>
                (delete (path +:+ ".tmp")
                   (<[path +:+ ".tmp" := FJson obj]> (files w)));
     clock := clock w;
     ticks := tk |}.

(** The ledger a loader returns. *)
Definition ledger (path k : string) (w : world) : list (string * json) :=
  ensure_shape k (on_disk path k w).

(** The document a saver writes for the ledger with its list replaced. *)
Definition with_items (k : string) (items : list json)
  (store : list (string * json)) : json :=
  JDict (ensure_shape k (JDict (set k (JList items) store))).

Lemma stored_rewritten_items path k items tk w p k' :
  String.eqb k' "version" = false ->
  stored p k' (rewritten path (with_items k items (ledger path k w)) tk w)
  = if decide (p = path)
    then (if String.eqb k' k then items else stored p k' w)
    else if decide (p = path +:+ ".tmp") then [] else stored p k' w.
Proof.
  intros Hk.
  transitivity (stored p k' (saved path k "id" items [] w));
    [apply stored_files; reflexivity|now apply stored_saved].
Qed.

Lemma stored_rewritten_same path k tk w :
  String.eqb k "version" = false ->
  stored path k (rewritten path (JDict (ensure_shape k (JDict (ledger path k w)))) tk w)
  = stored path k w.
Proof.
  intros Hk. unfold ledger. rewrite (ensure_shape_idem k _ Hk).
  rewrite (stored_spec _ _ _ Hk). unfold rewritten. cbn [files].
  rewrite lookup_insert_eq. rewrite items_of_get. reflexivity.
Qed.

Lemma files_rewritten path obj tk w p :
  p <> path -> p <> path +:+ ".tmp" ->
  files (rewritten path obj tk w) !! p = files w !! p.
Proof.
  intros H1 H2. unfold rewritten. cbn [files].
  rewrite lookup_insert_ne by congruence.
  rewrite lookup_delete_ne by congruence.
  now rewrite lookup_insert_ne by congruence.
Qed.

(** The entry [set_action_status] leaves in place of [old]. *)
Definition closed_action (status : string) (closed_by : option string)
  (w : world) (old : list (string * json)) : list (string * json) :=
  let a := set "updated_at" (JStr (strftime_iso (clock w (ticks w))))
             (set "status" (JStr status) old) in
  if String.eqb status "Closed"
  then
    let a := set "closed_at" (JStr (strftime_iso (clock w (S (ticks w))))) a in
    match closed_by with
    | Some who => if nonempty who then set "closed_by" (JStr who) a else a
    | None => a
    end
  else a.

(** The entry [set_ncr_status] leaves in place of [old]. *)
Definition closed_ncr (status : string) (w : world)
  (old : list (string * json)) : list (string * json) :=
  let n := set "updated_at" (JStr (strftime_iso (clock w (ticks w))))
             (set "status" (JStr status) old) in
  if String.eqb status "Closed"
  then set "close_date" (JStr (strftime_date (clock w (S (ticks w))))) n
  else n.

Definition readings (status : string) (w : world) : nat :=
  if String.eqb status "Closed" then S (S (ticks w)) else S (ticks w).

Lemma load_json_on_disk path k w :
  Storage.load_json path (JDict [("version", JInt 1); (k, JList [])]) w
  = (Ok (on_disk path k w), w).
Proof.
  unfold Storage.load_json, on_disk.
  destruct (files w !! path) as [[]|]; reflexivity.
Qed.

Lemma set_action_status_run action_id status closed_by w :
  set_action_status action_id status closed_by w
  = match find_id "action_id" (JStr action_id) (stored ACTIONS_FILE "actions" w) with
    | Ok (Some i) =>
        (Ok tt,
         rewritten ACTIONS_FILE
           (with_items "actions"
              (<[i := JDict (closed_action status closed_by w
                               (entry_at i (stored ACTIONS_FILE "actions" w)))]>
                 (stored ACTIONS_FILE "actions" w))
              (ledger ACTIONS_FILE "actions" w))
           (readings status w) w)
    | Ok None =>
        (Ok tt,
         rewritten ACTIONS_FILE
           (JDict (ensure_shape "actions" (JDict (ledger ACTIONS_FILE "actions" w))))
           (ticks w) w)
    | Raise e => (Raise e, w)
    end.
Proof.
  unfold set_action_status, load_actions_store, _ensure_actions_shape.
  unfold bind at 1. unfold bind at 1. rewrite load_json_on_disk.
  unfold ret at 1. fold (ledger ACTIONS_FILE "actions" w).
  change (items_of (get "actions" (ledger ACTIONS_FILE "actions" w)))
    with (stored ACTIONS_FILE "actions" w).
  unfold bind at 1, lift at 1.
  destruct (find_id "action_id" (JStr action_id) (stored ACTIONS_FILE "actions" w))
    as [[i|]|e]; [| |now destruct w].
  - unfold closed_action, readings, rewritten, with_items.
    unfold bind, ret, now_iso, now, bind, ret, save_actions_store,
      _ensure_actions_shape, Storage.save_json, with_files.
    cbn [files clock ticks].
    destruct (String.eqb status "Closed"); [|reflexivity].
    destruct closed_by as [who|]; [destruct (nonempty who)|]; reflexivity.
  - unfold save_actions_store, _ensure_actions_shape, Storage.save_json,
      with_files, rewritten. reflexivity.
Qed.

Lemma set_ncr_status_run ncr_id status w :
  set_ncr_status ncr_id status w
  = match find_id "ncr_id" (JStr ncr_id) (stored NCRS_FILE "ncrs" w) with
    | Ok (Some i) =>
        (Ok tt,
         rewritten NCRS_FILE
           (with_items "ncrs"
              (<[i := JDict (closed_ncr status w
                               (entry_at i (stored NCRS_FILE "ncrs" w)))]>
                 (stored NCRS_FILE "ncrs" w))
              (ledger NCRS_FILE "ncrs" w))
           (readings status w) w)
    | Ok None =>
        (Ok tt,
         rewritten NCRS_FILE
           (JDict (ensure_shape "ncrs" (JDict (ledger NCRS_FILE "ncrs" w))))
           (ticks w) w)
    | Raise e => (Raise e, w)
    end.
Proof.
  unfold set_ncr_status, load_ncrs_store, _ensure_ncrs_shape.
  unfold bind at 1. unfold bind at 1. rewrite load_json_on_disk.
  unfold ret at 1. fold (ledger NCRS_FILE "ncrs" w).
  change (items_of (get "ncrs" (ledger NCRS_FILE "ncrs" w)))
    with (stored NCRS_FILE "ncrs" w).
  unfold bind at 1, lift at 1.
  destruct (find_id "ncr_id" (JStr ncr_id) (stored NCRS_FILE "ncrs" w))
    as [[i|]|e]; [| |now destruct w].
  - unfold closed_ncr, readings, rewritten, with_items.
    unfold bind, ret, now_iso, now, bind, ret, save_ncrs_store,
      _ensure_ncrs_shape, Storage.save_json, with_files.
    cbn [files clock ticks].
    destruct (String.eqb status "Closed"); reflexivity.
  - unfold save_ncrs_store, _ensure_ncrs_shape, Storage.save_json,
      with_files, rewritten. reflexivity.
Qed.

End WithEnv.

Section Upsert.
Context `{Env}.
Variables path list_key id_key prefix : string.
Variable defaults : string -> list (string * json) -> list (string * json).
Hypothesis list_key_ok : String.eqb list_key "version" = false.
Hypothesis defaults_keep :
  forall c k a, has_key k a = true -> has_key k (defaults c a) = true.

Lemma has_key_prepared rec w :
  has_key id_key (prepared id_key prefix defaults rec w) = true.
Proof.
  unfold prepared. apply defaults_keep.
  destruct (truthy (get id_key rec)) eqn:T.
  - unfold get in T. unfold has_key.
    destruct (lookup id_key rec); [reflexivity|discriminate].
  - now rewrite has_key_set, String.eqb_refl.
Qed.

Lemma files_saved items rec w p :
  p <> path -> p <> path +:+ ".tmp" ->
  files (saved path list_key id_key items rec w) !! p = files w !! p.
Proof.
  intros H1 H2. unfold saved. cbn [files].
  rewrite lookup_insert_ne by congruence.
  rewrite lookup_delete_ne by congruence.
  now rewrite lookup_insert_ne by congruence.
Qed.

Lemma files_upsert rec w p :
  p <> path -> p <> path +:+ ".tmp" ->
  files (snd (upsert path list_key id_key prefix defaults rec w)) !! p
  = files w !! p.
Proof.
  intros H1 H2. rewrite upsert_run.
  destruct (find_id id_key _ _) as [[i|]|e]; cbn [snd];
    [now apply files_saved|now apply files_saved|reflexivity].
Qed.

(** After an upsert the ledger holds an entry that agrees with the returned
    record on every key of the record, the update stamp apart. *)
Lemma upsert_stores rec w :
  all_dicts (stored path list_key w) ->
  exists out w' (i : nat) e,
    upsert path list_key id_key prefix defaults rec w = (Ok out, w')
    /\ stored path list_key w' !! i = Some (JDict e)
    /\ (forall k, String.eqb k "updated_at" = false ->
          has_key k out = true -> get k e = get k out)
    /\ get "updated_at" e = stamp id_key rec w
    /\ has_key id_key out = true.
Proof.
  intros Hs. rewrite upsert_run.
  destruct (find_id_total id_key
              (get id_key (prepared id_key prefix defaults rec w)) _ Hs)
    as [[i|] F]; rewrite F.
  - destruct (find_id_some _ _ _ _ F) as (old & Hold & _).
    eexists _, _, i, _. split; [reflexivity|].
    rewrite (stored_saved path list_key id_key path list_key _ _ _ list_key_ok).
    destruct (decide (path = path)) as [_|Hne]; [|congruence].
    rewrite String.eqb_refl.
    split; [apply list_lookup_insert_eq; eapply lookup_lt_Some; exact Hold|].
    split; [intros k Hk Hh; now rewrite get_set, Hk, get_merge, Hh|].
    split; [apply get_set_eq|apply has_key_prepared].
  - eexists _, _, (List.length (stored path list_key w)), _.
    split; [reflexivity|].
    rewrite (stored_saved path list_key id_key path list_key _ _ _ list_key_ok).
    destruct (decide (path = path)) as [_|Hne]; [|congruence].
    rewrite String.eqb_refl.
    split; [now apply list_lookup_middle|].
    split; [reflexivity|].
    split; [apply get_set_eq|].
    rewrite has_key_set, has_key_prepared. apply orb_true_r.
Qed.

End Upsert.

Section Status.
Context `{Env}.

Lemma action_defaults_keep c k a :
  has_key k a = true -> has_key k (action_defaults c a) = true.
Proof.
  intros Hk. unfold action_defaults.
  rewrite !has_key_setdefault_any, Hk. now rewrite !orb_true_r.
Qed.

Lemma ncr_defaults_keep c k a :
  has_key k a = true -> has_key k (ncr_defaults c a) = true.
Proof.
  intros Hk. unfold ncr_defaults.
  rewrite !has_key_setdefault_any, Hk. now rewrite !orb_true_r.
Qed.

(** X10.  On a ledger whose entries are all objects, what [upsert_action] and
    [upsert_ncr] return is what they store: the ledger written back has an
    entry that agrees with the returned record on each of its keys other
    than [updated_at], carries the update stamp, and so has the record's
    identifier. *)
Theorem upsert_stores_what_it_returns (rec : list (string * json)) (w : world) :
  (all_dicts (stored ACTIONS_FILE "actions" w) ->
   exists out w' (i : nat) e,
     upsert_action rec w = (Ok out, w')
     /\ stored ACTIONS_FILE "actions" w' !! i = Some (JDict e)
     /\ (forall k, String.eqb k "updated_at" = false ->
           has_key k out = true -> get k e = get k out)
     /\ get "updated_at" e = stamp "action_id" rec w
     /\ has_key "action_id" out = true)
  /\ (all_dicts (stored NCRS_FILE "ncrs" w) ->
      exists out w' (i : nat) e,
        upsert_ncr rec w = (Ok out, w')
        /\ stored NCRS_FILE "ncrs" w' !! i = Some (JDict e)
        /\ (forall k, String.eqb k "updated_at" = false ->
              has_key k out = true -> get k e = get k out)
        /\ get "updated_at" e = stamp "ncr_id" rec w
        /\ has_key "ncr_id" out = true).
Proof.
  split; intros Hs.
  - rewrite upsert_action_generic.
    now apply (upsert_stores ACTIONS_FILE "actions" "action_id" "A"
                 action_defaults eq_refl action_defaults_keep).
  - rewrite upsert_ncr_generic.
    now apply (upsert_stores NCRS_FILE "ncrs" "ncr_id" "NCR"
                 ncr_defaults eq_refl ncr_defaults_keep).
Qed.

(** X11.  The writers of a ledger leave every file but their own (and its
    temporary twin) as it was, whether they end normally or raise. *)
Theorem ledger_writers_touch_only_their_file (p : string) (w : world) :
  (p <> ACTIONS_FILE -> p <> ACTIONS_FILE +:+ ".tmp" ->
   (forall action, files (snd (upsert_action action w)) !! p = files w !! p)
   /\ (forall action_id status closed_by,
         files (snd (set_action_status action_id status closed_by w)) !! p
         = files w !! p))
  /\ (p <> NCRS_FILE -> p <> NCRS_FILE +:+ ".tmp" ->
      (forall ncr, files (snd (upsert_ncr ncr w)) !! p = files w !! p)
      /\ (forall ncr_id status,
            files (snd (set_ncr_status ncr_id status w)) !! p = files w !! p)).
Proof.
  split; intros H1 H2; split.
  - intros action. rewrite upsert_action_generic. now apply files_upsert.
  - intros action_id status closed_by. rewrite set_action_status_run.
    destruct (find_id "action_id" _ _) as [[i|]|e]; cbn [snd];
      [now apply files_rewritten|now apply files_rewritten|reflexivity].
  - intros ncr. rewrite upsert_ncr_generic. now apply files_upsert.
  - intros ncr_id status. rewrite set_ncr_status_run.
    destruct (find_id "ncr_id" _ _) as [[i|]|e]; cbn [snd];
      [now apply files_rewritten|now apply files_rewritten|reflexivity].
Qed.

Lemma get_closed_action k status closed_by w old :
  get k (closed_action status closed_by w old)
  = if String.eqb status "Closed" && String.eqb k "closed_by"
       && match closed_by with Some who => nonempty who | None => false end
    then match closed_by with Some who => JStr who | None => JNull end
    else if String.eqb status "Closed" && String.eqb k "closed_at"
    then JStr (strftime_iso (clock w (S (ticks w))))
    else if String.eqb k "updated_at"
    then JStr (strftime_iso (clock w (ticks w)))
    else if String.eqb k "status" then JStr status
    else get k old.
Proof.
  unfold closed_action.
  destruct (String.eqb status "Closed");
    [destruct closed_by as [who|]; [destruct (nonempty who)|]|];
    rewrite !get_set;
    destruct (String.eqb k "closed_by"), (String.eqb k "closed_at");
    reflexivity.
Qed.

Lemma get_closed_ncr k status w old :
  get k (closed_ncr status w old)
  = if String.eqb status "Closed" && String.eqb k "close_date"
    then JStr (strftime_date (clock w (S (ticks w))))
    else if String.eqb k "updated_at"
    then JStr (strftime_iso (clock w (ticks w)))
    else if String.eqb k "status" then JStr status
    else get k old.
Proof.
  unfold closed_ncr.
  destruct (String.eqb status "Closed"); rewrite !get_set;
    destruct (String.eqb k "close_date"); reflexivity.
Qed.

(** X12.  [set_action_status] changes the first entry that carries the
    identifier, in place: the status, the update stamp and, when the new
    status is [Closed], the closing time and (if one is named) the closing
    user; every other field of the entry, every other entry and the length
    of the list stay.  A status other than [Closed] leaves an earlier
    [closed_at] and [closed_by] where they are.  When no entry carries the
    identifier the list is written back as it was and the clock is not
    read; when the search meets an entry that is not an object before any
    match, the call raises and nothing is written. *)
Theorem set_action_status_changes_first_match
  (action_id status : string) (closed_by : option string) (w : world) :
  let before := stored ACTIONS_FILE "actions" w in
  match find_id "action_id" (JStr action_id) before with
  | Ok (Some i) =>
      exists old new w',
        set_action_status action_id status closed_by w = (Ok tt, w')
        /\ before !! i = Some (JDict old)
        /\ stored ACTIONS_FILE "actions" w' = <[i := JDict new]> before
        /\ List.length (stored ACTIONS_FILE "actions" w') = List.length before
        /\ (forall k,
              get k new
              = if String.eqb status "Closed" && String.eqb k "closed_by"
                   && match closed_by with
                      | Some who => nonempty who
                      | None => false
                      end
                then match closed_by with Some who => JStr who | None => JNull end
                else if String.eqb status "Closed" && String.eqb k "closed_at"
                then JStr (strftime_iso (clock w (S (ticks w))))
                else if String.eqb k "updated_at"
                then JStr (strftime_iso (clock w (ticks w)))
                else if String.eqb k "status" then JStr status
                else get k old)
        /\ ticks w' = (if String.eqb status "Closed" then 2 else 1) + ticks w
  | Ok None =>
      exists w',
        set_action_status action_id status closed_by w = (Ok tt, w')
        /\ stored ACTIONS_FILE "actions" w' = before
        /\ ticks w' = ticks w
  | Raise e =>
      set_action_status action_id status closed_by w = (Raise e, w)
  end.
Proof.
  intros before. rewrite set_action_status_run. fold before.
  destruct (find_id "action_id" (JStr action_id) before) as [[i|]|e] eqn:F;
    [| |reflexivity].
  - destruct (find_id_some _ _ _ _ F) as (old & Hold & _).
    eexists old, _, _. split; [reflexivity|]. split; [exact Hold|].
    rewrite (stored_rewritten_items ACTIONS_FILE "actions" _ _ w
               ACTIONS_FILE "actions" eq_refl).
    destruct (decide (ACTIONS_FILE = ACTIONS_FILE)) as [_|Hne]; [|congruence].
    cbn [String.eqb Ascii.eqb Bool.eqb].
    split; [reflexivity|]. split; [apply length_insert|].
    split.
    + intros k. rewrite get_closed_action. unfold entry_at. fold before.
      now rewrite Hold.
    + unfold rewritten, readings. cbn [ticks].
      now destruct (String.eqb status "Closed").
  - eexists. split; [reflexivity|].
    split; [now apply stored_rewritten_same|reflexivity].
Qed.

(** X13.  [set_ncr_status] does the same on the NCR ledger: the first entry with
    the identifier gets the status, the update stamp and, when the new
    status is [Closed], the closing date; nothing else changes.  An unknown
    identifier leaves the list as it was. *)
Theorem set_ncr_status_changes_first_match
  (ncr_id status : string) (w : world) :
  let before := stored NCRS_FILE "ncrs" w in
  match find_id "ncr_id" (JStr ncr_id) before with
  | Ok (Some i) =>
      exists old new w',
        set_ncr_status ncr_id status w = (Ok tt, w')
        /\ before !! i = Some (JDict old)
        /\ stored NCRS_FILE "ncrs" w' = <[i := JDict new]> before
        /\ List.length (stored NCRS_FILE "ncrs" w') = List.length before
        /\ (forall k,
              get k new
              = if String.eqb status "Closed" && String.eqb k "close_date"
                then JStr (strftime_date (clock w (S (ticks w))))
                else if String.eqb k "updated_at"
                then JStr (strftime_iso (clock w (ticks w)))
                else if String.eqb k "status" then JStr status
                else get k old)
        /\ ticks w' = (if String.eqb status "Closed" then 2 else 1) + ticks w
  | Ok None =>
      exists w',
        set_ncr_status ncr_id status w = (Ok tt, w')
        /\ stored NCRS_FILE "ncrs" w' = before
        /\ ticks w' = ticks w
  | Raise e => set_ncr_status ncr_id status w = (Raise e, w)
  end.
Proof.
  intros before. rewrite set_ncr_status_run. fold before.
  destruct (find_id "ncr_id" (JStr ncr_id) before) as [[i|]|e] eqn:F;
    [| |reflexivity].
  - destruct (find_id_some _ _ _ _ F) as (old & Hold & _).
    eexists old, _, _. split; [reflexivity|]. split; [exact Hold|].
    rewrite (stored_rewritten_items NCRS_FILE "ncrs" _ _ w
               NCRS_FILE "ncrs" eq_refl).
    destruct (decide (NCRS_FILE = NCRS_FILE)) as [_|Hne]; [|congruence].
    cbn [String.eqb Ascii.eqb Bool.eqb].
    split; [reflexivity|]. split; [apply length_insert|].
    split.
    + intros k. rewrite get_closed_ncr. unfold entry_at. fold before.
      now rewrite Hold.
    + unfold rewritten, readings. cbn [ticks].
      now destruct (String.eqb status "Closed").
  - eexists. split; [reflexivity|].
    split; [now apply stored_rewritten_same|reflexivity].
Qed.

End Status.

(** The order of [sorted] on strings. *)
Definition str_le (a b : string) : Prop := String.leb a b = true.

Lemma compare_le_trans a : forall b c,
  String.compare a b <> Gt -> String.compare b c <> Gt ->
  String.compare a c <> Gt.
Proof.
  induction a as [|x a IH]; intros [|y b] [|z c]; cbn [String.compare];
    try congruence.
  destruct (Ascii.compare x y) eqn:E1; try congruence;
    destruct (Ascii.compare y z) eqn:E2; try congruence.
  - apply Ascii.compare_eq_iff in E1, E2. subst y z.
    assert (Hx : Ascii.compare x x = Eq) by (unfold Ascii.compare; apply N.compare_refl).
    rewrite Hx. apply IH.
  - apply Ascii.compare_eq_iff in E1. subst y. rewrite E2. congruence.
  - apply Ascii.compare_eq_iff in E2. subst z. rewrite E1. congruence.
  - assert (Hx : Ascii.compare x z = Lt).
    { unfold Ascii.compare in *. apply N.compare_lt_iff.
      apply N.compare_lt_iff in E1. apply N.compare_lt_iff in E2.
      eapply N.lt_trans; eassumption. }
    rewrite Hx. congruence.
Qed.

Lemma str_le_trans a b c : str_le a b -> str_le b c -> str_le a c.
Proof.
  unfold str_le, String.leb. intros H1 H2.
  pose proof (compare_le_trans a b c) as Ht.
  destruct (String.compare a b); try discriminate;
    destruct (String.compare b c); try discriminate;
    destruct (String.compare a c); try reflexivity;
    exfalso; apply Ht; congruence.
Qed.

Lemma insert_sorted_perm x l :
  Permutation (Builtins.insert_sorted x l) (x :: l).
Proof.
  induction l as [|y r IH]; cbn; [reflexivity|].
  destruct (String.leb x y); [reflexivity|].
  rewrite IH. apply perm_swap.
Qed.

Lemma sorted_perm l : Permutation (Builtins.sorted l) l.
Proof.
  induction l as [|x r IH]; cbn; [reflexivity|].
  rewrite insert_sorted_perm. now rewrite IH.
Qed.

Lemma insert_sorted_ascending x l :
  StronglySorted str_le l -> StronglySorted str_le (Builtins.insert_sorted x l).
Proof.
  induction 1 as [|y r Hr IH Hy]; cbn.
  - constructor; constructor.
  - destruct (String.leb x y) eqn:E.
    + constructor; [now constructor|].
      constructor; [exact E|].
      eapply List.Forall_impl; [|exact Hy].
      intros z Hz. now apply (str_le_trans x y z).
    + constructor; [exact IH|].
      rewrite insert_sorted_perm.
      constructor; [|exact Hy].
      destruct (String.leb_total x y) as [Hxy|Hyx]; [congruence|exact Hyx].
Qed.

Lemma sorted_ascending l : StronglySorted str_le (Builtins.sorted l).
Proof.
  induction l as [|x r IH]; cbn; [constructor|].
  now apply insert_sorted_ascending.
Qed.

Section Users.
Context `{Env}.

(** X14.  [list_usernames] returns the keys of the user map in ascending order,
    each once per binding; with no readable users file, or with a file that
    holds an empty or false value, it returns the empty list; with a file
    that holds anything else that is not an object (a number, a string, a
    non-empty list) it raises. *)
Theorem list_usernames_sorted (w : world) :
  match files w !! USERS_FILE with
  | Some (FJson (JDict d)) =>
      exists names,
        list_usernames w = (Ok names, w)
        /\ Permutation names (map fst d)
        /\ StronglySorted str_le names
  | Some (FJson raw) =>
      if truthy raw then list_usernames w = (Raise AttributeError, w)
      else list_usernames w = (Ok [], w)
  | _ => list_usernames w = (Ok [], w)
  end.
Proof.
  unfold list_usernames, get_users_map, bind, Storage.load_json.
  destruct (files w !! USERS_FILE) as [[raw|df|b]|]; try reflexivity.
  destruct raw as [|b0|z0|f0|s0|l|d]; unfold ret, users_map_of, por, lift.
  - reflexivity.
  - destruct (truthy (JBool b0)); reflexivity.
  - destruct (truthy (JInt z0)); reflexivity.
  - destruct (truthy (JFloat f0)); reflexivity.
  - destruct (truthy (JStr s0)); reflexivity.
  - destruct (truthy (JList l)); reflexivity.
  - exists (Builtins.sorted (map fst d)).
    split; [destruct d; reflexivity|].
    split; [apply sorted_perm|apply sorted_ascending].
Qed.

End Users.

(** The outcomes on concrete ledgers: closing an action stamps it; an
    unknown identifier changes nothing. *)
Definition open_ledger : world :=
  Sample.world_of
    [("data/actions.json",
      FJson (JDict [("version", JInt 1);
                    ("actions",
                     JList [JDict [("action_id", JStr "A-1");
                                   ("status", JStr "Open")];
                            JDict [("action_id", JStr "A-2");
                                   ("status", JStr "Open")]])]))]
    Sample.ticking.

Lemma upsert_stores_what_it_returns_witness :
  exists out w' (i : nat) e,
    @upsert_action Sample.env [("action_id", JStr "A-2"); ("title", JStr "Burr")]
      open_ledger = (Ok out, w')
    /\ stored "data/actions.json" "actions" w' !! i = Some (JDict e)
    /\ get "title" e = get "title" out.
Proof.
  destruct (proj1 (@upsert_stores_what_it_returns Sample.env
                     [("action_id", JStr "A-2"); ("title", JStr "Burr")]
                     open_ledger) eq_refl)
    as (out & w' & i & e & Hrun & He & Hk & _ & _).
  exists out, w', i, e. split; [exact Hrun|]. split; [exact He|].
  apply Hk; [reflexivity|].
  assert (Hout : fst (@upsert_action Sample.env
                        [("action_id", JStr "A-2"); ("title", JStr "Burr")]
                        open_ledger) = Ok out) by (now rewrite Hrun).
  vm_compute in Hout. injection Hout as <-. reflexivity.
Defined.

Lemma ledger_writers_touch_only_their_file_witness :
  files (snd (@set_action_status Sample.env "A-1" "Closed" (Some "tess")
                open_ledger)) !! "data/ncrs.json"
  = files open_ledger !! "data/ncrs.json".
Proof.
  apply (proj1 (@ledger_writers_touch_only_their_file Sample.env
                  "data/ncrs.json" open_ledger));
    [vm_compute; discriminate|vm_compute; discriminate].
Defined.

End LedgerExtra.

(** ** More on the normalisers of [app/ui_master_data.py] *)

Module MasterDataExtra.
Import MasterData PyFacts JsonFacts MasterDataProps.

(** The list the loop of [_normalize_parts_store] walks. *)
Definition raw_parts (store : json) : list json :=
  match store with
  | JList l => l
  | JDict d =>
      let d := if negb (has_key "parts" d) && is_list (get "data" d)
               then [("parts", get "data" d)] else d in
      match get_or "parts" (JList []) d with JList l => l | _ => [] end
  | _ => []
  end.

(** The value whose [strip] gives the part number of an object item: the
    first truthy one among its three spellings, or the empty string. *)
Definition number_field (d : list (string * json)) : json :=
  por (get "part_number" d) (por (get "pn" d) (por (get "part" d) (JStr ""))).

(** A value on which [(v or "").strip()] raises: truthy and not a string. *)
Definition unstrippable (v : json) : bool := truthy v && negb (is_str v).

(** An item on which the loop raises. *)
Definition bad_item (item : json) : bool :=
  match item with
  | JDict d => unstrippable (number_field d) || unstrippable (get "name" d)
  | _ => false
  end.

Lemma strip_method_raises v :
  match strip_method v with
  | Ok _ => is_str v = true
  | Raise e => e = AttributeError /\ is_str v = false
  end.
Proof. destruct v; cbn; auto. Qed.

Lemma unstrippable_por v :
  is_str (por v (JStr "")) = negb (unstrippable v).
Proof.
  unfold por, unstrippable. destruct (truthy v) eqn:T; [|reflexivity].
  cbn. now rewrite negb_involutive.
Qed.

Lemma number_field_str d :
  is_str (number_field d) = negb (unstrippable (number_field d)).
Proof.
  unfold number_field, unstrippable, por.
  destruct (truthy (get "part_number" d)) eqn:T1.
  - rewrite T1. cbn. now rewrite negb_involutive.
  - destruct (truthy (get "pn" d)) eqn:T2.
    + rewrite T2. cbn. now rewrite negb_involutive.
    + destruct (truthy (get "part" d)) eqn:T3.
      * rewrite T3. cbn. now rewrite negb_involutive.
      * reflexivity.
Qed.

Lemma clean_part_item_cases acc item :
  match clean_part_item acc item with
  | Ok out => bad_item item = false /\ List.length out <= S (List.length acc)
  | Raise e => e = AttributeError /\ bad_item item = true
  end.
Proof.
  destruct item as [|b0|z0|f0|s0|l|d]; cbn [clean_part_item bad_item];
    try (split; [reflexivity|lia]).
  - split; [reflexivity|]. rewrite length_app. cbn. lia.
  - fold (number_field d).
    pose proof (strip_method_raises (number_field d)) as H1.
    pose proof (number_field_str d) as E1.
    destruct (strip_method (number_field d)) as [pn|e]; cbn [rbind].
    + rewrite H1 in E1. symmetry in E1. apply negb_true_iff in E1.
      rewrite E1. cbn [orb].
      pose proof (strip_method_raises (por (get "name" d) (JStr ""))) as H2.
      pose proof (unstrippable_por (get "name" d)) as E2.
      destruct (strip_method (por (get "name" d) (JStr ""))) as [nm|e];
        cbn [rbind].
      * rewrite H2 in E2. symmetry in E2. apply negb_true_iff in E2.
        split; [exact E2|]. rewrite length_app. cbn. lia.
      * destruct H2 as [-> H2]. rewrite H2 in E2. symmetry in E2.
        apply negb_false_iff in E2. now split.
    + destruct H1 as [-> H1]. rewrite H1 in E1. symmetry in E1.
      apply negb_false_iff in E1. rewrite E1. now split.
Qed.

Lemma rfold_clean_cases parts : forall acc,
  match rfold clean_part_item acc parts with
  | Ok out =>
      existsb bad_item parts = false
      /\ List.length out <= List.length acc + List.length parts
  | Raise e => e = AttributeError /\ existsb bad_item parts = true
  end.
Proof.
  induction parts as [|item rest IH]; intros acc; cbn [rfold existsb].
  - split; [reflexivity|cbn; lia].
  - pose proof (clean_part_item_cases acc item) as Hc.
    destruct (clean_part_item acc item) as [acc'|e]; cbn [rbind].
    + destruct Hc as [Hb Hl]. rewrite Hb. cbn [orb].
      specialize (IH acc').
      destruct (rfold clean_part_item acc' rest) as [out|e].
      * destruct IH as [Hr Hlen]. split; [exact Hr|]. cbn [List.length]. lia.
      * exact IH.
    + destruct Hc as [-> Hb]. rewrite Hb. now split.
Qed.

Lemma filter_length_le {A} (f : A -> bool) l :
  List.length (List.filter f l) <= List.length l.
Proof.
  induction l as [|x r IH]; cbn; [lia|]. destruct (f x); cbn; lia.
Qed.

Lemma parts_store_raw store :
  _normalize_parts_store store
  = rbind (rfold clean_part_item [] (raw_parts store))
      (fun cleaned => Ok (JDict [("parts", JList (List.filter kept cleaned))])).
Proof.
  rewrite parts_store_cases.
  destruct store as [|b0|z0|f0|s0|l|d]; try reflexivity.
Qed.

(** X15.  [_normalize_parts_store] raises exactly when the list it walks holds an
    object whose part number or name is truthy without being a string (a
    number, say), and then the exception is [AttributeError]; otherwise it
    returns a store with at most one part per raw item.  So a parts file
    with a numeric part number cannot be loaded. *)
Theorem parts_store_raises_on_bad_items (store : json) :
  match _normalize_parts_store store with
  | Ok out =>
      existsb bad_item (raw_parts store) = false
      /\ exists l, out = JDict [("parts", JList l)]
                   /\ List.length l <= List.length (raw_parts store)
  | Raise e =>
      e = AttributeError /\ existsb bad_item (raw_parts store) = true
  end
  /\ forall d z, get "part_number" d = JInt z -> z <> 0%Z ->
       bad_item (JDict d) = true.
Proof.
  split.
  - rewrite parts_store_raw.
    pose proof (rfold_clean_cases (raw_parts store) []) as Hc.
    destruct (rfold clean_part_item [] (raw_parts store)) as [cleaned|e];
      cbn [rbind]; [|exact Hc].
    destruct Hc as [Hb Hl]. split; [exact Hb|].
    eexists. split; [reflexivity|].
    pose proof (filter_length_le kept cleaned). cbn [List.length] in Hl. lia.
  - intros d z Hd Hz. cbn [bad_item]. unfold number_field, por.
    assert (Ht : truthy (JInt z) = true) by (destruct z; [congruence|reflexivity..]).
    rewrite Hd, Ht. unfold unstrippable. rewrite Ht. reflexivity.
Qed.

(** X16.  [_normalize_tool_store] always returns an object whose [tools] is an
    object; a store that has one already comes back unchanged, any other
    object becomes the tool map itself (so a wrong-typed [tools] entry turns
    into a tool of that name), and anything else gives the empty map. *)
Theorem tool_store_tools_is_dict (store : json) :
  exists d,
    _normalize_tool_store store = JDict d
    /\ is_dict (get "tools" d) = true
    /\ (forall d0, store = JDict d0 ->
          (is_dict (get "tools" d0) = true -> d = d0)
          /\ (is_dict (get "tools" d0) = false -> get "tools" d = store))
    /\ (is_dict store = false -> get "tools" d = JDict []).
Proof.
  destruct store as [|b0|z0|f0|s0|l|d0]; cbn [_normalize_tool_store];
    try (eexists; split; [reflexivity|]; split; [reflexivity|];
         split; [intros d1 [=]|reflexivity]).
  destruct (has_key "tools" d0 && is_dict (get "tools" d0)) eqn:E.
  - apply andb_prop in E as [_ E].
    exists d0. split; [reflexivity|]. split; [exact E|].
    split; [|discriminate].
    intros d1 [= <-]. split; [reflexivity|congruence].
  - eexists. split; [reflexivity|]. split; [reflexivity|].
    split; [|discriminate].
    intros d1 [= <-]. split; [|reflexivity].
    intros Hd. apply andb_false_iff in E as [E|E]; [|congruence].
    unfold has_key in E. unfold get in Hd.
    destruct (lookup "tools" d0); discriminate.
Qed.

End MasterDataExtra.

(** ** More on the approval screens *)

Module WorkflowExtra.
Import Workflow Storage FrameFacts StorageProps WorkflowProps.

Lemma positions_from_all_false mask : forall s,
  (forall b, In b mask -> b = false) -> positions_from s mask = [].
Proof.
  induction mask as [|b r IH]; intros s Hall; cbn; [reflexivity|].
  rewrite (Hall b (or_introl eq_refl)). apply IH.
  intros b' Hb'. apply Hall. now right.
Qed.

(** The cells [df[mask]] keeps are cells at which the mask holds. *)
Lemma keep_In mask : forall cells x,
  In x (keep mask cells) ->
  exists i : nat, mask !! i = Some true /\ cells !! i = Some x.
Proof.
  induction mask as [|b m IH]; intros [|y r] x; cbn; try (now intros []).
  destruct b.
  - intros [<-|Hin].
    + exists 0. now split.
    + destruct (IH r x Hin) as (i & Hm & Hc). exists (S i). now split.
  - intros Hin. destruct (IH r x Hin) as (i & Hm & Hc). exists (S i). now split.
Qed.

Lemma column_select_rows c mask df :
  column c (cols (select_rows mask df))
  = option_map (keep mask) (column c (cols df)).
Proof.
  unfold select_rows. cbn [cols].
  induction (cols df) as [|[c' v'] r IH]; cbn; [reflexivity|].
  destruct (String.eqb c c'); [reflexivity|exact IH].
Qed.

(** A row outside the selection keeps its cell under [df.loc[idx, c'] = v]. *)
Lemma loc_set_other_row idx c' v df c cells0 (i : nat) :
  column c (cols df) = Some cells0 ->
  existsb (Nat.eqb i) idx = false ->
  exists cells,
    column c (cols (loc_set idx c' v df)) = Some cells
    /\ cells !! i = cells0 !! i.
Proof.
  intros Hc Hx. rewrite column_loc_set.
  destruct (String.eqb c c') eqn:E.
  - apply String.eqb_eq in E. subst c'. rewrite Hc.
    eexists. split; [reflexivity|].
    rewrite lookup_put_rows, Hx. now destruct (cells0 !! i).
  - exists cells0. now split.
Qed.

Section WithEnv.
Context `{Env}.

(** The course of a transition on a workbook in which the identifier
    occurs, with the table it shows afterwards. *)
Lemma stamp_selected_full flag ucol tcol sel_id user fn w df0 ids :
  files w !! resolved fn w = Some (FBook df0) ->
  nonempty sel_id = true ->
  column "ID" (cols df0) = Some ids ->
  In true (id_mask sel_id ids) ->
  nonempty (OsPath.basename (resolved fn w)) = true ->
  exists cells w',
    column flag
      (cols (stamped flag ucol tcol (index_where (id_mask sel_id ids)) user
               (clock w (ticks (after_resolve fn w))) (conform (conform df0))))
    = Some cells
    /\ stamp_selected flag ucol tcol sel_id user fn w
       = (Ok (Refreshed
                (select_rows (pending_mask cells)
                   (conform (conform (conform
                      (stamped flag ucol tcol (index_where (id_mask sel_id ids))
                         user (clock w (ticks (after_resolve fn w)))
                         (conform (conform df0)))))))), w')
    /\ files w' !! OsPath.join DATA_DIR (OsPath.basename (resolved fn w))
       = Some (FBook
                 (conform (conform
                    (stamped flag ucol tcol (index_where (id_mask sel_id ids))
                       user (clock w (ticks (after_resolve fn w)))
                       (conform (conform df0)))))).
Proof.
  intros Hf Hsel Hid Hin Hbase.
  unfold stamp_selected. rewrite Hsel. cbn [negb].
  unfold bind at 1. rewrite (get_df_book fn w df0 Hf). cbn [fst snd].
  assert (Hids : getitem "ID" (conform (conform df0)) = Ok ids).
  { unfold getitem.
    now rewrite (conform_column_some _ _ ids (conform_column_some _ _ ids Hid)). }
  unfold bind at 1, lift at 1. rewrite Hids.
  set (idx := index_where (id_mask sel_id ids)).
  assert (Hidx : (List.length idx =? 0)%nat = false).
  { apply Nat.eqb_neq. intros Hz. apply length_zero_iff_nil in Hz.
    apply list_elem_of_In, list_elem_of_lookup in Hin as [i Hi].
    assert (He := existsb_index_where i (id_mask sel_id ids)).
    fold idx in He. rewrite Hz in He. cbn in He.
    rewrite Hi in He. discriminate. }
  rewrite Hidx.
  unfold bind at 1, now at 1. cbn [files clock ticks with_files].
  rewrite clock_after_resolve.
  fold (stamped flag ucol tcol idx user
          (clock w (ticks (after_resolve fn w))) (conform (conform df0))).
  set (st := stamped _ _ _ _ _ _ _).
  unfold bind at 1. rewrite save_df_run.
  set (b := OsPath.basename (resolved fn w)) in *.
  unfold resolved at 1. rewrite Hbase.
  unfold bind at 1, load_pending, bind at 1.
  set (w3 := with_files _ _).
  assert (Hr3 : resolved (Some b) w3 = OsPath.join DATA_DIR b)
    by (unfold resolved; now rewrite Hbase).
  assert (Hw3 : files w3 !! resolved (Some b) w3 = Some (FBook (conform st))).
  { rewrite Hr3. unfold w3. cbn [files with_files]. apply lookup_insert_eq. }
  rewrite (get_df_book (Some b) w3 (conform st) Hw3). cbn [fst snd].
  destruct (column_stamped_flag flag ucol tcol idx user
              (clock w (ticks (after_resolve fn w))) (conform (conform df0)))
    as [cells Hcells]. fold st in Hcells.
  assert (Hg : getitem flag (conform (conform (conform st))) = Ok cells).
  { unfold getitem.
    now rewrite (conform_column_some _ _ cells
                   (conform_column_some _ _ cells
                      (conform_column_some _ _ cells Hcells))). }
  unfold bind, lift, ret. rewrite Hg.
  exists cells. eexists. split; [exact Hcells|]. split; [reflexivity|].
  cbn [files with_files]. rewrite Hr3. apply lookup_insert_eq.
Qed.

(** X17.  With nothing selected a transition warns and touches nothing at all.
    With an identifier that no row of the month workbook carries it ends in
    [NotFound], and the disk and the clock are as [get_df] alone leaves
    them: nothing is stamped and the clock is not read for a stamp. *)
Theorem transition_without_match_writes_nothing
  (st : stage) (sel_id user : string) (fn : option string) (w : world)
  (df0 : DataFrame) (ids : list cell)
  (Hbook : files w !! resolved fn w = Some (FBook df0))
  (Hids : column "ID" (cols df0) = Some ids)
  (Hnone : forall c, In c ids -> astype_str c <> sel_id) :
  transition st "" user fn w = (Ok Warned, w)
  /\ (nonempty sel_id = true ->
      exists r w1,
        get_df fn w = (Ok r, w1)
        /\ transition st sel_id user fn w = (Ok NotFound, w1)).
Proof.
  rewrite transition_shape. split; [reflexivity|].
  intros Hsel. eexists _, _.
  split; [apply (get_df_book fn w df0 Hbook)|].
  unfold stamp_selected. rewrite Hsel. cbn [negb].
  unfold bind at 1. rewrite (get_df_book fn w df0 Hbook). cbn [fst snd].
  assert (Hg : getitem "ID" (conform (conform df0)) = Ok ids).
  { unfold getitem.
    now rewrite (conform_column_some _ _ ids (conform_column_some _ _ ids Hids)). }
  unfold bind at 1, lift at 1. rewrite Hg.
  assert (Hidx : index_where (id_mask sel_id ids) = []).
  { apply positions_from_all_false. intros b Hb.
    unfold id_mask in Hb. apply in_map_iff in Hb as (c & <- & Hc).
    apply String.eqb_neq. now apply Hnone. }
  rewrite Hidx. reflexivity.
Qed.

Lemma not_selected sel_id ids (i : nat) cell :
  ids !! i = Some cell -> astype_str cell <> sel_id ->
  existsb (Nat.eqb i) (index_where (id_mask sel_id ids)) = false.
Proof.
  intros Hrow Hne. rewrite existsb_index_where.
  unfold id_mask. rewrite list_lookup_fmap, Hrow. cbn.
  now apply String.eqb_neq.
Qed.

(** X18.  A transition changes the selected rows only: in the table written
    back, a row whose identifier is not the selected one has every cell it
    had in the loaded table, the three approval cells of the stage
    included. *)
Theorem transition_leaves_other_rows
  (st : stage) (sel_id user : string) (fn : option string) (w : world)
  (df0 : DataFrame) (ids : list cell)
  (Hbook : files w !! resolved fn w = Some (FBook df0))
  (Hname : nonempty (OsPath.basename (resolved fn w)) = true)
  (Hsel : nonempty sel_id = true)
  (Hids : column "ID" (cols df0) = Some ids)
  (Hfound : exists (i : nat) cell,
              ids !! i = Some cell /\ astype_str cell = sel_id) :
  exists loaded w1 pending w' saved,
    get_df fn w = (Ok (loaded, OsPath.basename (resolved fn w)), w1)
    /\ transition st sel_id user fn w = (Ok (Refreshed pending), w')
    /\ files w' !! OsPath.join DATA_DIR (OsPath.basename (resolved fn w))
        = Some (FBook saved)
    /\ forall (i : nat) cell c cells0,
         ids !! i = Some cell -> astype_str cell <> sel_id ->
         column c (cols loaded) = Some cells0 ->
         exists cells,
           column c (cols saved) = Some cells /\ cells !! i = cells0 !! i.
Proof.
  destruct Hfound as (i0 & cell0 & Hrow0 & Hmatch0).
  destruct (selected_row _ _ _ _ Hrow0 Hmatch0) as [_ Hin].
  rewrite transition_shape.
  destruct (stamp_selected_full (flag_of st) (user_col_of st) (time_col_of st)
              sel_id user fn w df0 ids Hbook Hsel Hids Hin Hname)
    as (cells & w' & _ & Hrun & Hfile).
  eexists (conform (conform df0)), _, _, w', _.
  split; [apply (get_df_book fn w df0 Hbook)|].
  split; [exact Hrun|]. split; [exact Hfile|].
  intros i cell c cells0 Hrow Hne Hc.
  pose proof (not_selected sel_id ids i cell Hrow Hne) as Hx.
  unfold stamped.
  destruct (loc_set_other_row _ (flag_of st) (CStr "Yes") _ c cells0 i Hc Hx)
    as (c1 & Hc1 & E1).
  destruct (loc_set_other_row _ (user_col_of st) (CStr user) _ c c1 i Hc1 Hx)
    as (c2 & Hc2 & E2).
  destruct (loc_set_other_row _ (time_col_of st)
              (CStr (strftime_iso (clock w (ticks (after_resolve fn w)))))
              _ c c2 i Hc2 Hx)
    as (c3 & Hc3 & E3).
  exists c3. split.
  - now apply conform_column_some, conform_column_some.
  - congruence.
Qed.

(** X19.  Once a transition has gone through, the record is off the screen: no
    row of the pending table shown afterwards carries the selected
    identifier. *)
Theorem transition_removes_record_from_pending
  (st : stage) (sel_id user : string) (fn : option string) (w : world)
  (df0 : DataFrame) (ids : list cell)
  (Hbook : files w !! resolved fn w = Some (FBook df0))
  (Hname : nonempty (OsPath.basename (resolved fn w)) = true)
  (Hsel : nonempty sel_id = true)
  (Hids : column "ID" (cols df0) = Some ids)
  (Hfound : exists (i : nat) cell,
              ids !! i = Some cell /\ astype_str cell = sel_id) :
  exists pending w' shown,
    transition st sel_id user fn w = (Ok (Refreshed pending), w')
    /\ column "ID" (cols pending) = Some shown
    /\ forall c, In c shown -> astype_str c <> sel_id.
Proof.
  destruct Hfound as (i0 & cell0 & Hrow0 & Hmatch0).
  destruct (selected_row _ _ _ _ Hrow0 Hmatch0) as [_ Hin].
  rewrite transition_shape.
  destruct (stamp_selected_full (flag_of st) (user_col_of st) (time_col_of st)
              sel_id user fn w df0 ids Hbook Hsel Hids Hin Hname)
    as (cells & w' & Hcells & Hrun & _).
  set (idx := index_where (id_mask sel_id ids)) in *.
  set (t := clock w (ticks (after_resolve fn w))) in *.
  set (loaded := conform (conform df0)) in *.
  assert (Hloaded : column "ID" (cols loaded) = Some ids)
    by (now apply conform_column_some, conform_column_some).
  assert (Hid : column "ID" (cols (stamped (flag_of st) (user_col_of st)
                                     (time_col_of st) idx user t loaded))
                = Some ids).
  { unfold stamped. rewrite !column_loc_set_other by (destruct st; reflexivity).
    exact Hloaded. }
  assert (Hflag : cells
                  = put_rows idx (CStr "Yes")
                      (match column (flag_of st) (cols loaded) with
                       | Some cells0 => cells0
                       | None => repeat nan (nrows loaded)
                       end)).
  { unfold stamped in Hcells.
    rewrite !column_loc_set_other in Hcells by (destruct st; reflexivity).
    rewrite column_loc_set, String.eqb_refl in Hcells. congruence. }
  eexists _, w', (keep (pending_mask cells) ids).
  split; [exact Hrun|]. split.
  - rewrite column_select_rows.
    rewrite (conform_column_some _ _ ids
               (conform_column_some _ _ ids
                  (conform_column_some _ _ ids Hid))).
    reflexivity.
  - intros c Hc Hmatch.
    apply keep_In in Hc as (i & Hm & Hrow).
    destruct (selected_row _ _ _ _ Hrow Hmatch) as [Hx _]. fold idx in Hx.
    unfold pending_mask in Hm. rewrite list_lookup_fmap in Hm.
    rewrite Hflag, lookup_put_rows, Hx in Hm.
    destruct (_ !! i) in Hm; cbn in Hm; discriminate.
Qed.

End WithEnv.

Lemma transition_without_match_writes_nothing_witness :
  exists r w1,
    @get_df Sample.env (Some january) twin_disk = (Ok r, w1)
    /\ @verify_selected Sample.env "8" "quinn" (Some january) twin_disk
       = (Ok NotFound, w1).
Proof.
  assert (Hnone : forall c,
            In c [CStr "20260104-070000-0000"; CInt 7;
                  CStr "20260104-070000-0000"] ->
            @astype_str Sample.env c <> "8")
    by (intros c [<-|[<-|[<-|[]]]]; vm_compute; discriminate).
  exact (proj2 (@transition_without_match_writes_nothing Sample.env Quality
                  "8" "quinn" (Some january) twin_disk twin_table
                  [CStr "20260104-070000-0000"; CInt 7;
                   CStr "20260104-070000-0000"]
                  eq_refl eq_refl Hnone) eq_refl).
Defined.

Lemma transition_leaves_other_rows_witness :
  exists w' saved cells,
    snd (@verify_selected Sample.env "7" "quinn" (Some january) twin_disk) = w'
    /\ files w' !! "data/tool_life_data_2026_01.xlsx" = Some (FBook saved)
    /\ column "Quality_Verified" (cols saved) = Some cells
    /\ cells !! 0 = Some (CStr "Pending").
Proof.
  destruct (@transition_leaves_other_rows Sample.env Quality "7" "quinn"
              (Some january) twin_disk twin_table
              [CStr "20260104-070000-0000"; CInt 7; CStr "20260104-070000-0000"]
              eq_refl eq_refl eq_refl eq_refl
              (ex_intro _ 1 (ex_intro _ (CInt 7) (conj eq_refl eq_refl))))
    as (loaded & w1 & pending & w' & saved & Hload & Hrun & Hfile & Hrows).
  rewrite (@get_df_book Sample.env (Some january) twin_disk twin_table eq_refl)
    in Hload.
  injection Hload as <- _.
  assert (Hne : @astype_str Sample.env (CStr "20260104-070000-0000") <> "7")
    by (vm_compute; discriminate).
  destruct (Hrows 0 (CStr "20260104-070000-0000") "Quality_Verified"
              [CStr "Pending"; CStr "Pending"; CStr "Pending"]
              eq_refl Hne eq_refl)
    as (cells & Hc & Hi).
  unfold transition in Hrun.
  exists w', saved, cells. split; [now rewrite Hrun|].
  split; [exact Hfile|]. split; [exact Hc|exact Hi].
Defined.

Lemma transition_removes_record_from_pending_witness :
  exists pending w' shown,
    @sign_selected Sample.env "7" "lee" (Some january) twin_disk
    = (Ok (Refreshed pending), w')
    /\ column "ID" (cols pending) = Some shown
    /\ forall c, In c shown -> @astype_str Sample.env c <> "7".
Proof.
  exact (@transition_removes_record_from_pending Sample.env Leader "7" "lee"
           (Some january) twin_disk twin_table
           [CStr "20260104-070000-0000"; CInt 7; CStr "20260104-070000-0000"]
           eq_refl eq_refl eq_refl eq_refl
           (ex_intro _ 1 (ex_intro _ (CInt 7) (conj eq_refl eq_refl)))).
Defined.

End WorkflowExtra.

(** ** More on record creation *)

Module EntryExtra.
Import Workflow Storage FrameFacts StorageProps WorkflowProps EntryProps.

Section WithEnv.
Context `{Env}.

Lemma append_entry_out f user downtime cost w out w' :
  append_entry f user downtime cost w = (Ok out, w') -> out = Saved cost.
Proof.
  unfold append_entry, bind at 1.
  destruct (get_df None w) as [[[loaded b]|e] w1]; [|discriminate].
  cbn [fst snd].
  unfold bind at 1, now at 1. unfold bind at 1, next_id, bind at 1, now at 1.
  unfold ret at 1. unfold bind at 1. rewrite save_df_run.
  unfold ret. intros Heq.
  pose proof (f_equal fst Heq) as Ho. cbn [fst] in Ho.
  injection Ho as <-. reflexivity.
Qed.

(** The disk [append_entry] starts from inside [submit]: as it was, or as
    the stock update left it. *)
Definition before_append (w w0 : world) : Prop :=
  w0 = w \/ exists cfg, w0 = snd (save_json TOOL_CONFIG_FILE cfg w).

Lemma submit_cases f user ask w out w' :
  submit f user ask w = (Ok out, w') ->
  (out = MissingInfo /\ w' = w)
  \/ (out = Declined /\ w' = w /\ ask = false)
  \/ exists w0 downtime cost0,
       before_append w w0
       /\ append_entry f user downtime cost0 w0 = (Ok out, w').
Proof.
  unfold submit.
  destruct (negb (nonempty (mach_cb f)) || negb (nonempty (tool_cb f))
            || negb (nonempty (reason_cb f))).
  { intros [= <- <-]. now left. }
  unfold bind at 1, load_json.
  set (cfg := match files w !! TOOL_CONFIG_FILE with
              | Some (FJson j) => j
              | _ => JDict []
              end).
  assert (Hcfg : (match files w !! TOOL_CONFIG_FILE with
                  | Some (FJson j) => (Ok j, w)
                  | _ => (Ok (JDict []), w)
                  end) = (Ok cfg, w)).
  { unfold cfg. destruct (files w !! TOOL_CONFIG_FILE) as [[]|]; reflexivity. }
  rewrite Hcfg. clear Hcfg.
  unfold bind at 1, lift at 1.
  destruct (contains ("Tool " +:+ tool_cb f) cfg) as [[|]|e]; [| |discriminate].
  - unfold bind at 1, lift at 1.
    destruct (subscript ("Tool " +:+ tool_cb f) cfg) as [entry|e]; [|discriminate].
    unfold bind at 1, lift at 1.
    destruct (get_method "cost" (JInt 0) entry) as [c|e]; [|discriminate].
    unfold bind at 1, lift at 1.
    destruct (get_method "stock" (JInt 0) entry) as [s|e]; [|discriminate].
    destruct (safe_int s 0 <=? 0)%Z.
    + destruct ask; cbn [negb].
      * intros Hrun. right. right. eexists w, _, _. split; [now left|exact Hrun].
      * intros [= <- <-]. right. left. now repeat split.
    + unfold bind at 1.
      match goal with
      | |- context [save_json ?p ?o w] =>
          assert (Es : save_json p o w = (Ok tt, snd (save_json p o w)))
            by reflexivity;
          rewrite Es
      end.
      intros Hrun. right. right. eexists _, _, _.
      split; [right; eexists; reflexivity|exact Hrun].
  - intros Hrun. right. right. eexists w, _, _. split; [now left|exact Hrun].
Qed.

(** X20.  The two refusals of [submit] write nothing: with a required field
    empty it ends in [MissingInfo], and it ends in [Declined] only when the
    user declines the stock warning; in both cases the disk and the clock
    are as they were.  Nothing is said of the other runs: one that goes on
    to save an entry writes, and may have written the stock by the time it
    raises. *)
Theorem submit_refusals_write_nothing
  (f : form) (user : string) (askyesno : bool) (w : world) :
  (nonempty (mach_cb f) && nonempty (tool_cb f) && nonempty (reason_cb f)
   = false ->
   submit f user askyesno w = (Ok MissingInfo, w))
  /\ (forall out w',
        submit f user askyesno w = (Ok out, w') ->
        match out with
        | MissingInfo => w' = w
        | Declined => w' = w /\ askyesno = false
        | Saved _ => True
        end).
Proof.
  split.
  - intros Hreq. unfold submit.
    destruct (nonempty (mach_cb f)), (nonempty (tool_cb f)),
      (nonempty (reason_cb f)); try discriminate; reflexivity.
  - intros out w' Hrun.
    destruct (submit_cases f user askyesno w out w' Hrun)
      as [[-> ->]|[(-> & -> & ->)|(w0 & downtime & cost0 & _ & Happ)]].
    + reflexivity.
    + now split.
    + apply append_entry_out in Happ. now subst out.
Qed.

(** X21.  Whenever [submit] saves an entry, the table written back is the one
    [get_df()] loaded with one row more: every column that was loaded is
    there with its cells in place and one cell below them. *)
Theorem submit_appends_below_earlier_rows
  (f : form) (user : string) (askyesno : bool) (w : world)
  (cost : pyfloat) (w' : world)
  (Hrun : submit f user askyesno w = (Ok (Saved cost), w')) :
  exists w0 loaded b w1 path table,
    before_append w w0
    /\ get_df None w0 = (Ok (loaded, b), w1)
    /\ files w' !! path = Some (FBook table)
    /\ nrows table = S (nrows loaded)
    /\ forall c old,
         column c (cols loaded) = Some old ->
         exists x, column c (cols table) = Some (old ++ [x]).
Proof.
  destruct (submit_cases f user askyesno w _ w' Hrun)
    as [[? _]|[(? & _)|(w0 & downtime & cost0 & Hw0 & Happ)]];
    try discriminate.
  destruct (get_df None w0) as [[[loaded b]|e] w1] eqn:Hget.
  - destruct (append_entry_run f user downtime cost0 w0 loaded b w1 Hget)
      as (id & t & path & w2 & Hrun2 & Hfile).
    rewrite Hrun2 in Happ. injection Happ as _ <-.
    eexists w0, loaded, b, w1, path, _.
    split; [exact Hw0|]. split; [exact Hget|]. split; [exact Hfile|].
    split; [now rewrite conform_nrows|].
    intros c old Hc. eexists.
    apply conform_column_some. rewrite column_concat_row, Hc. reflexivity.
  - rewrite (append_entry_raises _ _ _ _ _ _ _ Hget) in Happ. discriminate.
Qed.

(** X22.  The stock is taken before the entry is saved, and stays taken when the
    save fails: with a tool in stock and a month file that is not a
    readable workbook, [submit] raises, the month file is as it was, no
    entry is recorded, and the tool configuration on disk has one piece
    less. *)
Theorem submit_takes_stock_before_saving
  (f : form) (user : string) (askyesno : bool) (w : world)
  (d e : list (string * json)) (fl : file)
  (Hmach : nonempty (mach_cb f) = true)
  (Htool : nonempty (tool_cb f) = true)
  (Hreason : nonempty (reason_cb f) = true)
  (Hcfg : files w !! TOOL_CONFIG_FILE = Some (FJson (JDict d)))
  (Hentry : lookup ("Tool " +:+ tool_cb f) d = Some (JDict e))
  (Hstock : (0 < safe_int (get_or "stock" (JInt 0) e) 0)%Z)
  (Hpath : resolved None w <> TOOL_CONFIG_FILE)
  (Htmp : resolved None w <> TOOL_CONFIG_FILE +:+ ".tmp")
  (Hrescue : rescue_path (resolved None w) (clock w (S (ticks w)))
             <> TOOL_CONFIG_FILE)
  (Hfile : files w !! resolved None w = Some fl)
  (Hbad : is_book fl = false) :
  exists w',
    submit f user askyesno w = (Raise BadWorkbook, w')
    /\ files w' !! resolved None w = Some fl
    /\ files w' !! TOOL_CONFIG_FILE
       = Some (FJson (JDict
            (set ("Tool " +:+ tool_cb f)
               (JDict (set "stock"
                         (JInt (safe_int (get_or "stock" (JInt 0) e) 0 - 1)) e))
               d))).
Proof.
  unfold submit. rewrite Hmach, Htool, Hreason. cbn [negb orb].
  unfold bind at 1, load_json. rewrite Hcfg.
  unfold bind at 1, lift at 1. cbn [contains].
  assert (Hk : has_key ("Tool " +:+ tool_cb f) d = true)
    by (unfold has_key; now rewrite Hentry).
  rewrite Hk.
  unfold bind at 1, lift at 1. cbn [subscript]. rewrite Hentry.
  unfold bind at 1, lift at 1. cbn [get_method].
  unfold bind at 1, lift at 1.
  assert (Hs : (safe_int (get_or "stock" (JInt 0) e) 0 <=? 0)%Z = false)
    by (apply Z.leb_gt; exact Hstock).
  rewrite Hs.
  unfold bind at 1.
  match goal with
  | |- context [save_json ?p ?o w] =>
      assert (Es : save_json p o w = (Ok tt, snd (save_json p o w)))
        by reflexivity;
      rewrite Es; set (w0 := snd (save_json p o w))
  end.
  assert (Hres : resolved None w0 = resolved None w) by reflexivity.
  assert (Hf0 : files w0 !! resolved None w0 = Some fl).
  { rewrite Hres. unfold w0, save_json. cbn [snd files with_files].
    rewrite lookup_insert_ne by congruence.
    rewrite lookup_delete_ne by congruence.
    now rewrite lookup_insert_ne by congruence. }
  pose proof (get_df_unreadable None w0 fl Hf0 Hbad) as Hget. cbn zeta in Hget.
  rewrite (append_entry_raises _ _ _ _ _ _ _ Hget).
  eexists. split; [reflexivity|]. cbn [files].
  rewrite Hres.
  change (ticks (after_resolve None w0)) with (S (ticks w)).
  change (clock w0) with (clock w).
  split.
  - rewrite lookup_insert_ne by (apply rescue_path_fresh). exact Hf0.
  - rewrite lookup_insert_ne by exact Hrescue.
    unfold w0, save_json. cbn [snd files with_files].
    apply lookup_insert_eq.
Qed.

End WithEnv.

(** A disk on which tool 12 is in stock and the month file is damaged. *)
Definition damaged_month : world :=
  Sample.world_of
    [("config/tool_config.json",
      FJson (JDict [("Tool 12", JDict [("cost", JInt 40); ("stock", JInt 3)])]));
     ("data/tool_life_data_2026_01.xlsx", FRaw "not a workbook")]
    Sample.frozen.

Lemma submit_takes_stock_before_saving_witness :
  exists w',
    @submit Sample.env first_form "tess" true damaged_month
    = (Raise BadWorkbook, w')
    /\ files w' !! "config/tool_config.json"
       = Some (FJson (JDict [("Tool 12",
                              JDict [("cost", JInt 40); ("stock", JInt 2)])])).
Proof.
  assert (Hcfg : files damaged_month !! @TOOL_CONFIG_FILE Sample.env
                 = Some (FJson (JDict [("Tool 12",
                                        JDict [("cost", JInt 40);
                                               ("stock", JInt 3)])])))
    by (vm_compute; reflexivity).
  assert (Hstock : (0 < @safe_int Sample.env
                          (get_or "stock" (JInt 0)
                             [("cost", JInt 40); ("stock", JInt 3)]) 0)%Z)
    by (vm_compute; reflexivity).
  assert (Hpath : @resolved Sample.env None damaged_month
                  <> @TOOL_CONFIG_FILE Sample.env)
    by (vm_compute; discriminate).
  assert (Htmp : @resolved Sample.env None damaged_month
                 <> @TOOL_CONFIG_FILE Sample.env +:+ ".tmp")
    by (vm_compute; discriminate).
  assert (Hrescue : rescue_path (@resolved Sample.env None damaged_month)
                      (clock damaged_month (S (ticks damaged_month)))
                    <> @TOOL_CONFIG_FILE Sample.env)
    by (vm_compute; discriminate).
  assert (Hfile : files damaged_month !! @resolved Sample.env None damaged_month
                  = Some (FRaw "not a workbook"))
    by (vm_compute; reflexivity).
  destruct (@submit_takes_stock_before_saving Sample.env first_form "tess" true
              damaged_month
              [("Tool 12", JDict [("cost", JInt 40); ("stock", JInt 3)])]
              [("cost", JInt 40); ("stock", JInt 3)]
              (FRaw "not a workbook")
              eq_refl eq_refl eq_refl Hcfg eq_refl Hstock Hpath Htmp Hrescue
              Hfile eq_refl)
    as (w' & Hrun & _ & Hcfg').
  exists w'. split; [exact Hrun|].
  refine (eq_trans Hcfg' _). vm_compute. reflexivity.
Defined.

Lemma submit_appends_below_earlier_rows_witness :
  exists path table n,
    files (snd (@submit Sample.env first_form "tess" true empty_disk)) !! path
    = Some (FBook table)
    /\ nrows table = S n.
Proof.
  assert (Hfst : fst (@submit Sample.env first_form "tess" true empty_disk)
                 = Ok (Saved float_zero)) by (vm_compute; reflexivity).
  assert (Hrun : @submit Sample.env first_form "tess" true empty_disk
                 = (Ok (Saved float_zero),
                    snd (@submit Sample.env first_form "tess" true empty_disk))).
  { rewrite <- Hfst. apply surjective_pairing. }
  destruct (@submit_appends_below_earlier_rows Sample.env first_form "tess" true
              empty_disk float_zero _ Hrun)
    as (w0 & loaded & b & w1 & path & table & Hw0 & Hget & Hfile & Hn & _).
  exists path, table, (nrows loaded). split; [exact Hfile|exact Hn].
Defined.

End EntryExtra.

(** ** The permission table of [app/permissions.py] *)

Module PermissionsExtra.
Import Permissions.

(** The rank [can] gives a level asked for: unknown names count as [view]. *)
Definition asked (at_least : string) : nat := assoc at_least 1 order.

Ltac by_key key :=
  repeat match goal with
         | |- context [String.eqb key ?b] =>
             destruct (String.eqb_spec key b); cbn [assoc]
         end.

(** X23.  [can] is monotone in the level asked for, grants the level [none] to
    everyone, and grants nothing else to a role that is not in the table.
    Only the super user's [edit_any] reaches [override], and only [Admin]
    may manage users. *)
Theorem can_is_monotone_and_denies_by_default (role key : string) :
  (forall l1 l2, asked l1 <= asked l2 ->
     can role key l2 = true -> can role key l1 = true)
  /\ can role key "none" = true
  /\ (role <> "Top (Super User)" -> role <> "Admin" ->
      forall l, can role key l = (asked l =? 0)%nat)
  /\ (can role key "override" = true
      <-> role = "Top (Super User)" /\ key = "edit_any")
  /\ (can role "manage_users" "view" = true <-> role = "Admin").
Proof.
  split; [|split; [|split; [|split]]].
  - intros l1 l2 Hl. unfold can. fold (asked l1) (asked l2).
    intros H2. apply Nat.leb_le in H2. apply Nat.leb_le. lia.
  - reflexivity.
  - intros H1 H2 l. unfold can, PERMISSIONS. cbn [assoc].
    destruct (String.eqb_spec role "Top (Super User)"); [contradiction|].
    destruct (String.eqb_spec role "Admin"); [contradiction|].
    cbn [assoc]. fold (asked l).
    change (assoc "none" 0 order) with 0. now destruct (asked l).
  - split.
    + unfold can, PERMISSIONS. cbn [assoc].
      destruct (String.eqb_spec role "Top (Super User)") as [->|H1].
      * cbn [assoc]. by_key key; intros Hc;
          try (vm_compute in Hc; discriminate Hc).
        subst key. now split.
      * destruct (String.eqb_spec role "Admin") as [->|H2].
        -- cbn [assoc]. by_key key; intros Hc; vm_compute in Hc;
             discriminate Hc.
        -- cbn [assoc]. intros Hc. vm_compute in Hc. discriminate Hc.
    + intros [-> ->]. reflexivity.
  - split.
    + unfold can, PERMISSIONS. cbn [assoc].
      destruct (String.eqb_spec role "Top (Super User)") as [->|H1].
      * intros Hc. vm_compute in Hc. discriminate Hc.
      * destruct (String.eqb_spec role "Admin") as [->|H2]; [reflexivity|].
        intros Hc. vm_compute in Hc. discriminate Hc.
    + intros ->. reflexivity.
Qed.

Lemma can_is_monotone_and_denies_by_default_witness :
  can "Operator" "export" "view" = false.
Proof.
  rewrite (proj1 (proj2 (proj2
             (can_is_monotone_and_denies_by_default "Operator" "export")))).
  - reflexivity.
  - vm_compute. discriminate.
  - vm_compute. discriminate.
Defined.

End PermissionsExtra.

(** ** User management *)

Module AdminExtra.
Import Admin ActionStore JsonFacts LedgerExtra.

Lemma set_absent k v d : has_key k d = false -> set k v d = d ++ [(k, v)].
Proof.
  unfold has_key. induction d as [|[k' v'] r IH]; cbn; [reflexivity|].
  destruct (String.eqb k k'); [discriminate|].
  intros Hr. now rewrite IH.
Qed.

Section WithEnv.
Context `{Env}.

(** The four checks [create_user] makes on its inputs. *)
Definition valid_input (u p n r : string) : bool :=
  nonempty (strip u) && nonempty (strip p) && nonempty (strip n)
  && mem (strip r) ROLE_OPTIONS.

(** The record stored for a new user. *)
Definition new_record (p n r : string) : json :=
  JDict [("password", JStr (strip p)); ("role", JStr (strip r));
         ("name", JStr (strip n))].

(** The user map the screens work on: what the users file holds, or the
    empty map. *)
Definition raw_users (w : world) : json :=
  match files w !! USERS_FILE with
  | Some (FJson j) => j
  | _ => JDict []
  end.

Definition users_on_disk (w : world) : json := users_map_of (raw_users w).

Lemma load_users_run w :
  Storage.load_json USERS_FILE (JDict []) w = (Ok (raw_users w), w).
Proof.
  unfold Storage.load_json, raw_users.
  destruct (files w !! USERS_FILE) as [[]|]; reflexivity.
Qed.

Lemma users_map_of_dict d : users_map_of (JDict d) = JDict d.
Proof. now destruct d. Qed.

(** X24.  [create_user] adds and never overwrites.  With an input that fails one
    of the four checks, or a user name that is already a key of the map, it
    reports so and leaves the disk as it was.  Otherwise the users file
    afterwards holds the map with the new record added last, every earlier
    user as before, and [list_usernames] finds the new name. *)
Theorem create_user_adds_without_overwriting
  (u p n r : string) (w : world) (d : list (string * json))
  (Husers : users_on_disk w = JDict d) :
  let w' := snd (create_user u p n r w) in
  (valid_input u p n r = false ->
   exists why, create_user u p n r w = (Ok why, w)
               /\ forall rows, why <> Created rows)
  /\ (valid_input u p n r = true -> has_key (strip u) d = true ->
      create_user u p n r w = (Ok AlreadyExists, w))
  /\ (valid_input u p n r = true -> has_key (strip u) d = false ->
      files w' !! USERS_FILE
      = Some (FJson (JDict (d ++ [(strip u, new_record p n r)])))
      /\ (forall k v, lookup k d = Some v ->
            lookup k (d ++ [(strip u, new_record p n r)]) = Some v)
      /\ exists names,
           list_usernames w' = (Ok names, w') /\ In (strip u) names).
Proof.
  intros w'. split; [|split].
  - unfold valid_input, create_user. intros Hv.
    destruct (nonempty (strip u)); cbn [negb];
      [|eexists; split; [reflexivity|discriminate]].
    destruct (nonempty (strip p)); cbn [negb];
      [|eexists; split; [reflexivity|discriminate]].
    destruct (nonempty (strip n)); cbn [negb];
      [|eexists; split; [reflexivity|discriminate]].
    cbn [andb] in Hv. rewrite Hv. cbn [negb].
    eexists; split; [reflexivity|discriminate].
  - unfold valid_input, create_user. intros Hv Hk.
    apply andb_prop in Hv as [Hv Hr]. apply andb_prop in Hv as [Hv Hn].
    apply andb_prop in Hv as [Hu Hp].
    rewrite Hu, Hp, Hn, Hr. cbn [negb].
    unfold bind at 1. rewrite load_users_run. fold (users_on_disk w).
    rewrite Husers. unfold bind at 1, lift at 1. cbn [Workflow.contains].
    now rewrite Hk.
  - intros Hv Hk.
    assert (Hrun : exists res,
               create_user u p n r w
               = (res, snd (Storage.save_json USERS_FILE
                              (JDict (d ++ [(strip u, new_record p n r)])) w))).
    { unfold valid_input in Hv. unfold create_user.
      apply andb_prop in Hv as [Hv Hr]. apply andb_prop in Hv as [Hv Hn].
      apply andb_prop in Hv as [Hu Hp].
      rewrite Hu, Hp, Hn, Hr. cbn [negb].
      unfold bind at 1. rewrite load_users_run. fold (users_on_disk w).
      rewrite Husers. unfold bind at 1, lift at 1. cbn [Workflow.contains].
      rewrite Hk. unfold bind at 1, lift at 1. cbn [setitem].
      fold (new_record p n r). rewrite (set_absent _ _ _ Hk).
      unfold bind at 1.
      set (obj := JDict (d ++ [(strip u, new_record p n r)])).
      assert (Es : Storage.save_json USERS_FILE obj w
                   = (Ok tt, snd (Storage.save_json USERS_FILE obj w)))
        by reflexivity.
      rewrite Es. set (w1 := snd (Storage.save_json USERS_FILE obj w)).
      unfold bind at 1.
      assert (Hw : snd (refresh_users w1) = w1).
      { unfold refresh_users, bind. rewrite load_users_run.
        destruct (users_map_of (raw_users w1)); reflexivity. }
      destruct (refresh_users w1) as [[rows|e] w2];
        cbn [snd] in Hw; subst w2; eexists; reflexivity. }
    destruct Hrun as [res Hrun]. subst w'. rewrite Hrun. cbn [snd].
    set (d' := d ++ [(strip u, new_record p n r)]).
    set (w1 := snd (Storage.save_json USERS_FILE (JDict d') w)).
    assert (Hfile : files w1 !! USERS_FILE = Some (FJson (JDict d'))).
    { unfold w1, Storage.save_json. cbn [snd files with_files].
      apply lookup_insert_eq. }
    split; [exact Hfile|]. split.
    + intros k v Hl. unfold d'. now rewrite JsonFacts.lookup_app, Hl.
    + exists (Builtins.sorted (map fst d')). split.
      * unfold list_usernames, get_users_map, bind.
        rewrite load_users_run. unfold raw_users. rewrite Hfile.
        unfold ret. rewrite users_map_of_dict. reflexivity.
      * apply (Permutation_in _ (Permutation_sym (sorted_perm (map fst d')))).
        unfold d'. rewrite map_app. apply in_or_app. right. now left.
Qed.

End WithEnv.

Lemma create_user_adds_without_overwriting_witness :
  exists names w',
    snd (@create_user Sample.env " tess " "pw" "Tess" "Leader"
           (Sample.world_of [] Sample.frozen)) = w'
    /\ @list_usernames Sample.env w' = (Ok names, w')
    /\ In "tess" names.
Proof.
  destruct (@create_user_adds_without_overwriting Sample.env
              " tess " "pw" "Tess" "Leader"
              (Sample.world_of [] Sample.frozen) [] eq_refl)
    as (_ & _ & Hadd).
  destruct (Hadd eq_refl eq_refl) as (_ & _ & names & Hlist & Hin).
  eexists names, _. split; [reflexivity|]. split; [exact Hlist|exact Hin].
Defined.

End AdminExtra.

(** ** Editing the defect fields of a record *)

Module QualityExtra.
Import Workflow Storage FrameFacts StorageProps WorkflowProps WorkflowExtra.

(** The first row at which a mask holds heads [df.index[mask]]. *)
Lemma positions_from_first mask : forall s (i0 : nat),
  mask !! i0 = Some true ->
  (forall j : nat, j < i0 -> mask !! j = Some false) ->
  exists rest, positions_from s mask = (s + i0) :: rest.
Proof.
  induction mask as [|a r IH]; intros s [|i0] Hi Hfirst; try discriminate.
  - injection Hi as ->. cbn. rewrite Nat.add_0_r. eauto.
  - pose proof (Hfirst 0 ltac:(lia)) as H0. injection H0 as ->. cbn.
    destruct (IH (S s) i0 Hi) as [rest Hrest].
    + intros j Hj. apply (Hfirst (S j)). lia.
    + exists rest. rewrite Hrest. f_equal. lia.
Qed.

Lemma only_row (i i0 : nat) : i <> i0 -> existsb (Nat.eqb i) [i0] = false.
Proof. intros Hne. cbn. now apply Nat.eqb_neq in Hne as ->. Qed.

Lemma this_row (i0 : nat) : existsb (Nat.eqb i0) [i0] = true.
Proof. cbn. now rewrite Nat.eqb_refl. Qed.

Section WithEnv.
Context `{Env}.

(** The four columns the dialog edits, and the cells it writes. *)
Definition defect_columns : list string :=
  ["Defects_Present"; "Defect_Qty"; "Sort_Done"; "Defect_Reason"].

Definition edits (dp dq sd dr : string) : list (string * cell) :=
  [("Defects_Present", CStr dp);
   ("Defect_Qty", CInt (safe_int (JStr dq) 0));
   ("Sort_Done", CStr sd);
   ("Defect_Reason", CStr (strip dr))].

(** The table [edit_defects] saves. *)
Definition edited (i : nat) (dp dq sd dr : string) (loaded : DataFrame)
  : DataFrame :=
  loc_set [i] "Defect_Reason" (CStr (strip dr))
    (loc_set [i] "Sort_Done" (CStr sd)
       (loc_set [i] "Defect_Qty" (CInt (safe_int (JStr dq) 0))
          (loc_set [i] "Defects_Present" (CStr dp) loaded))).

Lemma conform_schema_column c df :
  mem c COLUMNS = true -> exists v, column c (cols (conform df)) = Some v.
Proof.
  intros Hc. rewrite conform_column, Hc.
  destruct (column c (cols df)); eauto.
Qed.

Lemma getitem_loaded c df :
  mem c COLUMNS = true -> exists v, getitem c (conform df) = Ok v.
Proof.
  intros Hc. destruct (conform_schema_column c df Hc) as [v Hv].
  exists v. unfold getitem. now rewrite Hv.
Qed.

(** A column that reads as in a table already in schema keeps doing so
    under [ensure_df_schema]. *)
Lemma conform_keeps c E df :
  column c (cols E) = column c (cols (conform df)) ->
  column c (cols (conform E)) = column c (cols (conform df)).
Proof.
  intros HE. rewrite (conform_column c E), HE.
  destruct (column c (cols (conform df))) eqn:E1; [reflexivity|].
  rewrite conform_column in E1.
  destruct (column c (cols df)); [discriminate|].
  destruct (mem c COLUMNS); [discriminate|reflexivity].
Qed.

Lemma edit_defects_run sel_id fn dp dq sd dr w df0 ids (i0 : nat) rest :
  files w !! resolved fn w = Some (FBook df0) ->
  nonempty sel_id = true ->
  column "ID" (cols df0) = Some ids ->
  index_where (id_mask sel_id ids) = i0 :: rest ->
  nonempty (OsPath.basename (resolved fn w)) = true ->
  forallb (fun c => mem c COLUMNS) defect_columns = true ->
  mem "Quality_Verified" COLUMNS = true ->
  exists pending w',
    edit_defects sel_id fn dp dq sd dr w = (Ok (Refreshed pending), w')
    /\ files w' !! OsPath.join DATA_DIR (OsPath.basename (resolved fn w))
       = Some (FBook (conform (conform
                 (edited i0 dp dq sd dr (conform (conform df0)))))).
Proof.
  intros Hf Hsel Hid Hidx Hbase Hcols Hflag.
  unfold edit_defects. rewrite Hsel. cbn [negb].
  unfold bind at 1. rewrite (get_df_book fn w df0 Hf). cbn [fst snd].
  assert (Hids : getitem "ID" (conform (conform df0)) = Ok ids).
  { unfold getitem.
    now rewrite (conform_column_some _ _ ids (conform_column_some _ _ ids Hid)). }
  unfold bind at 1, lift at 1. rewrite Hids, Hidx.
  cbn [forallb defect_columns] in Hcols.
  apply andb_prop in Hcols as [H1 Hcols]. apply andb_prop in Hcols as [H2 Hcols].
  apply andb_prop in Hcols as [H3 Hcols]. apply andb_prop in Hcols as [H4 _].
  destruct (getitem_loaded "Defects_Present" (conform df0) H1) as [v1 G1].
  destruct (getitem_loaded "Defect_Qty" (conform df0) H2) as [v2 G2].
  destruct (getitem_loaded "Sort_Done" (conform df0) H3) as [v3 G3].
  destruct (getitem_loaded "Defect_Reason" (conform df0) H4) as [v4 G4].
  unfold bind at 1, lift at 1. rewrite G1.
  unfold bind at 1, lift at 1. rewrite G2.
  unfold bind at 1, lift at 1. rewrite G3.
  unfold bind at 1, lift at 1. rewrite G4.
  fold (edited i0 dp dq sd dr (conform (conform df0))).
  set (st := edited _ _ _ _ _ _).
  unfold bind at 1. rewrite save_df_run.
  set (b := OsPath.basename (resolved fn w)) in *.
  unfold resolved at 1. rewrite Hbase.
  unfold bind at 1, quality_load_pending, bind at 1.
  set (w3 := with_files _ _).
  assert (Hr3 : resolved (Some b) w3 = OsPath.join DATA_DIR b)
    by (unfold resolved; now rewrite Hbase).
  assert (Hw3 : files w3 !! resolved (Some b) w3 = Some (FBook (conform st))).
  { rewrite Hr3. unfold w3. cbn [files with_files]. apply lookup_insert_eq. }
  rewrite (get_df_book (Some b) w3 (conform st) Hw3). cbn [fst snd].
  destruct (getitem_loaded "Quality_Verified" (conform (conform st)) Hflag)
    as [cells Hg].
  unfold bind, lift, ret. rewrite Hg.
  eexists _, _. split; [reflexivity|].
  cbn [files with_files]. rewrite Hr3. apply lookup_insert_eq.
Qed.

(** X25.  [edit_defects] changes one row only, the first that carries the
    selected identifier, and in it the four defect fields only: they get
    what the dialog holds; every other column, the approval fields
    included, and every other row, a later row with the same identifier
    included, are in the table written back as they were loaded. *)
Theorem edit_defects_changes_first_match_only
  (sel_id : string) (fn : option string) (dp dq sd dr : string) (w : world)
  (df0 : DataFrame) (ids : list cell) (i0 : nat) (cell0 : cell)
  (Hbook : files w !! resolved fn w = Some (FBook df0))
  (Hwf : well_formed df0)
  (Hname : nonempty (OsPath.basename (resolved fn w)) = true)
  (Hsel : nonempty sel_id = true)
  (Hids : column "ID" (cols df0) = Some ids)
  (Hcols : forallb (fun c => mem c COLUMNS) defect_columns = true)
  (Hflag : mem "Quality_Verified" COLUMNS = true)
  (Hrow : ids !! i0 = Some cell0)
  (Hmatch : astype_str cell0 = sel_id)
  (Hfirst : forall (j : nat) c,
              j < i0 -> ids !! j = Some c -> astype_str c <> sel_id) :
  exists loaded w1 pending w' saved,
    get_df fn w = (Ok (loaded, OsPath.basename (resolved fn w)), w1)
    /\ edit_defects sel_id fn dp dq sd dr w = (Ok (Refreshed pending), w')
    /\ files w' !! OsPath.join DATA_DIR (OsPath.basename (resolved fn w))
        = Some (FBook saved)
    /\ Forall (fun kv =>
                 exists cells,
                   column (fst kv) (cols saved) = Some cells
                   /\ cells !! i0 = Some (snd kv))
         (edits dp dq sd dr)
    /\ (forall c, mem c defect_columns = false ->
          column c (cols saved) = column c (cols loaded))
    /\ (forall (i : nat) c old,
          i <> i0 -> column c (cols loaded) = Some old ->
          exists cells,
            column c (cols saved) = Some cells /\ cells !! i = old !! i).
Proof.
  assert (Hidx : exists rest, index_where (id_mask sel_id ids) = i0 :: rest).
  { apply (positions_from_first (id_mask sel_id ids) 0 i0).
    - unfold id_mask. rewrite list_lookup_fmap, Hrow. cbn.
      now rewrite Hmatch, String.eqb_refl.
    - intros j Hj.
      destruct (lookup_lt_is_Some_2 ids j) as [c Hc].
      { apply lookup_lt_Some in Hrow. lia. }
      unfold id_mask. rewrite list_lookup_fmap, Hc. cbn. f_equal.
      apply String.eqb_neq. now apply (Hfirst j c). }
  destruct Hidx as [rest Hidx].
  destruct (edit_defects_run sel_id fn dp dq sd dr w df0 ids i0 rest
              Hbook Hsel Hids Hidx Hname Hcols Hflag)
    as (pending & w' & Hrun & Hfile).
  set (loaded := conform (conform df0)) in *.
  assert (Hr : rect loaded)
    by (apply rect_conform, rect_conform, well_formed_rect, Hwf).
  assert (Hi0 : i0 < nrows loaded).
  { unfold loaded. rewrite !conform_nrows.
    rewrite <- (well_formed_rect df0 Hwf "ID" ids Hids).
    now apply (lookup_lt_Some ids i0 cell0). }
  set (L1 := loc_set [i0] "Defects_Present" (CStr dp) loaded).
  set (L2 := loc_set [i0] "Defect_Qty" (CInt (safe_int (JStr dq) 0)) L1).
  set (L3 := loc_set [i0] "Sort_Done" (CStr sd) L2).
  assert (R1 : rect L1) by (now apply rect_loc_set).
  assert (R2 : rect L2) by (now apply rect_loc_set).
  assert (R3 : rect L3) by (now apply rect_loc_set).
  assert (N1 : nrows L1 = nrows loaded) by apply nrows_loc_set.
  assert (N2 : nrows L2 = nrows loaded)
    by (unfold L2; now rewrite nrows_loc_set).
  assert (N3 : nrows L3 = nrows loaded)
    by (unfold L3; now rewrite nrows_loc_set).
  change (edited i0 dp dq sd dr loaded)
    with (loc_set [i0] "Defect_Reason" (CStr (strip dr)) L3) in Hfile.
  set (E := loc_set [i0] "Defect_Reason" (CStr (strip dr)) L3) in *.
  eexists loaded, _, pending, w', _.
  split; [apply (get_df_book fn w df0 Hbook)|].
  split; [exact Hrun|]. split; [exact Hfile|].
  split; [|split].
  - unfold edits.
    repeat apply List.Forall_cons; [ | | | |apply List.Forall_nil]; cbn [fst snd].
    + destruct (loc_set_cell [i0] "Defects_Present" (CStr dp) loaded i0
                  Hr Hi0 (this_row i0)) as (cells & Hc & Hv).
      exists cells. split; [|exact Hv].
      apply conform_column_some, conform_column_some.
      unfold E, L3, L2. now rewrite !column_loc_set_other by reflexivity.
    + destruct (loc_set_cell [i0] "Defect_Qty" (CInt (safe_int (JStr dq) 0))
                  L1 i0 R1 ltac:(lia) (this_row i0)) as (cells & Hc & Hv).
      exists cells. split; [|exact Hv].
      apply conform_column_some, conform_column_some.
      unfold E, L3. now rewrite !column_loc_set_other by reflexivity.
    + destruct (loc_set_cell [i0] "Sort_Done" (CStr sd)
                  L2 i0 R2 ltac:(lia) (this_row i0)) as (cells & Hc & Hv).
      exists cells. split; [|exact Hv].
      apply conform_column_some, conform_column_some.
      unfold E. now rewrite !column_loc_set_other by reflexivity.
    + destruct (loc_set_cell [i0] "Defect_Reason" (CStr (strip dr))
                  L3 i0 R3 ltac:(lia) (this_row i0)) as (cells & Hc & Hv).
      exists cells. split; [|exact Hv].
      now apply conform_column_some, conform_column_some.
  - intros c Hc. cbn [mem existsb defect_columns] in Hc.
    apply orb_false_elim in Hc as [E1 Hc]. apply orb_false_elim in Hc as [E2 Hc].
    apply orb_false_elim in Hc as [E3 Hc]. apply orb_false_elim in Hc as [E4 _].
    assert (HE : column c (cols E) = column c (cols loaded)).
    { unfold E, L3, L2, L1. now rewrite !column_loc_set_other by assumption. }
    unfold loaded in *.
    apply conform_keeps. now apply conform_keeps.
  - intros i c old Hne Hc.
    pose proof (only_row i i0 Hne) as Hx.
    destruct (loc_set_other_row _ "Defects_Present" (CStr dp) _ c old i Hc Hx)
      as (c1 & Hc1 & X1).
    destruct (loc_set_other_row _ "Defect_Qty" (CInt (safe_int (JStr dq) 0))
                _ c c1 i Hc1 Hx) as (c2 & Hc2 & X2).
    destruct (loc_set_other_row _ "Sort_Done" (CStr sd) _ c c2 i Hc2 Hx)
      as (c3 & Hc3 & X3).
    destruct (loc_set_other_row _ "Defect_Reason" (CStr (strip dr))
                _ c c3 i Hc3 Hx) as (c4 & Hc4 & X4).
    exists c4. split.
    + now apply conform_column_some, conform_column_some.
    + congruence.
Qed.

End WithEnv.

Lemma edit_defects_changes_first_match_only_witness :
  exists pending w' saved cells,
    @edit_defects Sample.env "20260104-070000-0000" (Some january)
      "Yes" "2" "No" " burr " twin_disk
    = (Ok (Refreshed pending), w')
    /\ files w' !! "data/tool_life_data_2026_01.xlsx" = Some (FBook saved)
    /\ column "Defect_Reason" (cols saved) = Some cells
    /\ cells !! 0 = Some (CStr "burr").
Proof.
  assert (Hfirst : forall (j : nat) c,
            j < 0 ->
            [CStr "20260104-070000-0000"; CInt 7; CStr "20260104-070000-0000"]
              !! j = Some c ->
            @astype_str Sample.env c <> "20260104-070000-0000")
    by (intros j c Hj; lia).
  destruct (@edit_defects_changes_first_match_only Sample.env
              "20260104-070000-0000" (Some january) "Yes" "2" "No" " burr "
              twin_disk twin_table
              [CStr "20260104-070000-0000"; CInt 7; CStr "20260104-070000-0000"]
              0 (CStr "20260104-070000-0000")
              eq_refl twin_table_well_formed eq_refl eq_refl eq_refl
              eq_refl eq_refl eq_refl eq_refl Hfirst)
    as (loaded & w1 & pending & w' & saved & _ & Hrun & Hfile & Hcells & _).
  unfold edits in Hcells.
  apply Forall_cons in Hcells as [_ Hcells].
  apply Forall_cons in Hcells as [_ Hcells].
  apply Forall_cons in Hcells as [_ Hcells].
  apply Forall_cons in Hcells as [(cells & Hc & Hv) _].
  exists pending, w', saved, cells.
  split; [exact Hrun|]. split; [exact Hfile|]. split; [exact Hc|exact Hv].
Defined.

End QualityExtra.
